(** * cms_processor: the CMS hospital-dataset synchroniser (process/process.py)

    A shallow embedding of [CMSDataProcessor] and the properties its
    specification states about it.

    Conventions of the model.
    - The header normaliser is embedded twice.  [Unicode.snake_case] works
      on a [str] of any code points, with the character classes and the
      [str.lower] of CPython 3.11.  [snake_case] is the same function on
      the headers whose code points are all below 256, written as Rocq
      [string]s ([Latin1.snake_case_codes] proves that the two agree
      there); the processor is run on tables with such headers.  Every
      other [str] of the program (identifier, URL, file name, timestamp)
      is a Rocq [string] as well.
    - A value decoded from JSON is a [pyval]; numbers with a fraction or an
      exponent are outside the model.
    - The network, pandas' parser, the writes to the output directory, the
      opening of the metadata file and the clock are fields of a [world].
      The faults of the files the processor writes through file objects
      of its own (the log files, the text of the metadata) are a [faults];
      an [environment] is a world with its faults.  A theorem stated for a
      [world] alone is about runs in which those files are written
      without fault; a theorem stated for a world and its faults is about
      every run. *)

From Stdlib Require Import Bool List ZArith NArith Lia Ascii String.
From Stdlib Require Import DecimalString.
Import ListNotations.
Local Open Scope string_scope.
Local Open Scope bool_scope.
Set Warnings "-register-all".

(** ** Characters and strings, as Python sees them

    The code points below 256: each character of a [string] is read as
    the code point of the same number, and the character classes are
    Python's on that range.  No such code point has a lower case outside
    the range or of more than one code point. *)

Module PyStr.

Definition code (c : ascii) : nat := nat_of_ascii c.

Definition between (lo hi : nat) (c : ascii) : bool :=
  (lo <=? code c)%nat && (code c <=? hi)%nat.

(** [str.isspace] on one character; also [\s] of [re] and what [strip]
    removes: TAB..CR, FS..US, SPACE, NEL and NBSP. *)
Definition isspace (c : ascii) : bool :=
  between 9 13 c || between 28 32 c || between 133 133 c || between 160 160 c.

(** [\w] of [re] on a [str] pattern: alphanumeric or the underscore. *)
Definition isword (c : ascii) : bool :=
  between 48 57 c || between 65 90 c || between 95 95 c || between 97 122 c
  || between 170 170 c || between 178 179 c || between 181 181 c
  || between 185 186 c || between 188 190 c || between 192 214 c
  || between 216 246 c || between 248 255 c.

(** [str.lower] on one character: A..Z and the capital letters of
    0xC0..0xDE (the multiplication sign 0xD7 apart) move up by 32. *)
Definition lower_char (c : ascii) : ascii :=
  if between 65 90 c || between 192 214 c || between 216 222 c
  then ascii_of_nat (code c + 32) else c.

Fixpoint filter (p : ascii -> bool) (s : string) : string :=
  match s with
  | EmptyString => EmptyString
  | String c s' => if p c then String c (filter p s') else filter p s'
  end.

Fixpoint map (f : ascii -> ascii) (s : string) : string :=
  match s with
  | EmptyString => EmptyString
  | String c s' => String (f c) (map f s')
  end.

Fixpoint forallb (p : ascii -> bool) (s : string) : bool :=
  match s with
  | EmptyString => true
  | String c s' => p c && forallb p s'
  end.

Fixpoint lstrip (s : string) : string :=
  match s with
  | EmptyString => EmptyString
  | String c s' => if isspace c then lstrip s' else s
  end.

Fixpoint rstrip (s : string) : string :=
  match s with
  | EmptyString => EmptyString
  | String c s' =>
      match rstrip s' with
      | EmptyString => if isspace c then EmptyString else String c EmptyString
      | r => String c r
      end
  end.

(** [s.strip()] *)
Definition strip (s : string) : string := rstrip (lstrip s).

(** [s.lower()] *)
Definition lower (s : string) : string := map lower_char s.

(** [s.replace(' ', '_')]: the pattern is one character long, so every
    occurrence of SPACE is replaced on its own. *)
Definition replace_space (s : string) : string :=
  map (fun c => if Ascii.eqb c " " then "_"%char else c) s.

(** The class [[\w\s]]. *)
Definition kept (c : ascii) : bool := isword c || isspace c.

(** [re.sub(r'[^\w\s]', '', s)] *)
Definition re_sub_special (s : string) : string := filter kept s.

(** [needle in hay] for two strings *)
Fixpoint contains (needle hay : string) : bool :=
  String.prefix needle hay
  || match hay with
     | EmptyString => false
     | String _ hay' => contains needle hay'
     end.

End PyStr.

(** ** The header normaliser *)

(** One element of the comprehension of [convert_columns_to_snake_case],
    for a header of code points below 256. *)
Definition snake_case (c : string) : string :=
  PyStr.replace_space (PyStr.lower (PyStr.strip (PyStr.re_sub_special c))).

(** [convert_columns_to_snake_case(self, cols)] *)
Definition convert_columns_to_snake_case (cols : list string) : list string :=
  List.map snake_case cols.

(** ** Headers of any characters

    The same normaliser on a [str] of any code points: a header is the
    list of its code points, and the character classes, [str.lower] and
    [str.strip] are those of CPython 3.11 (Unicode 14.0.0).  [str.lower]
    is not one character for one: U+0130 becomes two code points, and
    U+03A3 becomes U+03C2 or U+03C3 according to what surrounds it. *)

Module Unicode.

Local Open Scope N_scope.

(** U+0130, LATIN CAPITAL LETTER I WITH DOT ABOVE *)
Definition capital_i_with_dot : N := 304.

(** U+03A3, GREEK CAPITAL LETTER SIGMA *)
Definition capital_sigma : N := 931.

Definition in_ranges (ranges : list (N * N)) (c : N) : bool :=
  List.existsb (fun r => (fst r <=? c) && (c <=? snd r)) ranges.

(** The code points [\w] of [re] matches in a [str] pattern (alphanumeric
    or the underscore), as ranges. *)
Definition word_ranges : list (N * N) :=
  [(48, 57); (65, 90); (95, 95); (97, 122); (170, 170); (178, 179);
   (181, 181); (185, 186); (188, 190); (192, 214); (216, 246); (248, 705);
   (710, 721); (736, 740); (748, 748); (750, 750); (880, 884); (886, 887);
   (890, 893); (895, 895); (902, 902); (904, 906); (908, 908); (910, 929);
   (931, 1013); (1015, 1153); (1162, 1327); (1329, 1366); (1369, 1369);
   (1376, 1416); (1488, 1514); (1519, 1522); (1568, 1610); (1632, 1641);
   (1646, 1647); (1649, 1747); (1749, 1749); (1765, 1766); (1774, 1788);
   (1791, 1791); (1808, 1808); (1810, 1839); (1869, 1957); (1969, 1969);
   (1984, 2026); (2036, 2037); (2042, 2042); (2048, 2069); (2074, 2074);
   (2084, 2084); (2088, 2088); (2112, 2136); (2144, 2154); (2160, 2183);
   (2185, 2190); (2208, 2249); (2308, 2361); (2365, 2365); (2384, 2384);
   (2392, 2401); (2406, 2415); (2417, 2432); (2437, 2444); (2447, 2448);
   (2451, 2472); (2474, 2480); (2482, 2482); (2486, 2489); (2493, 2493);
   (2510, 2510); (2524, 2525); (2527, 2529); (2534, 2545); (2548, 2553);
   (2556, 2556); (2565, 2570); (2575, 2576); (2579, 2600); (2602, 2608);
   (2610, 2611); (2613, 2614); (2616, 2617); (2649, 2652); (2654, 2654);
   (2662, 2671); (2674, 2676); (2693, 2701); (2703, 2705); (2707, 2728);
   (2730, 2736); (2738, 2739); (2741, 2745); (2749, 2749); (2768, 2768);
   (2784, 2785); (2790, 2799); (2809, 2809); (2821, 2828); (2831, 2832);
   (2835, 2856); (2858, 2864); (2866, 2867); (2869, 2873); (2877, 2877);
   (2908, 2909); (2911, 2913); (2918, 2927); (2929, 2935); (2947, 2947);
   (2949, 2954); (2958, 2960); (2962, 2965); (2969, 2970); (2972, 2972);
   (2974, 2975); (2979, 2980); (2984, 2986); (2990, 3001); (3024, 3024);
   (3046, 3058); (3077, 3084); (3086, 3088); (3090, 3112); (3114, 3129);
   (3133, 3133); (3160, 3162); (3165, 3165); (3168, 3169); (3174, 3183);
   (3192, 3198); (3200, 3200); (3205, 3212); (3214, 3216); (3218, 3240);
   (3242, 3251); (3253, 3257); (3261, 3261); (3293, 3294); (3296, 3297);
   (3302, 3311); (3313, 3314); (3332, 3340); (3342, 3344); (3346, 3386);
   (3389, 3389); (3406, 3406); (3412, 3414); (3416, 3425); (3430, 3448);
   (3450, 3455); (3461, 3478); (3482, 3505); (3507, 3515); (3517, 3517);
   (3520, 3526); (3558, 3567); (3585, 3632); (3634, 3635); (3648, 3654);
   (3664, 3673); (3713, 3714); (3716, 3716); (3718, 3722); (3724, 3747);
   (3749, 3749); (3751, 3760); (3762, 3763); (3773, 3773); (3776, 3780);
   (3782, 3782); (3792, 3801); (3804, 3807); (3840, 3840); (3872, 3891);
   (3904, 3911); (3913, 3948); (3976, 3980); (4096, 4138); (4159, 4169);
   (4176, 4181); (4186, 4189); (4193, 4193); (4197, 4198); (4206, 4208);
   (4213, 4225); (4238, 4238); (4240, 4249); (4256, 4293); (4295, 4295);
   (4301, 4301); (4304, 4346); (4348, 4680); (4682, 4685); (4688, 4694);
   (4696, 4696); (4698, 4701); (4704, 4744); (4746, 4749); (4752, 4784);
   (4786, 4789); (4792, 4798); (4800, 4800); (4802, 4805); (4808, 4822);
   (4824, 4880); (4882, 4885); (4888, 4954); (4969, 4988); (4992, 5007);
   (5024, 5109); (5112, 5117); (5121, 5740); (5743, 5759); (5761, 5786);
   (5792, 5866); (5870, 5880); (5888, 5905); (5919, 5937); (5952, 5969);
   (5984, 5996); (5998, 6000); (6016, 6067); (6103, 6103); (6108, 6108);
   (6112, 6121); (6128, 6137); (6160, 6169); (6176, 6264); (6272, 6276);
   (6279, 6312); (6314, 6314); (6320, 6389); (6400, 6430); (6470, 6509);
   (6512, 6516); (6528, 6571); (6576, 6601); (6608, 6618); (6656, 6678);
   (6688, 6740); (6784, 6793); (6800, 6809); (6823, 6823); (6917, 6963);
   (6981, 6988); (6992, 7001); (7043, 7072); (7086, 7141); (7168, 7203);
   (7232, 7241); (7245, 7293); (7296, 7304); (7312, 7354); (7357, 7359);
   (7401, 7404); (7406, 7411); (7413, 7414); (7418, 7418); (7424, 7615);
   (7680, 7957); (7960, 7965); (7968, 8005); (8008, 8013); (8016, 8023);
   (8025, 8025); (8027, 8027); (8029, 8029); (8031, 8061); (8064, 8116);
   (8118, 8124); (8126, 8126); (8130, 8132); (8134, 8140); (8144, 8147);
   (8150, 8155); (8160, 8172); (8178, 8180); (8182, 8188); (8304, 8305);
   (8308, 8313); (8319, 8329); (8336, 8348); (8450, 8450); (8455, 8455);
   (8458, 8467); (8469, 8469); (8473, 8477); (8484, 8484); (8486, 8486);
   (8488, 8488); (8490, 8493); (8495, 8505); (8508, 8511); (8517, 8521);
   (8526, 8526); (8528, 8585); (9312, 9371); (9450, 9471); (10102, 10131);
   (11264, 11492); (11499, 11502); (11506, 11507); (11517, 11517);
   (11520, 11557); (11559, 11559); (11565, 11565); (11568, 11623);
   (11631, 11631); (11648, 11670); (11680, 11686); (11688, 11694);
   (11696, 11702); (11704, 11710); (11712, 11718); (11720, 11726);
   (11728, 11734); (11736, 11742); (11823, 11823); (12293, 12295);
   (12321, 12329); (12337, 12341); (12344, 12348); (12353, 12438);
   (12445, 12447); (12449, 12538); (12540, 12543); (12549, 12591);
   (12593, 12686); (12690, 12693); (12704, 12735); (12784, 12799);
   (12832, 12841); (12872, 12879); (12881, 12895); (12928, 12937);
   (12977, 12991); (13312, 19903); (19968, 42124); (42192, 42237);
   (42240, 42508); (42512, 42539); (42560, 42606); (42623, 42653);
   (42656, 42735); (42775, 42783); (42786, 42888); (42891, 42954);
   (42960, 42961); (42963, 42963); (42965, 42969); (42994, 43009);
   (43011, 43013); (43015, 43018); (43020, 43042); (43056, 43061);
   (43072, 43123); (43138, 43187); (43216, 43225); (43250, 43255);
   (43259, 43259); (43261, 43262); (43264, 43301); (43312, 43334);
   (43360, 43388); (43396, 43442); (43471, 43481); (43488, 43492);
   (43494, 43518); (43520, 43560); (43584, 43586); (43588, 43595);
   (43600, 43609); (43616, 43638); (43642, 43642); (43646, 43695);
   (43697, 43697); (43701, 43702); (43705, 43709); (43712, 43712);
   (43714, 43714); (43739, 43741); (43744, 43754); (43762, 43764);
   (43777, 43782); (43785, 43790); (43793, 43798); (43808, 43814);
   (43816, 43822); (43824, 43866); (43868, 43881); (43888, 44002);
   (44016, 44025); (44032, 55203); (55216, 55238); (55243, 55291);
   (63744, 64109); (64112, 64217); (64256, 64262); (64275, 64279);
   (64285, 64285); (64287, 64296); (64298, 64310); (64312, 64316);
   (64318, 64318); (64320, 64321); (64323, 64324); (64326, 64433);
   (64467, 64829); (64848, 64911); (64914, 64967); (65008, 65019);
   (65136, 65140); (65142, 65276); (65296, 65305); (65313, 65338);
   (65345, 65370); (65382, 65470); (65474, 65479); (65482, 65487);
   (65490, 65495); (65498, 65500); (65536, 65547); (65549, 65574);
   (65576, 65594); (65596, 65597); (65599, 65613); (65616, 65629);
   (65664, 65786); (65799, 65843); (65856, 65912); (65930, 65931);
   (66176, 66204); (66208, 66256); (66273, 66299); (66304, 66339);
   (66349, 66378); (66384, 66421); (66432, 66461); (66464, 66499);
   (66504, 66511); (66513, 66517); (66560, 66717); (66720, 66729);
   (66736, 66771); (66776, 66811); (66816, 66855); (66864, 66915);
   (66928, 66938); (66940, 66954); (66956, 66962); (66964, 66965);
   (66967, 66977); (66979, 66993); (66995, 67001); (67003, 67004);
   (67072, 67382); (67392, 67413); (67424, 67431); (67456, 67461);
   (67463, 67504); (67506, 67514); (67584, 67589); (67592, 67592);
   (67594, 67637); (67639, 67640); (67644, 67644); (67647, 67669);
   (67672, 67702); (67705, 67742); (67751, 67759); (67808, 67826);
   (67828, 67829); (67835, 67867); (67872, 67897); (67968, 68023);
   (68028, 68047); (68050, 68096); (68112, 68115); (68117, 68119);
   (68121, 68149); (68160, 68168); (68192, 68222); (68224, 68255);
   (68288, 68295); (68297, 68324); (68331, 68335); (68352, 68405);
   (68416, 68437); (68440, 68466); (68472, 68497); (68521, 68527);
   (68608, 68680); (68736, 68786); (68800, 68850); (68858, 68899);
   (68912, 68921); (69216, 69246); (69248, 69289); (69296, 69297);
   (69376, 69415); (69424, 69445); (69457, 69460); (69488, 69505);
   (69552, 69579); (69600, 69622); (69635, 69687); (69714, 69743);
   (69745, 69746); (69749, 69749); (69763, 69807); (69840, 69864);
   (69872, 69881); (69891, 69926); (69942, 69951); (69956, 69956);
   (69959, 69959); (69968, 70002); (70006, 70006); (70019, 70066);
   (70081, 70084); (70096, 70106); (70108, 70108); (70113, 70132);
   (70144, 70161); (70163, 70187); (70272, 70278); (70280, 70280);
   (70282, 70285); (70287, 70301); (70303, 70312); (70320, 70366);
   (70384, 70393); (70405, 70412); (70415, 70416); (70419, 70440);
   (70442, 70448); (70450, 70451); (70453, 70457); (70461, 70461);
   (70480, 70480); (70493, 70497); (70656, 70708); (70727, 70730);
   (70736, 70745); (70751, 70753); (70784, 70831); (70852, 70853);
   (70855, 70855); (70864, 70873); (71040, 71086); (71128, 71131);
   (71168, 71215); (71236, 71236); (71248, 71257); (71296, 71338);
   (71352, 71352); (71360, 71369); (71424, 71450); (71472, 71483);
   (71488, 71494); (71680, 71723); (71840, 71922); (71935, 71942);
   (71945, 71945); (71948, 71955); (71957, 71958); (71960, 71983);
   (71999, 71999); (72001, 72001); (72016, 72025); (72096, 72103);
   (72106, 72144); (72161, 72161); (72163, 72163); (72192, 72192);
   (72203, 72242); (72250, 72250); (72272, 72272); (72284, 72329);
   (72349, 72349); (72368, 72440); (72704, 72712); (72714, 72750);
   (72768, 72768); (72784, 72812); (72818, 72847); (72960, 72966);
   (72968, 72969); (72971, 73008); (73030, 73030); (73040, 73049);
   (73056, 73061); (73063, 73064); (73066, 73097); (73112, 73112);
   (73120, 73129); (73440, 73458); (73648, 73648); (73664, 73684);
   (73728, 74649); (74752, 74862); (74880, 75075); (77712, 77808);
   (77824, 78894); (82944, 83526); (92160, 92728); (92736, 92766);
   (92768, 92777); (92784, 92862); (92864, 92873); (92880, 92909);
   (92928, 92975); (92992, 92995); (93008, 93017); (93019, 93025);
   (93027, 93047); (93053, 93071); (93760, 93846); (93952, 94026);
   (94032, 94032); (94099, 94111); (94176, 94177); (94179, 94179);
   (94208, 100343); (100352, 101589); (101632, 101640); (110576, 110579);
   (110581, 110587); (110589, 110590); (110592, 110882); (110928, 110930);
   (110948, 110951); (110960, 111355); (113664, 113770); (113776, 113788);
   (113792, 113800); (113808, 113817); (119520, 119539); (119648, 119672);
   (119808, 119892); (119894, 119964); (119966, 119967); (119970, 119970);
   (119973, 119974); (119977, 119980); (119982, 119993); (119995, 119995);
   (119997, 120003); (120005, 120069); (120071, 120074); (120077, 120084);
   (120086, 120092); (120094, 120121); (120123, 120126); (120128, 120132);
   (120134, 120134); (120138, 120144); (120146, 120485); (120488, 120512);
   (120514, 120538); (120540, 120570); (120572, 120596); (120598, 120628);
   (120630, 120654); (120656, 120686); (120688, 120712); (120714, 120744);
   (120746, 120770); (120772, 120779); (120782, 120831); (122624, 122654);
   (123136, 123180); (123191, 123197); (123200, 123209); (123214, 123214);
   (123536, 123565); (123584, 123627); (123632, 123641); (124896, 124902);
   (124904, 124907); (124909, 124910); (124912, 124926); (124928, 125124);
   (125127, 125135); (125184, 125251); (125259, 125259); (125264, 125273);
   (126065, 126123); (126125, 126127); (126129, 126132); (126209, 126253);
   (126255, 126269); (126464, 126467); (126469, 126495); (126497, 126498);
   (126500, 126500); (126503, 126503); (126505, 126514); (126516, 126519);
   (126521, 126521); (126523, 126523); (126530, 126530); (126535, 126535);
   (126537, 126537); (126539, 126539); (126541, 126543); (126545, 126546);
   (126548, 126548); (126551, 126551); (126553, 126553); (126555, 126555);
   (126557, 126557); (126559, 126559); (126561, 126562); (126564, 126564);
   (126567, 126570); (126572, 126578); (126580, 126583); (126585, 126588);
   (126590, 126590); (126592, 126601); (126603, 126619); (126625, 126627);
   (126629, 126633); (126635, 126651); (127232, 127244); (130032, 130041);
   (131072, 173791); (173824, 177976); (177984, 178205); (178208, 183969);
   (183984, 191456); (194560, 195101); (196608, 201546)].

(** The code points of [str.isspace], which are those of [\s] and those
    [strip] removes. *)
Definition space_ranges : list (N * N) :=
  [(9, 13); (28, 32); (133, 133); (160, 160); (5760, 5760); (8192, 8202);
   (8232, 8233); (8239, 8239); (8287, 8287); (12288, 12288)].

(** The code points that [str.lower] changes into one other code point,
    each with its lower case; U+0130 and U+03A3 are apart. *)
Definition lower_pairs : list (N * N) :=
  [(65, 97); (66, 98); (67, 99); (68, 100); (69, 101); (70, 102); (71, 103);
   (72, 104); (73, 105); (74, 106); (75, 107); (76, 108); (77, 109);
   (78, 110); (79, 111); (80, 112); (81, 113); (82, 114); (83, 115);
   (84, 116); (85, 117); (86, 118); (87, 119); (88, 120); (89, 121);
   (90, 122); (192, 224); (193, 225); (194, 226); (195, 227); (196, 228);
   (197, 229); (198, 230); (199, 231); (200, 232); (201, 233); (202, 234);
   (203, 235); (204, 236); (205, 237); (206, 238); (207, 239); (208, 240);
   (209, 241); (210, 242); (211, 243); (212, 244); (213, 245); (214, 246);
   (216, 248); (217, 249); (218, 250); (219, 251); (220, 252); (221, 253);
   (222, 254); (256, 257); (258, 259); (260, 261); (262, 263); (264, 265);
   (266, 267); (268, 269); (270, 271); (272, 273); (274, 275); (276, 277);
   (278, 279); (280, 281); (282, 283); (284, 285); (286, 287); (288, 289);
   (290, 291); (292, 293); (294, 295); (296, 297); (298, 299); (300, 301);
   (302, 303); (306, 307); (308, 309); (310, 311); (313, 314); (315, 316);
   (317, 318); (319, 320); (321, 322); (323, 324); (325, 326); (327, 328);
   (330, 331); (332, 333); (334, 335); (336, 337); (338, 339); (340, 341);
   (342, 343); (344, 345); (346, 347); (348, 349); (350, 351); (352, 353);
   (354, 355); (356, 357); (358, 359); (360, 361); (362, 363); (364, 365);
   (366, 367); (368, 369); (370, 371); (372, 373); (374, 375); (376, 255);
   (377, 378); (379, 380); (381, 382); (385, 595); (386, 387); (388, 389);
   (390, 596); (391, 392); (393, 598); (394, 599); (395, 396); (398, 477);
   (399, 601); (400, 603); (401, 402); (403, 608); (404, 611); (406, 617);
   (407, 616); (408, 409); (412, 623); (413, 626); (415, 629); (416, 417);
   (418, 419); (420, 421); (422, 640); (423, 424); (425, 643); (428, 429);
   (430, 648); (431, 432); (433, 650); (434, 651); (435, 436); (437, 438);
   (439, 658); (440, 441); (444, 445); (452, 454); (453, 454); (455, 457);
   (456, 457); (458, 460); (459, 460); (461, 462); (463, 464); (465, 466);
   (467, 468); (469, 470); (471, 472); (473, 474); (475, 476); (478, 479);
   (480, 481); (482, 483); (484, 485); (486, 487); (488, 489); (490, 491);
   (492, 493); (494, 495); (497, 499); (498, 499); (500, 501); (502, 405);
   (503, 447); (504, 505); (506, 507); (508, 509); (510, 511); (512, 513);
   (514, 515); (516, 517); (518, 519); (520, 521); (522, 523); (524, 525);
   (526, 527); (528, 529); (530, 531); (532, 533); (534, 535); (536, 537);
   (538, 539); (540, 541); (542, 543); (544, 414); (546, 547); (548, 549);
   (550, 551); (552, 553); (554, 555); (556, 557); (558, 559); (560, 561);
   (562, 563); (570, 11365); (571, 572); (573, 410); (574, 11366);
   (577, 578); (579, 384); (580, 649); (581, 652); (582, 583); (584, 585);
   (586, 587); (588, 589); (590, 591); (880, 881); (882, 883); (886, 887);
   (895, 1011); (902, 940); (904, 941); (905, 942); (906, 943); (908, 972);
   (910, 973); (911, 974); (913, 945); (914, 946); (915, 947); (916, 948);
   (917, 949); (918, 950); (919, 951); (920, 952); (921, 953); (922, 954);
   (923, 955); (924, 956); (925, 957); (926, 958); (927, 959); (928, 960);
   (929, 961); (932, 964); (933, 965); (934, 966); (935, 967); (936, 968);
   (937, 969); (938, 970); (939, 971); (975, 983); (984, 985); (986, 987);
   (988, 989); (990, 991); (992, 993); (994, 995); (996, 997); (998, 999);
   (1000, 1001); (1002, 1003); (1004, 1005); (1006, 1007); (1012, 952);
   (1015, 1016); (1017, 1010); (1018, 1019); (1021, 891); (1022, 892);
   (1023, 893); (1024, 1104); (1025, 1105); (1026, 1106); (1027, 1107);
   (1028, 1108); (1029, 1109); (1030, 1110); (1031, 1111); (1032, 1112);
   (1033, 1113); (1034, 1114); (1035, 1115); (1036, 1116); (1037, 1117);
   (1038, 1118); (1039, 1119); (1040, 1072); (1041, 1073); (1042, 1074);
   (1043, 1075); (1044, 1076); (1045, 1077); (1046, 1078); (1047, 1079);
   (1048, 1080); (1049, 1081); (1050, 1082); (1051, 1083); (1052, 1084);
   (1053, 1085); (1054, 1086); (1055, 1087); (1056, 1088); (1057, 1089);
   (1058, 1090); (1059, 1091); (1060, 1092); (1061, 1093); (1062, 1094);
   (1063, 1095); (1064, 1096); (1065, 1097); (1066, 1098); (1067, 1099);
   (1068, 1100); (1069, 1101); (1070, 1102); (1071, 1103); (1120, 1121);
   (1122, 1123); (1124, 1125); (1126, 1127); (1128, 1129); (1130, 1131);
   (1132, 1133); (1134, 1135); (1136, 1137); (1138, 1139); (1140, 1141);
   (1142, 1143); (1144, 1145); (1146, 1147); (1148, 1149); (1150, 1151);
   (1152, 1153); (1162, 1163); (1164, 1165); (1166, 1167); (1168, 1169);
   (1170, 1171); (1172, 1173); (1174, 1175); (1176, 1177); (1178, 1179);
   (1180, 1181); (1182, 1183); (1184, 1185); (1186, 1187); (1188, 1189);
   (1190, 1191); (1192, 1193); (1194, 1195); (1196, 1197); (1198, 1199);
   (1200, 1201); (1202, 1203); (1204, 1205); (1206, 1207); (1208, 1209);
   (1210, 1211); (1212, 1213); (1214, 1215); (1216, 1231); (1217, 1218);
   (1219, 1220); (1221, 1222); (1223, 1224); (1225, 1226); (1227, 1228);
   (1229, 1230); (1232, 1233); (1234, 1235); (1236, 1237); (1238, 1239);
   (1240, 1241); (1242, 1243); (1244, 1245); (1246, 1247); (1248, 1249);
   (1250, 1251); (1252, 1253); (1254, 1255); (1256, 1257); (1258, 1259);
   (1260, 1261); (1262, 1263); (1264, 1265); (1266, 1267); (1268, 1269);
   (1270, 1271); (1272, 1273); (1274, 1275); (1276, 1277); (1278, 1279);
   (1280, 1281); (1282, 1283); (1284, 1285); (1286, 1287); (1288, 1289);
   (1290, 1291); (1292, 1293); (1294, 1295); (1296, 1297); (1298, 1299);
   (1300, 1301); (1302, 1303); (1304, 1305); (1306, 1307); (1308, 1309);
   (1310, 1311); (1312, 1313); (1314, 1315); (1316, 1317); (1318, 1319);
   (1320, 1321); (1322, 1323); (1324, 1325); (1326, 1327); (1329, 1377);
   (1330, 1378); (1331, 1379); (1332, 1380); (1333, 1381); (1334, 1382);
   (1335, 1383); (1336, 1384); (1337, 1385); (1338, 1386); (1339, 1387);
   (1340, 1388); (1341, 1389); (1342, 1390); (1343, 1391); (1344, 1392);
   (1345, 1393); (1346, 1394); (1347, 1395); (1348, 1396); (1349, 1397);
   (1350, 1398); (1351, 1399); (1352, 1400); (1353, 1401); (1354, 1402);
   (1355, 1403); (1356, 1404); (1357, 1405); (1358, 1406); (1359, 1407);
   (1360, 1408); (1361, 1409); (1362, 1410); (1363, 1411); (1364, 1412);
   (1365, 1413); (1366, 1414); (4256, 11520); (4257, 11521); (4258, 11522);
   (4259, 11523); (4260, 11524); (4261, 11525); (4262, 11526); (4263, 11527);
   (4264, 11528); (4265, 11529); (4266, 11530); (4267, 11531); (4268, 11532);
   (4269, 11533); (4270, 11534); (4271, 11535); (4272, 11536); (4273, 11537);
   (4274, 11538); (4275, 11539); (4276, 11540); (4277, 11541); (4278, 11542);
   (4279, 11543); (4280, 11544); (4281, 11545); (4282, 11546); (4283, 11547);
   (4284, 11548); (4285, 11549); (4286, 11550); (4287, 11551); (4288, 11552);
   (4289, 11553); (4290, 11554); (4291, 11555); (4292, 11556); (4293, 11557);
   (4295, 11559); (4301, 11565); (5024, 43888); (5025, 43889); (5026, 43890);
   (5027, 43891); (5028, 43892); (5029, 43893); (5030, 43894); (5031, 43895);
   (5032, 43896); (5033, 43897); (5034, 43898); (5035, 43899); (5036, 43900);
   (5037, 43901); (5038, 43902); (5039, 43903); (5040, 43904); (5041, 43905);
   (5042, 43906); (5043, 43907); (5044, 43908); (5045, 43909); (5046, 43910);
   (5047, 43911); (5048, 43912); (5049, 43913); (5050, 43914); (5051, 43915);
   (5052, 43916); (5053, 43917); (5054, 43918); (5055, 43919); (5056, 43920);
   (5057, 43921); (5058, 43922); (5059, 43923); (5060, 43924); (5061, 43925);
   (5062, 43926); (5063, 43927); (5064, 43928); (5065, 43929); (5066, 43930);
   (5067, 43931); (5068, 43932); (5069, 43933); (5070, 43934); (5071, 43935);
   (5072, 43936); (5073, 43937); (5074, 43938); (5075, 43939); (5076, 43940);
   (5077, 43941); (5078, 43942); (5079, 43943); (5080, 43944); (5081, 43945);
   (5082, 43946); (5083, 43947); (5084, 43948); (5085, 43949); (5086, 43950);
   (5087, 43951); (5088, 43952); (5089, 43953); (5090, 43954); (5091, 43955);
   (5092, 43956); (5093, 43957); (5094, 43958); (5095, 43959); (5096, 43960);
   (5097, 43961); (5098, 43962); (5099, 43963); (5100, 43964); (5101, 43965);
   (5102, 43966); (5103, 43967); (5104, 5112); (5105, 5113); (5106, 5114);
   (5107, 5115); (5108, 5116); (5109, 5117); (7312, 4304); (7313, 4305);
   (7314, 4306); (7315, 4307); (7316, 4308); (7317, 4309); (7318, 4310);
   (7319, 4311); (7320, 4312); (7321, 4313); (7322, 4314); (7323, 4315);
   (7324, 4316); (7325, 4317); (7326, 4318); (7327, 4319); (7328, 4320);
   (7329, 4321); (7330, 4322); (7331, 4323); (7332, 4324); (7333, 4325);
   (7334, 4326); (7335, 4327); (7336, 4328); (7337, 4329); (7338, 4330);
   (7339, 4331); (7340, 4332); (7341, 4333); (7342, 4334); (7343, 4335);
   (7344, 4336); (7345, 4337); (7346, 4338); (7347, 4339); (7348, 4340);
   (7349, 4341); (7350, 4342); (7351, 4343); (7352, 4344); (7353, 4345);
   (7354, 4346); (7357, 4349); (7358, 4350); (7359, 4351); (7680, 7681);
   (7682, 7683); (7684, 7685); (7686, 7687); (7688, 7689); (7690, 7691);
   (7692, 7693); (7694, 7695); (7696, 7697); (7698, 7699); (7700, 7701);
   (7702, 7703); (7704, 7705); (7706, 7707); (7708, 7709); (7710, 7711);
   (7712, 7713); (7714, 7715); (7716, 7717); (7718, 7719); (7720, 7721);
   (7722, 7723); (7724, 7725); (7726, 7727); (7728, 7729); (7730, 7731);
   (7732, 7733); (7734, 7735); (7736, 7737); (7738, 7739); (7740, 7741);
   (7742, 7743); (7744, 7745); (7746, 7747); (7748, 7749); (7750, 7751);
   (7752, 7753); (7754, 7755); (7756, 7757); (7758, 7759); (7760, 7761);
   (7762, 7763); (7764, 7765); (7766, 7767); (7768, 7769); (7770, 7771);
   (7772, 7773); (7774, 7775); (7776, 7777); (7778, 7779); (7780, 7781);
   (7782, 7783); (7784, 7785); (7786, 7787); (7788, 7789); (7790, 7791);
   (7792, 7793); (7794, 7795); (7796, 7797); (7798, 7799); (7800, 7801);
   (7802, 7803); (7804, 7805); (7806, 7807); (7808, 7809); (7810, 7811);
   (7812, 7813); (7814, 7815); (7816, 7817); (7818, 7819); (7820, 7821);
   (7822, 7823); (7824, 7825); (7826, 7827); (7828, 7829); (7838, 223);
   (7840, 7841); (7842, 7843); (7844, 7845); (7846, 7847); (7848, 7849);
   (7850, 7851); (7852, 7853); (7854, 7855); (7856, 7857); (7858, 7859);
   (7860, 7861); (7862, 7863); (7864, 7865); (7866, 7867); (7868, 7869);
   (7870, 7871); (7872, 7873); (7874, 7875); (7876, 7877); (7878, 7879);
   (7880, 7881); (7882, 7883); (7884, 7885); (7886, 7887); (7888, 7889);
   (7890, 7891); (7892, 7893); (7894, 7895); (7896, 7897); (7898, 7899);
   (7900, 7901); (7902, 7903); (7904, 7905); (7906, 7907); (7908, 7909);
   (7910, 7911); (7912, 7913); (7914, 7915); (7916, 7917); (7918, 7919);
   (7920, 7921); (7922, 7923); (7924, 7925); (7926, 7927); (7928, 7929);
   (7930, 7931); (7932, 7933); (7934, 7935); (7944, 7936); (7945, 7937);
   (7946, 7938); (7947, 7939); (7948, 7940); (7949, 7941); (7950, 7942);
   (7951, 7943); (7960, 7952); (7961, 7953); (7962, 7954); (7963, 7955);
   (7964, 7956); (7965, 7957); (7976, 7968); (7977, 7969); (7978, 7970);
   (7979, 7971); (7980, 7972); (7981, 7973); (7982, 7974); (7983, 7975);
   (7992, 7984); (7993, 7985); (7994, 7986); (7995, 7987); (7996, 7988);
   (7997, 7989); (7998, 7990); (7999, 7991); (8008, 8000); (8009, 8001);
   (8010, 8002); (8011, 8003); (8012, 8004); (8013, 8005); (8025, 8017);
   (8027, 8019); (8029, 8021); (8031, 8023); (8040, 8032); (8041, 8033);
   (8042, 8034); (8043, 8035); (8044, 8036); (8045, 8037); (8046, 8038);
   (8047, 8039); (8072, 8064); (8073, 8065); (8074, 8066); (8075, 8067);
   (8076, 8068); (8077, 8069); (8078, 8070); (8079, 8071); (8088, 8080);
   (8089, 8081); (8090, 8082); (8091, 8083); (8092, 8084); (8093, 8085);
   (8094, 8086); (8095, 8087); (8104, 8096); (8105, 8097); (8106, 8098);
   (8107, 8099); (8108, 8100); (8109, 8101); (8110, 8102); (8111, 8103);
   (8120, 8112); (8121, 8113); (8122, 8048); (8123, 8049); (8124, 8115);
   (8136, 8050); (8137, 8051); (8138, 8052); (8139, 8053); (8140, 8131);
   (8152, 8144); (8153, 8145); (8154, 8054); (8155, 8055); (8168, 8160);
   (8169, 8161); (8170, 8058); (8171, 8059); (8172, 8165); (8184, 8056);
   (8185, 8057); (8186, 8060); (8187, 8061); (8188, 8179); (8486, 969);
   (8490, 107); (8491, 229); (8498, 8526); (8544, 8560); (8545, 8561);
   (8546, 8562); (8547, 8563); (8548, 8564); (8549, 8565); (8550, 8566);
   (8551, 8567); (8552, 8568); (8553, 8569); (8554, 8570); (8555, 8571);
   (8556, 8572); (8557, 8573); (8558, 8574); (8559, 8575); (8579, 8580);
   (9398, 9424); (9399, 9425); (9400, 9426); (9401, 9427); (9402, 9428);
   (9403, 9429); (9404, 9430); (9405, 9431); (9406, 9432); (9407, 9433);
   (9408, 9434); (9409, 9435); (9410, 9436); (9411, 9437); (9412, 9438);
   (9413, 9439); (9414, 9440); (9415, 9441); (9416, 9442); (9417, 9443);
   (9418, 9444); (9419, 9445); (9420, 9446); (9421, 9447); (9422, 9448);
   (9423, 9449); (11264, 11312); (11265, 11313); (11266, 11314);
   (11267, 11315); (11268, 11316); (11269, 11317); (11270, 11318);
   (11271, 11319); (11272, 11320); (11273, 11321); (11274, 11322);
   (11275, 11323); (11276, 11324); (11277, 11325); (11278, 11326);
   (11279, 11327); (11280, 11328); (11281, 11329); (11282, 11330);
   (11283, 11331); (11284, 11332); (11285, 11333); (11286, 11334);
   (11287, 11335); (11288, 11336); (11289, 11337); (11290, 11338);
   (11291, 11339); (11292, 11340); (11293, 11341); (11294, 11342);
   (11295, 11343); (11296, 11344); (11297, 11345); (11298, 11346);
   (11299, 11347); (11300, 11348); (11301, 11349); (11302, 11350);
   (11303, 11351); (11304, 11352); (11305, 11353); (11306, 11354);
   (11307, 11355); (11308, 11356); (11309, 11357); (11310, 11358);
   (11311, 11359); (11360, 11361); (11362, 619); (11363, 7549); (11364, 637);
   (11367, 11368); (11369, 11370); (11371, 11372); (11373, 593);
   (11374, 625); (11375, 592); (11376, 594); (11378, 11379); (11381, 11382);
   (11390, 575); (11391, 576); (11392, 11393); (11394, 11395);
   (11396, 11397); (11398, 11399); (11400, 11401); (11402, 11403);
   (11404, 11405); (11406, 11407); (11408, 11409); (11410, 11411);
   (11412, 11413); (11414, 11415); (11416, 11417); (11418, 11419);
   (11420, 11421); (11422, 11423); (11424, 11425); (11426, 11427);
   (11428, 11429); (11430, 11431); (11432, 11433); (11434, 11435);
   (11436, 11437); (11438, 11439); (11440, 11441); (11442, 11443);
   (11444, 11445); (11446, 11447); (11448, 11449); (11450, 11451);
   (11452, 11453); (11454, 11455); (11456, 11457); (11458, 11459);
   (11460, 11461); (11462, 11463); (11464, 11465); (11466, 11467);
   (11468, 11469); (11470, 11471); (11472, 11473); (11474, 11475);
   (11476, 11477); (11478, 11479); (11480, 11481); (11482, 11483);
   (11484, 11485); (11486, 11487); (11488, 11489); (11490, 11491);
   (11499, 11500); (11501, 11502); (11506, 11507); (42560, 42561);
   (42562, 42563); (42564, 42565); (42566, 42567); (42568, 42569);
   (42570, 42571); (42572, 42573); (42574, 42575); (42576, 42577);
   (42578, 42579); (42580, 42581); (42582, 42583); (42584, 42585);
   (42586, 42587); (42588, 42589); (42590, 42591); (42592, 42593);
   (42594, 42595); (42596, 42597); (42598, 42599); (42600, 42601);
   (42602, 42603); (42604, 42605); (42624, 42625); (42626, 42627);
   (42628, 42629); (42630, 42631); (42632, 42633); (42634, 42635);
   (42636, 42637); (42638, 42639); (42640, 42641); (42642, 42643);
   (42644, 42645); (42646, 42647); (42648, 42649); (42650, 42651);
   (42786, 42787); (42788, 42789); (42790, 42791); (42792, 42793);
   (42794, 42795); (42796, 42797); (42798, 42799); (42802, 42803);
   (42804, 42805); (42806, 42807); (42808, 42809); (42810, 42811);
   (42812, 42813); (42814, 42815); (42816, 42817); (42818, 42819);
   (42820, 42821); (42822, 42823); (42824, 42825); (42826, 42827);
   (42828, 42829); (42830, 42831); (42832, 42833); (42834, 42835);
   (42836, 42837); (42838, 42839); (42840, 42841); (42842, 42843);
   (42844, 42845); (42846, 42847); (42848, 42849); (42850, 42851);
   (42852, 42853); (42854, 42855); (42856, 42857); (42858, 42859);
   (42860, 42861); (42862, 42863); (42873, 42874); (42875, 42876);
   (42877, 7545); (42878, 42879); (42880, 42881); (42882, 42883);
   (42884, 42885); (42886, 42887); (42891, 42892); (42893, 613);
   (42896, 42897); (42898, 42899); (42902, 42903); (42904, 42905);
   (42906, 42907); (42908, 42909); (42910, 42911); (42912, 42913);
   (42914, 42915); (42916, 42917); (42918, 42919); (42920, 42921);
   (42922, 614); (42923, 604); (42924, 609); (42925, 620); (42926, 618);
   (42928, 670); (42929, 647); (42930, 669); (42931, 43859); (42932, 42933);
   (42934, 42935); (42936, 42937); (42938, 42939); (42940, 42941);
   (42942, 42943); (42944, 42945); (42946, 42947); (42948, 42900);
   (42949, 642); (42950, 7566); (42951, 42952); (42953, 42954);
   (42960, 42961); (42966, 42967); (42968, 42969); (42997, 42998);
   (65313, 65345); (65314, 65346); (65315, 65347); (65316, 65348);
   (65317, 65349); (65318, 65350); (65319, 65351); (65320, 65352);
   (65321, 65353); (65322, 65354); (65323, 65355); (65324, 65356);
   (65325, 65357); (65326, 65358); (65327, 65359); (65328, 65360);
   (65329, 65361); (65330, 65362); (65331, 65363); (65332, 65364);
   (65333, 65365); (65334, 65366); (65335, 65367); (65336, 65368);
   (65337, 65369); (65338, 65370); (66560, 66600); (66561, 66601);
   (66562, 66602); (66563, 66603); (66564, 66604); (66565, 66605);
   (66566, 66606); (66567, 66607); (66568, 66608); (66569, 66609);
   (66570, 66610); (66571, 66611); (66572, 66612); (66573, 66613);
   (66574, 66614); (66575, 66615); (66576, 66616); (66577, 66617);
   (66578, 66618); (66579, 66619); (66580, 66620); (66581, 66621);
   (66582, 66622); (66583, 66623); (66584, 66624); (66585, 66625);
   (66586, 66626); (66587, 66627); (66588, 66628); (66589, 66629);
   (66590, 66630); (66591, 66631); (66592, 66632); (66593, 66633);
   (66594, 66634); (66595, 66635); (66596, 66636); (66597, 66637);
   (66598, 66638); (66599, 66639); (66736, 66776); (66737, 66777);
   (66738, 66778); (66739, 66779); (66740, 66780); (66741, 66781);
   (66742, 66782); (66743, 66783); (66744, 66784); (66745, 66785);
   (66746, 66786); (66747, 66787); (66748, 66788); (66749, 66789);
   (66750, 66790); (66751, 66791); (66752, 66792); (66753, 66793);
   (66754, 66794); (66755, 66795); (66756, 66796); (66757, 66797);
   (66758, 66798); (66759, 66799); (66760, 66800); (66761, 66801);
   (66762, 66802); (66763, 66803); (66764, 66804); (66765, 66805);
   (66766, 66806); (66767, 66807); (66768, 66808); (66769, 66809);
   (66770, 66810); (66771, 66811); (66928, 66967); (66929, 66968);
   (66930, 66969); (66931, 66970); (66932, 66971); (66933, 66972);
   (66934, 66973); (66935, 66974); (66936, 66975); (66937, 66976);
   (66938, 66977); (66940, 66979); (66941, 66980); (66942, 66981);
   (66943, 66982); (66944, 66983); (66945, 66984); (66946, 66985);
   (66947, 66986); (66948, 66987); (66949, 66988); (66950, 66989);
   (66951, 66990); (66952, 66991); (66953, 66992); (66954, 66993);
   (66956, 66995); (66957, 66996); (66958, 66997); (66959, 66998);
   (66960, 66999); (66961, 67000); (66962, 67001); (66964, 67003);
   (66965, 67004); (68736, 68800); (68737, 68801); (68738, 68802);
   (68739, 68803); (68740, 68804); (68741, 68805); (68742, 68806);
   (68743, 68807); (68744, 68808); (68745, 68809); (68746, 68810);
   (68747, 68811); (68748, 68812); (68749, 68813); (68750, 68814);
   (68751, 68815); (68752, 68816); (68753, 68817); (68754, 68818);
   (68755, 68819); (68756, 68820); (68757, 68821); (68758, 68822);
   (68759, 68823); (68760, 68824); (68761, 68825); (68762, 68826);
   (68763, 68827); (68764, 68828); (68765, 68829); (68766, 68830);
   (68767, 68831); (68768, 68832); (68769, 68833); (68770, 68834);
   (68771, 68835); (68772, 68836); (68773, 68837); (68774, 68838);
   (68775, 68839); (68776, 68840); (68777, 68841); (68778, 68842);
   (68779, 68843); (68780, 68844); (68781, 68845); (68782, 68846);
   (68783, 68847); (68784, 68848); (68785, 68849); (68786, 68850);
   (71840, 71872); (71841, 71873); (71842, 71874); (71843, 71875);
   (71844, 71876); (71845, 71877); (71846, 71878); (71847, 71879);
   (71848, 71880); (71849, 71881); (71850, 71882); (71851, 71883);
   (71852, 71884); (71853, 71885); (71854, 71886); (71855, 71887);
   (71856, 71888); (71857, 71889); (71858, 71890); (71859, 71891);
   (71860, 71892); (71861, 71893); (71862, 71894); (71863, 71895);
   (71864, 71896); (71865, 71897); (71866, 71898); (71867, 71899);
   (71868, 71900); (71869, 71901); (71870, 71902); (71871, 71903);
   (93760, 93792); (93761, 93793); (93762, 93794); (93763, 93795);
   (93764, 93796); (93765, 93797); (93766, 93798); (93767, 93799);
   (93768, 93800); (93769, 93801); (93770, 93802); (93771, 93803);
   (93772, 93804); (93773, 93805); (93774, 93806); (93775, 93807);
   (93776, 93808); (93777, 93809); (93778, 93810); (93779, 93811);
   (93780, 93812); (93781, 93813); (93782, 93814); (93783, 93815);
   (93784, 93816); (93785, 93817); (93786, 93818); (93787, 93819);
   (93788, 93820); (93789, 93821); (93790, 93822); (93791, 93823);
   (125184, 125218); (125185, 125219); (125186, 125220); (125187, 125221);
   (125188, 125222); (125189, 125223); (125190, 125224); (125191, 125225);
   (125192, 125226); (125193, 125227); (125194, 125228); (125195, 125229);
   (125196, 125230); (125197, 125231); (125198, 125232); (125199, 125233);
   (125200, 125234); (125201, 125235); (125202, 125236); (125203, 125237);
   (125204, 125238); (125205, 125239); (125206, 125240); (125207, 125241);
   (125208, 125242); (125209, 125243); (125210, 125244); (125211, 125245);
   (125212, 125246); (125213, 125247); (125214, 125248); (125215, 125249);
   (125216, 125250); (125217, 125251)].

(** The code points that are case-ignorable. *)
Definition case_ignorable_ranges : list (N * N) :=
  [(39, 39); (46, 46); (58, 58); (94, 94); (96, 96); (168, 168); (173, 173);
   (175, 175); (180, 180); (183, 184); (688, 879); (884, 885); (890, 890);
   (900, 901); (903, 903); (1155, 1161); (1369, 1369); (1375, 1375);
   (1425, 1469); (1471, 1471); (1473, 1474); (1476, 1477); (1479, 1479);
   (1524, 1524); (1536, 1541); (1552, 1562); (1564, 1564); (1600, 1600);
   (1611, 1631); (1648, 1648); (1750, 1757); (1759, 1768); (1770, 1773);
   (1807, 1807); (1809, 1809); (1840, 1866); (1958, 1968); (2027, 2037);
   (2042, 2042); (2045, 2045); (2070, 2093); (2137, 2139); (2184, 2184);
   (2192, 2193); (2200, 2207); (2249, 2306); (2362, 2362); (2364, 2364);
   (2369, 2376); (2381, 2381); (2385, 2391); (2402, 2403); (2417, 2417);
   (2433, 2433); (2492, 2492); (2497, 2500); (2509, 2509); (2530, 2531);
   (2558, 2558); (2561, 2562); (2620, 2620); (2625, 2626); (2631, 2632);
   (2635, 2637); (2641, 2641); (2672, 2673); (2677, 2677); (2689, 2690);
   (2748, 2748); (2753, 2757); (2759, 2760); (2765, 2765); (2786, 2787);
   (2810, 2815); (2817, 2817); (2876, 2876); (2879, 2879); (2881, 2884);
   (2893, 2893); (2901, 2902); (2914, 2915); (2946, 2946); (3008, 3008);
   (3021, 3021); (3072, 3072); (3076, 3076); (3132, 3132); (3134, 3136);
   (3142, 3144); (3146, 3149); (3157, 3158); (3170, 3171); (3201, 3201);
   (3260, 3260); (3263, 3263); (3270, 3270); (3276, 3277); (3298, 3299);
   (3328, 3329); (3387, 3388); (3393, 3396); (3405, 3405); (3426, 3427);
   (3457, 3457); (3530, 3530); (3538, 3540); (3542, 3542); (3633, 3633);
   (3636, 3642); (3654, 3662); (3761, 3761); (3764, 3772); (3782, 3782);
   (3784, 3789); (3864, 3865); (3893, 3893); (3895, 3895); (3897, 3897);
   (3953, 3966); (3968, 3972); (3974, 3975); (3981, 3991); (3993, 4028);
   (4038, 4038); (4141, 4144); (4146, 4151); (4153, 4154); (4157, 4158);
   (4184, 4185); (4190, 4192); (4209, 4212); (4226, 4226); (4229, 4230);
   (4237, 4237); (4253, 4253); (4348, 4348); (4957, 4959); (5906, 5908);
   (5938, 5939); (5970, 5971); (6002, 6003); (6068, 6069); (6071, 6077);
   (6086, 6086); (6089, 6099); (6103, 6103); (6109, 6109); (6155, 6159);
   (6211, 6211); (6277, 6278); (6313, 6313); (6432, 6434); (6439, 6440);
   (6450, 6450); (6457, 6459); (6679, 6680); (6683, 6683); (6742, 6742);
   (6744, 6750); (6752, 6752); (6754, 6754); (6757, 6764); (6771, 6780);
   (6783, 6783); (6823, 6823); (6832, 6862); (6912, 6915); (6964, 6964);
   (6966, 6970); (6972, 6972); (6978, 6978); (7019, 7027); (7040, 7041);
   (7074, 7077); (7080, 7081); (7083, 7085); (7142, 7142); (7144, 7145);
   (7149, 7149); (7151, 7153); (7212, 7219); (7222, 7223); (7288, 7293);
   (7376, 7378); (7380, 7392); (7394, 7400); (7405, 7405); (7412, 7412);
   (7416, 7417); (7468, 7530); (7544, 7544); (7579, 7679); (8125, 8125);
   (8127, 8129); (8141, 8143); (8157, 8159); (8173, 8175); (8189, 8190);
   (8203, 8207); (8216, 8217); (8228, 8228); (8231, 8231); (8234, 8238);
   (8288, 8292); (8294, 8303); (8305, 8305); (8319, 8319); (8336, 8348);
   (8400, 8432); (11388, 11389); (11503, 11505); (11631, 11631);
   (11647, 11647); (11744, 11775); (11823, 11823); (12293, 12293);
   (12330, 12333); (12337, 12341); (12347, 12347); (12441, 12446);
   (12540, 12542); (40981, 40981); (42232, 42237); (42508, 42508);
   (42607, 42610); (42612, 42621); (42623, 42623); (42652, 42655);
   (42736, 42737); (42752, 42785); (42864, 42864); (42888, 42890);
   (42994, 42996); (43000, 43001); (43010, 43010); (43014, 43014);
   (43019, 43019); (43045, 43046); (43052, 43052); (43204, 43205);
   (43232, 43249); (43263, 43263); (43302, 43309); (43335, 43345);
   (43392, 43394); (43443, 43443); (43446, 43449); (43452, 43453);
   (43471, 43471); (43493, 43494); (43561, 43566); (43569, 43570);
   (43573, 43574); (43587, 43587); (43596, 43596); (43632, 43632);
   (43644, 43644); (43696, 43696); (43698, 43700); (43703, 43704);
   (43710, 43711); (43713, 43713); (43741, 43741); (43756, 43757);
   (43763, 43764); (43766, 43766); (43867, 43871); (43881, 43883);
   (44005, 44005); (44008, 44008); (44013, 44013); (64286, 64286);
   (64434, 64450); (65024, 65039); (65043, 65043); (65056, 65071);
   (65106, 65106); (65109, 65109); (65279, 65279); (65287, 65287);
   (65294, 65294); (65306, 65306); (65342, 65342); (65344, 65344);
   (65392, 65392); (65438, 65439); (65507, 65507); (65529, 65531);
   (66045, 66045); (66272, 66272); (66422, 66426); (67456, 67461);
   (67463, 67504); (67506, 67514); (68097, 68099); (68101, 68102);
   (68108, 68111); (68152, 68154); (68159, 68159); (68325, 68326);
   (68900, 68903); (69291, 69292); (69446, 69456); (69506, 69509);
   (69633, 69633); (69688, 69702); (69744, 69744); (69747, 69748);
   (69759, 69761); (69811, 69814); (69817, 69818); (69821, 69821);
   (69826, 69826); (69837, 69837); (69888, 69890); (69927, 69931);
   (69933, 69940); (70003, 70003); (70016, 70017); (70070, 70078);
   (70089, 70092); (70095, 70095); (70191, 70193); (70196, 70196);
   (70198, 70199); (70206, 70206); (70367, 70367); (70371, 70378);
   (70400, 70401); (70459, 70460); (70464, 70464); (70502, 70508);
   (70512, 70516); (70712, 70719); (70722, 70724); (70726, 70726);
   (70750, 70750); (70835, 70840); (70842, 70842); (70847, 70848);
   (70850, 70851); (71090, 71093); (71100, 71101); (71103, 71104);
   (71132, 71133); (71219, 71226); (71229, 71229); (71231, 71232);
   (71339, 71339); (71341, 71341); (71344, 71349); (71351, 71351);
   (71453, 71455); (71458, 71461); (71463, 71467); (71727, 71735);
   (71737, 71738); (71995, 71996); (71998, 71998); (72003, 72003);
   (72148, 72151); (72154, 72155); (72160, 72160); (72193, 72202);
   (72243, 72248); (72251, 72254); (72263, 72263); (72273, 72278);
   (72281, 72283); (72330, 72342); (72344, 72345); (72752, 72758);
   (72760, 72765); (72767, 72767); (72850, 72871); (72874, 72880);
   (72882, 72883); (72885, 72886); (73009, 73014); (73018, 73018);
   (73020, 73021); (73023, 73029); (73031, 73031); (73104, 73105);
   (73109, 73109); (73111, 73111); (73459, 73460); (78896, 78904);
   (92912, 92916); (92976, 92982); (92992, 92995); (94031, 94031);
   (94095, 94111); (94176, 94177); (94179, 94180); (110576, 110579);
   (110581, 110587); (110589, 110590); (113821, 113822); (113824, 113827);
   (118528, 118573); (118576, 118598); (119143, 119145); (119155, 119170);
   (119173, 119179); (119210, 119213); (119362, 119364); (121344, 121398);
   (121403, 121452); (121461, 121461); (121476, 121476); (121499, 121503);
   (121505, 121519); (122880, 122886); (122888, 122904); (122907, 122913);
   (122915, 122916); (122918, 122922); (123184, 123197); (123566, 123566);
   (123628, 123631); (125136, 125142); (125252, 125259); (127995, 127999);
   (917505, 917505); (917536, 917631); (917760, 917999)].

(** The code points that are cased, among those that are not
    case-ignorable (the property is looked at for no other). *)
Definition cased_ranges : list (N * N) :=
  [(65, 90); (97, 122); (170, 170); (181, 181); (186, 186); (192, 214);
   (216, 246); (248, 442); (444, 447); (452, 659); (661, 687); (880, 883);
   (886, 887); (891, 893); (895, 895); (902, 902); (904, 906); (908, 908);
   (910, 929); (931, 1013); (1015, 1153); (1162, 1327); (1329, 1366);
   (1376, 1416); (4256, 4293); (4295, 4295); (4301, 4301); (4304, 4346);
   (4349, 4351); (5024, 5109); (5112, 5117); (7296, 7304); (7312, 7354);
   (7357, 7359); (7424, 7467); (7531, 7543); (7545, 7578); (7680, 7957);
   (7960, 7965); (7968, 8005); (8008, 8013); (8016, 8023); (8025, 8025);
   (8027, 8027); (8029, 8029); (8031, 8061); (8064, 8116); (8118, 8124);
   (8126, 8126); (8130, 8132); (8134, 8140); (8144, 8147); (8150, 8155);
   (8160, 8172); (8178, 8180); (8182, 8188); (8450, 8450); (8455, 8455);
   (8458, 8467); (8469, 8469); (8473, 8477); (8484, 8484); (8486, 8486);
   (8488, 8488); (8490, 8493); (8495, 8500); (8505, 8505); (8508, 8511);
   (8517, 8521); (8526, 8526); (8544, 8575); (8579, 8580); (9398, 9449);
   (11264, 11387); (11390, 11492); (11499, 11502); (11506, 11507);
   (11520, 11557); (11559, 11559); (11565, 11565); (42560, 42605);
   (42624, 42651); (42786, 42863); (42865, 42887); (42891, 42894);
   (42896, 42954); (42960, 42961); (42963, 42963); (42965, 42969);
   (42997, 42998); (43002, 43002); (43824, 43866); (43872, 43880);
   (43888, 43967); (64256, 64262); (64275, 64279); (65313, 65338);
   (65345, 65370); (66560, 66639); (66736, 66771); (66776, 66811);
   (66928, 66938); (66940, 66954); (66956, 66962); (66964, 66965);
   (66967, 66977); (66979, 66993); (66995, 67001); (67003, 67004);
   (68736, 68786); (68800, 68850); (71840, 71903); (93760, 93823);
   (119808, 119892); (119894, 119964); (119966, 119967); (119970, 119970);
   (119973, 119974); (119977, 119980); (119982, 119993); (119995, 119995);
   (119997, 120003); (120005, 120069); (120071, 120074); (120077, 120084);
   (120086, 120092); (120094, 120121); (120123, 120126); (120128, 120132);
   (120134, 120134); (120138, 120144); (120146, 120485); (120488, 120512);
   (120514, 120538); (120540, 120570); (120572, 120596); (120598, 120628);
   (120630, 120654); (120656, 120686); (120688, 120712); (120714, 120744);
   (120746, 120770); (120772, 120779); (122624, 122633); (122635, 122654);
   (125184, 125251); (127280, 127305); (127312, 127337); (127344, 127369)].

(** [\w] of [re] *)
Definition isword (c : N) : bool := in_ranges word_ranges c.

(** [str.isspace], [\s] of [re], and what [strip] removes *)
Definition isspace (c : N) : bool := in_ranges space_ranges c.

Definition case_ignorable (c : N) : bool := in_ranges case_ignorable_ranges c.

Definition cased (c : N) : bool := in_ranges cased_ranges c.

(** The class [[\w\s]]. *)
Definition kept (c : N) : bool := isword c || isspace c.

(** The lower case of a code point that has one code point for it. *)
Definition lower_simple (c : N) : N :=
  match List.find (fun p => fst p =? c) lower_pairs with
  | Some p => snd p
  | None => c
  end.

(** The lower case of one code point other than U+03A3: U+0130 (capital I
    with a dot above) becomes [i] and U+0307 (the combining dot). *)
Definition lower_full (c : N) : list N :=
  if c =? capital_i_with_dot then [105; 775] else [lower_simple c].

Fixpoint skip_ignorable (s : list N) : list N :=
  match s with
  | [] => []
  | c :: s' => if case_ignorable c then skip_ignorable s' else s
  end.

(** Whether a capital sigma is final: the nearest code point before it
    that is not case-ignorable is cased, and the nearest one after it
    that is not case-ignorable, if there is one, is not cased.  [before]
    is what comes before, nearest first. *)
Definition final_sigma (before after : list N) : bool :=
  match skip_ignorable before with
  | [] => false
  | c :: _ =>
      cased c
      && match skip_ignorable after with
         | [] => true
         | c' :: _ => negb (cased c')
         end
  end.

Fixpoint lower_from (before : list N) (s : list N) : list N :=
  match s with
  | [] => []
  | c :: s' =>
      ((if c =? capital_sigma
        then [if final_sigma before s' then 962 else 963]
        else lower_full c)
       ++ lower_from (c :: before) s')%list
  end.

(** [s.lower()] *)
Definition lower (s : list N) : list N := lower_from [] s.

Fixpoint lstrip (s : list N) : list N :=
  match s with
  | [] => []
  | c :: s' => if isspace c then lstrip s' else s
  end.

Fixpoint rstrip (s : list N) : list N :=
  match s with
  | [] => []
  | c :: s' =>
      match rstrip s' with
      | [] => if isspace c then [] else [c]
      | r => c :: r
      end
  end.

(** [s.strip()] *)
Definition strip (s : list N) : list N := rstrip (lstrip s).

(** [s.replace(' ', '_')] *)
Definition replace_space (s : list N) : list N :=
  List.map (fun c => if c =? 32 then 95 else c) s.

(** [re.sub(r'[^\w\s]', '', s)] *)
Definition re_sub_special (s : list N) : list N := List.filter kept s.

(** One element of the comprehension of [convert_columns_to_snake_case]. *)
Definition snake_case (c : list N) : list N :=
  replace_space (lower (strip (re_sub_special c))).

(** [convert_columns_to_snake_case(self, cols)] *)
Definition convert_columns_to_snake_case (cols : list (list N))
  : list (list N) :=
  List.map snake_case cols.

(** The code points of a string of the 8-bit model. *)
Fixpoint codes (s : string) : list N :=
  match s with
  | EmptyString => []
  | String a s' => N_of_ascii a :: codes s'
  end.

End Unicode.

(** ** Python values, exceptions and results *)

(** A value as [json.load] and [response.json()] build it.  A [dict] keeps
    its items in insertion order; [json] gives it string keys. *)
Inductive pyval : Type :=
| PNone
| PBool (b : bool)
| PInt (z : Z)
| PStr (s : string)
| PList (l : list pyval)
| PDict (d : list (string * pyval)).

(** The exceptions the program can meet; all derive from [Exception]. *)
Inductive exn : Type :=
| KeyError
| TypeError
| AttributeError
| IndexError
| UnboundLocalError (var : string)
| RequestException
| HTTPError
| JSONDecodeError
| ParserError
| OSError
| UnicodeEncodeError
| ValueError.

Inductive result (A : Type) : Type :=
| Ok (a : A)
| Raise (e : exn).
Arguments Ok {A} a.
Arguments Raise {A} e.

Definition is_ok {A} (r : result A) : bool :=
  match r with Ok _ => true | Raise _ => false end.

(** A hashable value, as a key of the in-memory [processed_files] dict. *)
Inductive pykey : Type :=
| KNone
| KBool (b : bool)
| KInt (z : Z)
| KStr (s : string).

Module Py.

(** [bool] is a subclass of [int]. *)
Definition as_int (v : pyval) : option Z :=
  match v with
  | PBool b => Some (Z.b2z b)
  | PInt z => Some z
  | _ => None
  end.

Fixpoint dict_get {V} (d : list (string * V)) (k : string) : option V :=
  match d with
  | [] => None
  | (k', v) :: d' => if String.eqb k' k then Some v else dict_get d' k
  end.

(** [a == b] *)
Fixpoint eq (a b : pyval) : bool :=
  match a, b with
  | PNone, PNone => true
  | PBool x, PBool y => Bool.eqb x y
  | PBool x, PInt y => Z.eqb (Z.b2z x) y
  | PInt x, PBool y => Z.eqb x (Z.b2z y)
  | PInt x, PInt y => Z.eqb x y
  | PStr x, PStr y => String.eqb x y
  | PList x, PList y =>
      (fix go (x y : list pyval) : bool :=
         match x, y with
         | [], [] => true
         | u :: x', v :: y' => eq u v && go x' y'
         | _, _ => false
         end) x y
  | PDict x, PDict y =>
      Nat.eqb (List.length x) (List.length y)
      && (fix go (x : list (string * pyval)) : bool :=
            match x with
            | [] => true
            | (k, u) :: x' =>
                match dict_get y k with
                | Some v => eq u v
                | None => false
                end && go x'
            end) x
  | _, _ => false
  end.

(** [a >= b]; values of unordered types raise [TypeError].  Lists compare
    at the first pair of items that are not equal, then by length. *)
Fixpoint ge (a b : pyval) : result bool :=
  match a, b with
  | PBool _, PBool _ | PBool _, PInt _ | PInt _, PBool _ | PInt _, PInt _ =>
      match as_int a, as_int b with
      | Some x, Some y => Ok (Z.geb x y)
      | _, _ => Raise TypeError
      end
  | PStr x, PStr y => Ok (String.leb y x)
  | PList x, PList y =>
      (fix go (x y : list pyval) : result bool :=
         match x, y with
         | [], [] => Ok true
         | [], _ :: _ => Ok false
         | _ :: _, [] => Ok true
         | u :: x', v :: y' => if eq u v then go x' y' else ge u v
         end) x y
  | _, _ => Raise TypeError
  end.

(** [bool(v)] *)
Definition truthy (v : pyval) : bool :=
  match v with
  | PNone => false
  | PBool b => b
  | PInt z => negb (Z.eqb z 0)
  | PStr s => match s with EmptyString => false | String _ _ => true end
  | PList l => match l with [] => false | _ => true end
  | PDict d => match d with [] => false | _ => true end
  end.

(** [v[key]] for a string [key] *)
Definition getitem (v : pyval) (key : string) : result pyval :=
  match v with
  | PDict d => match dict_get d key with Some x => Ok x | None => Raise KeyError end
  | _ => Raise TypeError
  end.

(** [v.get(key, default)]; only a dict has the method. *)
Definition get (v : pyval) (key : string) (default : pyval) : result pyval :=
  match v with
  | PDict d => match dict_get d key with Some x => Ok x | None => Ok default end
  | _ => Raise AttributeError
  end.

(** [v[0]] *)
Definition first (v : pyval) : result pyval :=
  match v with
  | PList (x :: _) => Ok x
  | PList [] => Raise IndexError
  | PStr (String c _) => Ok (PStr (String c EmptyString))
  | PStr EmptyString => Raise IndexError
  | PDict _ => Raise KeyError
  | _ => Raise TypeError
  end.

Fixpoint chars (s : string) : list pyval :=
  match s with
  | EmptyString => []
  | String c s' => PStr (String c EmptyString) :: chars s'
  end.

(** The items [for x in v] yields. *)
Definition iter (v : pyval) : result (list pyval) :=
  match v with
  | PList l => Ok l
  | PDict d => Ok (List.map (fun kv => PStr (fst kv)) d)
  | PStr s => Ok (chars s)
  | _ => Raise TypeError
  end.

(** [needle in v] for a string [needle] *)
Definition contains (needle : string) (v : pyval) : result bool :=
  match v with
  | PList l => Ok (List.existsb (eq (PStr needle)) l)
  | PStr s => Ok (PyStr.contains needle s)
  | PDict d => Ok (match dict_get d needle with Some _ => true | None => false end)
  | _ => Raise TypeError
  end.

(** [hash(v)], as far as a dict needs it: lists and dicts are unhashable. *)
Definition hash_key (v : pyval) : result pykey :=
  match v with
  | PNone => Ok KNone
  | PBool b => Ok (KBool b)
  | PInt z => Ok (KInt z)
  | PStr s => Ok (KStr s)
  | PList _ | PDict _ => Raise TypeError
  end.

Definition of_key (k : pykey) : pyval :=
  match k with
  | KNone => PNone
  | KBool b => PBool b
  | KInt z => PInt z
  | KStr s => PStr s
  end.

(** Equality of two keys of a dict: [True] and [1] are one key. *)
Definition key_eqb (a b : pykey) : bool := eq (of_key a) (of_key b).

Definition str_of_Z (z : Z) : string := NilZero.string_of_int (Z.to_int z).

(** [str(k)], as an f-string formats it. *)
Definition str_key (k : pykey) : string :=
  match k with
  | KNone => "None"
  | KBool true => "True"
  | KBool false => "False"
  | KInt z => str_of_Z z
  | KStr s => s
  end.

End Py.

(** The in-memory dict [self.previous_runs['processed_files']]. *)
Module Checkpoints.

Definition t : Type := list (pykey * pyval).

Fixpoint lookup (d : t) (k : pykey) : option pyval :=
  match d with
  | [] => None
  | (k', v) :: d' => if Py.key_eqb k' k then Some v else lookup d' k
  end.

(** [k in d] *)
Definition mem (d : t) (k : pykey) : bool :=
  match lookup d k with Some _ => true | None => false end.

(** [d[k]] *)
Definition getitem (d : t) (k : pykey) : result pyval :=
  match lookup d k with Some v => Ok v | None => Raise KeyError end.

(** [d[k] = v]: an existing key keeps its place (and its key object), a
    new key goes last. *)
Fixpoint set (d : t) (k : pykey) (v : pyval) : t :=
  match d with
  | [] => [(k, v)]
  | (k', v') :: d' =>
      if Py.key_eqb k' k then (k', v) :: d' else (k', v') :: set d' k v
  end.

End Checkpoints.

(** ** [json.dump(obj, f, indent=2)] *)

Module Json.

Definition newline : string := String (ascii_of_nat 10) EmptyString.
Definition dquote : string := String (ascii_of_nat 34) EmptyString.
Definition backslash : string := String (ascii_of_nat 92) EmptyString.

Fixpoint indent (level : nat) : string :=
  match level with
  | O => EmptyString
  | S n => "  " ++ indent n
  end.

Definition hex_digit (n : nat) : string :=
  String.substring n 1 "0123456789abcdef".

(** [ensure_ascii] is on: the quote, the backslash and every character
    outside SPACE..~ are escaped. *)
Definition escape_char (c : ascii) : string :=
  let n := nat_of_ascii c in
  if (n =? 34)%nat then backslash ++ dquote
  else if (n =? 92)%nat then backslash ++ backslash
  else if (n =? 10)%nat then backslash ++ "n"
  else if (n =? 13)%nat then backslash ++ "r"
  else if (n =? 9)%nat then backslash ++ "t"
  else if (n =? 8)%nat then backslash ++ "b"
  else if (n =? 12)%nat then backslash ++ "f"
  else if (n <? 32)%nat || (126 <? n)%nat
       then backslash ++ "u00" ++ hex_digit (n / 16) ++ hex_digit (n mod 16)
  else String c EmptyString.

Fixpoint escape (s : string) : string :=
  match s with
  | EmptyString => EmptyString
  | String c s' => escape_char c ++ escape s'
  end.

Definition encode_str (s : string) : string := dquote ++ escape s ++ dquote.

Fixpoint encode (level : nat) (v : pyval) : string :=
  match v with
  | PNone => "null"
  | PBool true => "true"
  | PBool false => "false"
  | PInt z => Py.str_of_Z z
  | PStr s => encode_str s
  | PList [] => "[]"
  | PList (x :: l) =>
      "[" ++ newline ++ indent (S level) ++ encode (S level) x
      ++ (fix items (l : list pyval) : string :=
            match l with
            | [] => EmptyString
            | y :: l' =>
                "," ++ newline ++ indent (S level) ++ encode (S level) y
                ++ items l'
            end) l
      ++ newline ++ indent level ++ "]"
  | PDict [] => "{}"
  | PDict ((k, x) :: d) =>
      "{" ++ newline ++ indent (S level)
      ++ encode_str k ++ ": " ++ encode (S level) x
      ++ (fix items (d : list (string * pyval)) : string :=
            match d with
            | [] => EmptyString
            | (k', y) :: d' =>
                "," ++ newline ++ indent (S level)
                ++ encode_str k' ++ ": " ++ encode (S level) y ++ items d'
            end) d
      ++ newline ++ indent level ++ "}"
  end.

(** A key that is not a [str] is written as [json] coerces it. *)
Definition key (k : pykey) : string :=
  match k with
  | KNone => "null"
  | KBool true => "true"
  | KBool false => "false"
  | KInt z => Py.str_of_Z z
  | KStr s => s
  end.

Definition dumps (v : pyval) : string := encode 0 v.

End Json.

(** ** The data of a run *)

(** [self.previous_runs]: the shape [load_metadata] returns when there is
    no file and [save_metadata] writes back. *)
Record run_metadata : Type := {
  last_run : pyval;
  processed_files : Checkpoints.t
}.

(** [{"last_run": None, "processed_files": {}}] *)
Definition empty_metadata : run_metadata :=
  {| last_run := PNone; processed_files := [] |}.

Definition metadata_value (m : run_metadata) : pyval :=
  PDict [ ("last_run", last_run m);
          ("processed_files",
           PDict (List.map (fun kv => (Json.key (fst kv), snd kv))
                           (processed_files m))) ].

(** A [pandas.DataFrame]: its column labels and its data, which the
    program never looks at. *)
Record dataframe : Type := {
  columns : list string;
  rows : list (list string)
}.

(** [df.columns = cols] *)
Definition set_columns (df : dataframe) (cols : list string) : dataframe :=
  {| columns := cols; rows := rows df |}.

(** A [requests.Response]: whether [raise_for_status()] passes, [.text],
    and what [.json()] gives. *)
Record response : Type := {
  status_ok : bool;
  text : string;
  json : result pyval
}.

(** The lines [logger] writes: the f-string's template and the values it
    formats. *)
Inductive message : Type :=
| FailedToConnect (url : pyval) (e : exn)
| FailedToIdentifyTheme (e : exn)
| ErrorProcessing (dataset_id : pyval) (e : exn)
| UpToDate (dataset_id : pyval)
| FailedToGetDownloadUrl (dataset_id : pyval)
| SuccessfullyReadCsv (dataset_id : pyval)
| FailedToReadCsv (dataset_id : pyval).

(** A file of the output directory: a table written in full, or what a
    failed write left behind. *)
Inductive csv_file : Type :=
| Table (df : dataframe)
| Partial.

(** What [df.to_csv(path)] can do: write the file, fail before it touches
    it, or fail after it has opened (and truncated) it. *)
Inductive write_outcome : Type :=
| Written
| FailedUntouched
| FailedTruncated.

(** Everything the processor does to the outside or to shared memory, in
    the order it happens. *)
Inductive event : Type :=
| EvRequest (url : pyval)
| EvLog (log_file : string) (now : string) (m : message)
| EvToCsv (name : string) (df : dataframe) (o : write_outcome)
| EvSetCheckpoint (k : pykey) (v : pyval)
| EvSetLastRun (v : pyval)
| EvOpenMetadata (ok : bool)
| EvWriteMetadata (content : string)
| EvLogFailed (log_file : string) (m : message) (e : exn)
| EvWriteMetadataFailed (written : string) (e : exn).

(** The outside.  Each answer may depend on the logical time at which it
    is asked, the number of events so far. *)
Record world : Type := {
  requests_get : nat -> pyval -> result response;
  read_csv : string -> result dataframe;
  to_csv : nat -> string -> dataframe -> write_outcome;
  open_metadata : nat -> bool;
  now : nat -> string
}.

(** What can go wrong with the two writes the processor makes through
    [open] and a file object of its own.  [log_fault t f = Some e]: the
    append to the log file [f] that [logger] makes at time [t] raises [e]
    (the [open] or the [write]: an [OSError], or a [UnicodeEncodeError]
    of the line), and no line is written.  [dump_fault t = Some (e, n)]:
    the [json.dump] that [save_metadata] makes at time [t], or the close
    of the file after it, raises [e] when the first [n] characters of the
    text have reached the file. *)
Record faults : Type := {
  log_fault : nat -> string -> option exn;
  dump_fault : nat -> option (exn * nat)
}.

Definition no_faults : faults :=
  {| log_fault := fun _ _ => None; dump_fault := fun _ => None |}.

(** The environment of a run: the outside and the faults of the
    processor's own files. *)
Record environment : Type := Env {
  the_world : world;
  the_faults : faults
}.

(** A [world] on its own is an environment without faults: where a
    statement runs a program in a [world], every append to a log file
    and every write of the metadata file that is reached succeeds. *)
Definition reliable (w : world) : environment :=
  {| the_world := w; the_faults := no_faults |}.
Coercion reliable : world >-> environment.

(** The shared state: [self.previous_runs], the output directory (by file
    name), the file at the metadata path ([None]: no such file), and the
    events so far. *)
Record state : Type := {
  previous_runs : run_metadata;
  output_dir : list (string * csv_file);
  metadata_file : option string;
  trace : list event
}.

Fixpoint write_file {V} (fs : list (string * V)) (name : string) (v : V)
  : list (string * V) :=
  match fs with
  | [] => [(name, v)]
  | (n, v') :: fs' =>
      if String.eqb n name then (n, v) :: fs' else (n, v') :: write_file fs' name v
  end.

Definition is_request (e : event) : bool :=
  match e with EvRequest _ => true | _ => false end.

(** The URLs [requests.get] was called on. *)
Definition requests (t : list event) : list event := List.filter is_request t.

(** The lines of one log file. *)
Definition log_lines (file : string) (t : list event) : list message :=
  List.flat_map
    (fun e => match e with
              | EvLog f _ m => if String.eqb f file then [m] else []
              | _ => []
              end) t.

(** ** Programs

    A method of the processor is a tree of the operations it performs on
    the world and on shared memory, so that one can run it to the end
    ([exec]), stop it between two operations ([steps]) or interleave it
    with others (the pool). *)

Inductive op : Type -> Type :=
| ReadMetadata : op run_metadata
| SetCheckpoint (k : pykey) (v : pyval) : op unit
| SetLastRun (v : pyval) : op unit
| AppendLog (log_file : string) (m : message) : op (result unit)
| RequestsGet (url : pyval) : op (result response)
| ReadCsv (content : string) : op (result dataframe)
| ToCsv (name : string) (df : dataframe) : op (result unit)
| Now : op string
| OpenMetadata : op (result unit)
| WriteMetadata (content : string) : op (result unit).

Inductive prog (A : Type) : Type :=
| Ret (a : A)
| Throw (e : exn)
| Vis (X : Type) (o : op X) (k : X -> prog A).
Arguments Ret {A} a.
Arguments Throw {A} e.
Arguments Vis {A X} o k.

Fixpoint bind {A B} (p : prog A) (f : A -> prog B) : prog B :=
  match p with
  | Ret a => f a
  | Throw e => Throw e
  | Vis o k => Vis o (fun x => bind (k x) f)
  end.

(** [try: p  except Exception as e: h e] *)
Fixpoint catch {A} (p : prog A) (h : exn -> prog A) : prog A :=
  match p with
  | Ret a => Ret a
  | Throw e => h e
  | Vis o k => Vis o (fun x => catch (k x) h)
  end.

Definition call {X} (o : op X) : prog X := Vis o Ret.

Definition lift {A} (r : result A) : prog A :=
  match r with
  | Ok a => Ret a
  | Raise e => Throw e
  end.

Definition rbind {A B} (r : result A) (f : A -> result B) : result B :=
  match r with
  | Ok a => f a
  | Raise e => Raise e
  end.

Declare Scope prog_scope.
Delimit Scope prog_scope with prog.
Notation "x <- p ;; q" := (bind p (fun x => q))
  (at level 100, p at next level, right associativity) : prog_scope.
Notation "p ;; q" := (bind p (fun _ => q))
  (at level 100, right associativity) : prog_scope.
Notation "'let*' x := r 'in' q" := (rbind r (fun x => q))
  (at level 100, x name, r at next level, right associativity).

Definition with_trace (st : state) (e : event) : state :=
  {| previous_runs := previous_runs st;
     output_dir := output_dir st;
     metadata_file := metadata_file st;
     trace := (trace st ++ [e])%list |}.

Definition with_metadata (st : state) (m : run_metadata) : state :=
  {| previous_runs := m;
     output_dir := output_dir st;
     metadata_file := metadata_file st;
     trace := trace st |}.

Definition with_output (st : state) (name : string) (f : csv_file) : state :=
  {| previous_runs := previous_runs st;
     output_dir := write_file (output_dir st) name f;
     metadata_file := metadata_file st;
     trace := trace st |}.

Definition with_metadata_file (st : state) (content : string) : state :=
  {| previous_runs := previous_runs st;
     output_dir := output_dir st;
     metadata_file := Some content;
     trace := trace st |}.

(** One operation, on the shared state. *)
Definition perform {X} (env : environment) (o : op X) (st : state) : X * state :=
  let t := List.length (trace st) in
  let w := the_world env in
  match o in op X return X * state with
  | ReadMetadata => (previous_runs st, st)
  | SetCheckpoint k v =>
      let m := previous_runs st in
      (tt, with_trace
             (with_metadata st
                {| last_run := last_run m;
                   processed_files := Checkpoints.set (processed_files m) k v |})
             (EvSetCheckpoint k v))
  | SetLastRun v =>
      let m := previous_runs st in
      (tt, with_trace
             (with_metadata st
                {| last_run := v; processed_files := processed_files m |})
             (EvSetLastRun v))
  | AppendLog f m =>
      match log_fault (the_faults env) t f with
      | None => (Ok tt, with_trace st (EvLog f (now w t) m))
      | Some e => (Raise e, with_trace st (EvLogFailed f m e))
      end
  | RequestsGet url => (requests_get w t url, with_trace st (EvRequest url))
  | ReadCsv content => (read_csv w content, st)
  | ToCsv name df =>
      match to_csv w t name df with
      | Written =>
          (Ok tt, with_trace (with_output st name (Table df))
                    (EvToCsv name df Written))
      | FailedUntouched =>
          (Raise OSError, with_trace st (EvToCsv name df FailedUntouched))
      | FailedTruncated =>
          (Raise OSError, with_trace (with_output st name Partial)
                            (EvToCsv name df FailedTruncated))
      end
  | Now => (now w t, st)
  | OpenMetadata =>
      if open_metadata w t
      then (Ok tt, with_trace (with_metadata_file st EmptyString)
                     (EvOpenMetadata true))
      else (Raise OSError, with_trace st (EvOpenMetadata false))
  | WriteMetadata content =>
      match dump_fault (the_faults env) t with
      | None =>
          (Ok tt, with_trace (with_metadata_file st content)
                    (EvWriteMetadata content))
      | Some (e, n) =>
          let written := String.substring 0 n content in
          (Raise e, with_trace (with_metadata_file st written)
                      (EvWriteMetadataFailed written e))
      end
  end.

(** Run a program to its end. *)
Fixpoint exec {A} (w : environment) (p : prog A) (st : state) : result A * state :=
  match p with
  | Ret a => (Ok a, st)
  | Throw e => (Raise e, st)
  | Vis o k => let (x, st') := perform w o st in exec w (k x) st'
  end.

(** Run one operation of a program, if it has one left. *)
Definition step {A} (w : environment) (ps : prog A * state) : prog A * state :=
  match fst ps with
  | Vis o k => let (x, st') := perform w o (snd ps) in (k x, st')
  | _ => ps
  end.

Fixpoint steps {A} (n : nat) (w : environment) (ps : prog A * state)
  : prog A * state :=
  match n with
  | O => ps
  | S n' => steps n' w (step w ps)
  end.

(** ** The methods of [CMSDataProcessor] *)

Section Processor.

Local Open Scope prog_scope.

(** [self.base_url] *)
Variable base_url : string.

(** [save_metadata(self)]: [open(self.metadata_file, 'w')] creates or
    truncates the file at the metadata path itself; [json.dump] then
    writes into it, and may raise when part of the text is written.
    Buffered writing may leave further prefixes of the text on disk
    between the two operations; the model has the empty file only. *)
Definition save_metadata : prog unit :=
  f <- call OpenMetadata ;;
  _ <- lift f ;;
  m <- call ReadMetadata ;;
  written <- call (WriteMetadata (Json.dumps (metadata_value m))) ;;
  lift written.

(** [logger(self, message, log_file)]: the line is appended, or the
    [open] or the [write] raises. *)
Definition logger (m : message) (log_file : string) : prog unit :=
  appended <- call (AppendLog log_file m) ;;
  lift appended.

(** [connect(self, url)]: when [requests.get] itself raises, [response]
    is never bound and the [return] after the handler raises. *)
Definition connect (url : pyval) : prog response :=
  r <- call (RequestsGet url) ;;
  match r with
  | Raise e =>
      logger (FailedToConnect url e) "errors.log" ;;
      Throw (UnboundLocalError "response")
  | Ok resp =>
      if status_ok resp then Ret resp
      else (logger (FailedToConnect url HTTPError) "errors.log" ;; Ret resp)
  end.

(** The comprehension of [get_hospital_datasets]. *)
Fixpoint hospital_datasets (datasets : list pyval) : result (list pyval) :=
  match datasets with
  | [] => Ok []
  | dataset :: rest =>
      let* theme := Py.get dataset "theme" (PList []) in
      let* keep := Py.contains "Hospitals" theme in
      let* others := hospital_datasets rest in
      Ok (if keep then dataset :: others else others)
  end.

(** [get_hospital_datasets(self)] *)
Definition get_hospital_datasets : prog (list pyval) :=
  catch
    (response <- connect (PStr base_url) ;;
     datasets <- lift (json response) ;;
     items <- lift (Py.iter datasets) ;;
     lift (hospital_datasets items))
    (fun e =>
       logger (FailedToIdentifyTheme e) "errors.log" ;;
       Ret [PDict []]).

(** [dataset.get('distribution', [{}])[0].get('downloadURL')] *)
Definition download_url_of (dataset : pyval) : result pyval :=
  let* distribution := Py.get dataset "distribution" (PList [PDict []]) in
  let* entry := Py.first distribution in
  Py.get entry "downloadURL" PNone.

(** The [except] branch of [process_hospital_data].  Its message formats
    the local [dataset_id], which is unbound when the first statement of
    the [try] block raised. *)
Definition on_exception (dataset_id : option pyval) : prog (option dataframe) :=
  match dataset_id with
  | None => Throw (UnboundLocalError "dataset_id")
  | Some id => logger (FailedToReadCsv id) "errors.log" ;; Ret None
  end.

(** The change-detection gate (lines 154-155): both tests read the shared
    dict anew. *)
Definition up_to_date (dataset_id last_modified : pyval) : prog bool :=
  m <- call ReadMetadata ;;
  k <- lift (Py.hash_key dataset_id) ;;
  if Checkpoints.mem (processed_files m) k then
    m' <- call ReadMetadata ;;
    recorded <- lift (Checkpoints.getitem (processed_files m') k) ;;
    lift (Py.ge recorded last_modified)
  else Ret false.

(** Lines 159-178 of [process_hospital_data]: what the [try] block does
    once the gate has let the dataset through.  [k] is the key under
    which the gate has looked the identifier up (an unhashable identifier
    has raised there); it names the output file as [str(dataset_id)]
    does. *)
Definition fetch_and_save (dataset dataset_id last_modified : pyval)
  : prog (option dataframe) :=
  download_url <- lift (download_url_of dataset) ;;
  response <-
    (if Py.truthy download_url
     then (r <- connect download_url ;; Ret (Some r))
     else (logger (FailedToGetDownloadUrl dataset_id) "errors.log" ;;
           Ret None)) ;;
  r <- match response with
       | Some r => Ret r
       | None => Throw (UnboundLocalError "response")
       end ;;
  parsed <- call (ReadCsv (text r)) ;;
  df <- lift parsed ;;
  let df := set_columns df (convert_columns_to_snake_case (columns df)) in
  k <- lift (Py.hash_key dataset_id) ;;
  written <- call (ToCsv (Py.str_key k ++ ".csv") df) ;;
  _ <- lift written ;;
  call (SetCheckpoint k last_modified) ;;
  logger (SuccessfullyReadCsv dataset_id) "success.log" ;;
  Ret (Some df).

(** The [try] block of [process_hospital_data], from its second statement
    on. *)
Definition process_body (dataset dataset_id : pyval) : prog (option dataframe) :=
  last_modified <- lift (Py.getitem dataset "modified") ;;
  skip <- up_to_date dataset_id last_modified ;;
  if skip then
    logger (UpToDate dataset_id) "success.log" ;;
    Ret None
  else fetch_and_save dataset dataset_id last_modified.

(** [process_hospital_data(self, dataset)] *)
Definition process_hospital_data (dataset : pyval) : prog (option dataframe) :=
  match Py.getitem dataset "identifier" with
  | Raise _ => on_exception None
  | Ok dataset_id =>
      catch (process_body dataset dataset_id)
            (fun _ => on_exception (Some dataset_id))
  end.

(** *** The worker pool

    [ThreadPoolExecutor(max_workers)] runs at most [max_workers] calls of
    [process_hospital_data] at a time and starts them in the order of
    submission.  A schedule says which running call performs the next
    operation; when it is used up the calls left are run one after the
    other. *)

Definition task : Type := (pyval * prog (option dataframe))%type.
Definition future : Type := (pyval * result (option dataframe))%type.

Definition submit (dataset : pyval) : task :=
  (dataset, process_hospital_data dataset).

Fixpoint drain (w : environment) (tasks : list task) (done : list future) (st : state)
  : list future * state :=
  match tasks with
  | [] => (done, st)
  | (dataset, p) :: rest =>
      let (r, st') := exec w p st in
      drain w rest (done ++ [(dataset, r)])%list st'
  end.

(** The running call at [i] performs one operation; a call that has none
    left completes, and the next waiting dataset is started. *)
Definition advance (w : environment) (i : nat) (running : list task)
  (waiting : list pyval) (done : list future) (st : state)
  : list task * list pyval * list future * state :=
  match List.nth_error running i with
  | None => (running, waiting, done, st)
  | Some (dataset, p) =>
      let before := List.firstn i running in
      let after := List.skipn (S i) running in
      match p with
      | Vis o k =>
          let (x, st') := perform w o st in
          ((before ++ (dataset, k x) :: after)%list, waiting, done, st')
      | Ret a =>
          ((before ++ after ++ List.map submit (List.firstn 1 waiting))%list,
           List.skipn 1 waiting, (done ++ [(dataset, Ok a)])%list, st)
      | Throw e =>
          ((before ++ after ++ List.map submit (List.firstn 1 waiting))%list,
           List.skipn 1 waiting, (done ++ [(dataset, Raise e)])%list, st)
      end
  end.

Fixpoint run_pool (w : environment) (schedule : list nat) (running : list task)
  (waiting : list pyval) (done : list future) (st : state)
  : list future * state :=
  match schedule with
  | [] => drain w (running ++ List.map submit waiting)%list done st
  | c :: schedule' =>
      match running with
      | [] => drain w (List.map submit waiting) done st
      | _ :: _ =>
          let '(running', waiting', done', st') :=
            advance w (c mod List.length running) running waiting done st in
          run_pool w schedule' running' waiting' done' st'
      end
  end.

(** The loop over [as_completed]: a result that is not [None] is kept; a
    call that raised is logged under its dataset's identifier. *)
Fixpoint collect (futures : list future) (processed_dfs : list dataframe)
  : prog (list dataframe) :=
  match futures with
  | [] => Ret processed_dfs
  | (dataset, Ok (Some df)) :: rest => collect rest (processed_dfs ++ [df])%list
  | (dataset, Ok None) :: rest => collect rest processed_dfs
  | (dataset, Raise e) :: rest =>
      dataset_id <- lift (Py.getitem dataset "identifier") ;;
      logger (ErrorProcessing dataset_id e) "errors.log" ;;
      collect rest processed_dfs
  end.

(** [process_async_requests(self, max_workers)].  Leaving the [with]
    block waits for every submitted call, also when the loop raises, so
    the loop is run on the pool's final state; the futures are taken in
    the order they completed. *)
Definition process_async_requests (w : environment) (max_workers : nat)
  (schedule : list nat) (st : state) : result (list dataframe) * state :=
  let (r, st1) := exec w get_hospital_datasets st in
  match r with
  | Raise e => (Raise e, st1)
  | Ok datasets =>
      match max_workers with
      | O => (Raise ValueError, st1)
      | S _ =>
          let (futures, st2) :=
            run_pool w schedule
              (List.map submit (List.firstn max_workers datasets))
              (List.skipn max_workers datasets) [] st1 in
          exec w
            (processed_dfs <- collect futures [] ;;
             t <- call Now ;;
             call (SetLastRun (PStr t)) ;;
             save_metadata ;;
             Ret processed_dfs)
            st2
      end
  end.

End Processor.

(** ** The Header Normalizer as the specification words it

    "strip characters outside the class {letters, digits, underscore,
    whitespace}, trim leading/trailing whitespace, lowercase, collapse
    internal whitespace runs to single underscores" *)

Module Spec.

(** Every run of whitespace becomes one underscore; [in_run] says that
    the character before was whitespace. *)
Fixpoint collapse (in_run : bool) (s : string) : string :=
  match s with
  | EmptyString => EmptyString
  | String c s' =>
      if PyStr.isspace c
      then if in_run then collapse true s'
           else String "_"%char (collapse true s')
      else String c (collapse false s')
  end.

Definition header_normalizer (c : string) : string :=
  collapse false (PyStr.lower (PyStr.strip (PyStr.re_sub_special c))).

End Spec.

(** What [snake_case] does to one character that was kept: SPACE becomes
    the underscore, anything else its lower case. *)
Definition underscore_or_lower (c : ascii) : ascii :=
  if Ascii.eqb c " " then "_"%char else PyStr.lower_char c.

Fixpoint repeat_char (c : ascii) (n : nat) : string :=
  match n with
  | O => EmptyString
  | S n' => String c (repeat_char c n')
  end.

(** ** Vocabulary of the statements *)

(** A string [strip] leaves alone: it neither starts nor ends with
    whitespace. *)
Definition trimmed (s : string) : Prop :=
  PyStr.lstrip s = s /\ PyStr.rstrip s = s.

Definition is_checkpoint (e : event) : bool :=
  match e with EvSetCheckpoint _ _ => true | _ => false end.

(** The call left [self.previous_runs] and the metadata file as they
    were. *)
Definition unchanged (st st' : state) : Prop :=
  previous_runs st' = previous_runs st /\ metadata_file st' = metadata_file st.

(** The call took the dataset from [st] to [st'] as an update does: after
    the events [before] of the download, none of which touches a
    checkpoint, the table is written, then the checkpoint is set, then
    the success is logged. *)
Definition updated (w : world) (st : state) (dataset_id last_modified : pyval)
  (df : dataframe) (st' : state) : Prop :=
  exists k before,
    Py.hash_key dataset_id = Ok k
    /\ previous_runs st'
       = {| last_run := last_run (previous_runs st);
            processed_files :=
              Checkpoints.set (processed_files (previous_runs st)) k last_modified |}
    /\ output_dir st'
       = write_file (output_dir st) (Py.str_key k ++ ".csv") (Table df)
    /\ metadata_file st' = metadata_file st
    /\ List.existsb is_checkpoint before = false
    /\ trace st'
       = (trace st ++ before
          ++ [EvToCsv (Py.str_key k ++ ".csv") df Written;
              EvSetCheckpoint k last_modified;
              EvLog "success.log" (now w (List.length (trace st ++ before) + 2))
                    (SuccessfullyReadCsv dataset_id)])%list.

(** What lines 95-101 of [get_hospital_datasets] compute from the answer
    to the catalog request made at time [t]: the filtered listing, or the
    error of the request, of the decoding or of the filter. *)
Definition listing (base_url : string) (w : world) (t : nat) : result (list pyval) :=
  let* response := requests_get w t (PStr base_url) in
  let* datasets := json response in
  let* items := Py.iter datasets in
  hospital_datasets items.

(** The flush is atomic from [st] when, after any number of operations of
    [save_metadata], the file at the metadata path is the one before the
    flush or the complete new one. *)
Definition atomic_flush (w : environment) (st : state) : Prop :=
  forall n,
    let st' := snd (steps n w (save_metadata, st)) in
    metadata_file st' = metadata_file st
    \/ metadata_file st'
       = Some (Json.dumps (metadata_value (previous_runs st))).

(** ** Scenarios *)

Module Scenario.

Definition catalog_url : string := "https://data.cms.gov/items".

(** A descriptor of the Hospitals theme, with or without a download
    locator. *)
Definition descriptor (identifier modified : string) (url : option string) : pyval :=
  PDict ([("identifier", PStr identifier);
          ("theme", PList [PStr "Hospitals"]);
          ("modified", PStr modified)]
         ++ match url with
            | Some u => [("distribution", PList [PDict [("downloadURL", PStr u)]])]
            | None => []
            end)%list.

Definition A : pyval := descriptor "A" "2024-01-02" (Some "https://data.cms.gov/A.csv").
Definition C : pyval := descriptor "C" "2024-01-02" None.

Definition never_run : state :=
  {| previous_runs := empty_metadata;
     output_dir := [];
     metadata_file := None;
     trace := [] |}.

(** [A] was synchronised at "2024-01-02" by an earlier run, whose flush
    is the file at the metadata path. *)
Definition synchronized : state :=
  {| previous_runs :=
       {| last_run := PStr "2024-01-02T06:00:00";
          processed_files := [(KStr "A", PStr "2024-01-02")] |};
     output_dir := [];
     metadata_file :=
       Some (Json.dumps
               (metadata_value
                  {| last_run := PStr "2024-01-02T06:00:00";
                     processed_files := [(KStr "A", PStr "2024-01-02")] |}));
     trace := [] |}.

(** A first run has updated [A] in memory; the file at the metadata path
    still holds the complete state of before. *)
Definition about_to_flush : state :=
  {| previous_runs :=
       {| last_run := PStr "2024-01-03T06:00:00";
          processed_files := [(KStr "A", PStr "2024-01-02")] |};
     output_dir := [];
     metadata_file := Some (Json.dumps (metadata_value empty_metadata));
     trace := [] |}.

(** Every request is answered with a CSV file of the given headers, and
    every write succeeds. *)
Definition serving (headers : list string) : world :=
  {| requests_get := fun _ _ =>
       Ok {| status_ok := true; text := "csv"; json := Raise JSONDecodeError |};
     read_csv := fun _ => Ok {| columns := headers; rows := [] |};
     to_csv := fun _ _ _ => Written;
     open_metadata := fun _ => true;
     now := fun _ => "2024-01-03T06:00:00" |}.

(** The catalog lists [A] and a dataset of another theme; any other URL
    is a download and is answered with a CSV file of the given headers. *)
Definition B : pyval :=
  PDict [("identifier", PStr "B");
         ("theme", PList [PStr "Nursing"]);
         ("modified", PStr "2024-01-02");
         ("distribution",
          PList [PDict [("downloadURL", PStr "https://data.cms.gov/B.csv")]])].

Definition online (headers : list string) : world :=
  {| requests_get := fun _ url =>
       if Py.eq url (PStr catalog_url)
       then Ok {| status_ok := true; text := "[...]"; json := Ok (PList [A; B]) |}
       else Ok {| status_ok := true; text := "csv"; json := Raise JSONDecodeError |};
     read_csv := fun _ => Ok {| columns := headers; rows := [] |};
     to_csv := fun _ _ _ => Written;
     open_metadata := fun _ => true;
     now := fun _ => "2024-01-03T06:00:00" |}.

(** The download arrives but is not tabular. *)
Definition unparsable : world :=
  {| requests_get := fun _ _ =>
       Ok {| status_ok := true; text := "<html>"; json := Raise JSONDecodeError |};
     read_csv := fun _ => Raise ParserError;
     to_csv := fun _ _ _ => Written;
     open_metadata := fun _ => true;
     now := fun _ => "2024-01-03T06:00:00" |}.

(** No request gets through. *)
Definition offline : world :=
  {| requests_get := fun _ _ => Raise RequestException;
     read_csv := fun _ => Raise ParserError;
     to_csv := fun _ _ _ => Written;
     open_metadata := fun _ => true;
     now := fun _ => "2024-01-03T06:00:00" |}.

(** The catalog answers with an HTTP error whose body is the JSON text
    of an empty list. *)
Definition erroring : world :=
  {| requests_get := fun _ _ =>
       Ok {| status_ok := false; text := "[]"; json := Ok (PList []) |};
     read_csv := fun _ => Raise ParserError;
     to_csv := fun _ _ _ => Written;
     open_metadata := fun _ => true;
     now := fun _ => "2024-01-03T06:00:00" |}.

End Scenario.


(** ** Further vocabulary *)

(** What the table of lower cases has to say of one of its entries: the
    lower case is a word character when the code point is, neither is
    whitespace, the lower case is its own lower case, and neither is
    U+0130 or U+03A3. *)
Definition entry_ok (p : N * N) : bool :=
  (Bool.eqb (Unicode.isword (snd p)) (Unicode.isword (fst p))
   && negb (Unicode.isspace (fst p)) && negb (Unicode.isspace (snd p))
   && (Unicode.lower_simple (snd p) =? snd p)
   && negb (snd p =? Unicode.capital_i_with_dot)
   && negb (snd p =? Unicode.capital_sigma)
   && negb (fst p =? Unicode.capital_i_with_dot)
   && negb (fst p =? Unicode.capital_sigma))%N.

(** What [str.lower] makes of one code point other than U+0130: its
    simple lower case, or one of the two small sigmas. *)
Definition lowered (c o : N) : Prop :=
  (c <> Unicode.capital_sigma /\ o = Unicode.lower_simple c)
  \/ (c = Unicode.capital_sigma /\ (o = 962 \/ o = 963))%N.

(** What [snake_case] makes of one code point that it keeps, other than
    U+0130: the underscore for SPACE, else what [str.lower] makes of
    it. *)
Definition named (c o : N) : Prop :=
  exists l, lowered c l /\ o = (if l =? 32 then 95 else l)%N.

(** A code point [snake_case] can leave in a name when the header has no
    U+0130: of the class [[\w\s]], not the SPACE, its own lower case. *)
Definition canonical (c : N) : Prop :=
  Unicode.kept c = true /\ c <> 32%N /\ Unicode.lower_simple c = c
  /\ c <> Unicode.capital_i_with_dot /\ c <> Unicode.capital_sigma.

(** The test of the comprehension of [get_hospital_datasets] on one
    item, when it can be made: ['Hospitals' in dataset.get('theme', [])]. *)
Definition theme_test (dataset : pyval) : result bool :=
  let* theme := Py.get dataset "theme" (PList []) in
  Py.contains "Hospitals" theme.

Definition has_theme (dataset : pyval) : bool :=
  match theme_test dataset with
  | Ok keep => keep
  | Raise _ => false
  end.

Definition readable (dataset : pyval) : bool := is_ok (theme_test dataset).

Definition is_log (file : string) (e : event) : bool :=
  match e with
  | EvLog f _ _ => String.eqb f file
  | _ => false
  end.

(** Two keys are one key of a dict exactly when they are equal once
    [True] and [False] are read as [1] and [0]. *)
Definition plain_key (k : pykey) : pykey :=
  match k with
  | KBool b => KInt (Z.b2z b)
  | _ => k
  end.

(** Every operation a program can come to perform, whatever the answers
    it gets, satisfies [P]. *)
Fixpoint all_ops {A} (P : forall X, op X -> Prop) (p : prog A) : Prop :=
  match p with
  | Vis o k => P _ o /\ forall x, all_ops P (k x)
  | _ => True
  end.

(** The answer to an operation, when it is an append to a log file,
    says that the line was written. *)
Definition appended {X} (o : op X) : X -> Prop :=
  match o in op X return X -> Prop with
  | AppendLog _ _ => fun x => x = Ok tt
  | _ => fun _ => True
  end.

(** A program that cannot end by raising as long as its appends to the
    log files succeed, whatever the other answers it gets. *)
Fixpoint never_throws {A} (p : prog A) : Prop :=
  match p with
  | Ret _ => True
  | Throw _ => False
  | Vis o k => forall x, appended o x -> never_throws (k x)
  end.

(** [k] is the key of the dataset's identifier. *)
Definition key_of (dataset : pyval) (k : pykey) : Prop :=
  exists dataset_id,
    Py.getitem dataset "identifier" = Ok dataset_id
    /\ Py.hash_key dataset_id = Ok k.

(** The lines a call of [process_hospital_data] can log. *)
Definition worker_message (m : message) : Prop :=
  match m with
  | ErrorProcessing _ _ | FailedToIdentifyTheme _ => False
  | _ => True
  end.

(** The operations a call of [process_hospital_data] on [dataset] can
    perform: it reads the metadata, logs, parses, requests the download
    URL of the dataset, writes the file and sets the checkpoint of the
    dataset's identifier, and nothing else. *)
Definition worker_op (dataset : pyval) (X : Type) (o : op X) : Prop :=
  match o with
  | ReadMetadata | ReadCsv _ => True
  | AppendLog _ m => worker_message m
  | RequestsGet url =>
      download_url_of dataset = Ok url /\ Py.truthy url = true
  | ToCsv name _ => exists k, key_of dataset k /\ name = Py.str_key k ++ ".csv"
  | SetCheckpoint k v =>
      key_of dataset k /\ Py.getitem dataset "modified" = Ok v
  | SetLastRun _ | Now | OpenMetadata | WriteMetadata _ => False
  end.

(** The events of such a call. *)
Definition worker_event (dataset : pyval) (e : event) : Prop :=
  match e with
  | EvLog _ _ m | EvLogFailed _ m _ => worker_message m
  | EvRequest url =>
      download_url_of dataset = Ok url /\ Py.truthy url = true
  | EvToCsv name _ _ => exists k, key_of dataset k /\ name = Py.str_key k ++ ".csv"
  | EvSetCheckpoint k v =>
      key_of dataset k /\ Py.getitem dataset "modified" = Ok v
  | EvSetLastRun _ | EvOpenMetadata _ | EvWriteMetadata _
  | EvWriteMetadataFailed _ _ => False
  end.

Definition has_identifier (dataset : pyval) : bool :=
  is_ok (Py.getitem dataset "identifier").

(** [{"last_run": None, "processed_files": {}}], as a value. *)
Definition default_metadata : pyval :=
  PDict [("last_run", PNone); ("processed_files", PDict [])].

(** [load_metadata(self)], on the file at the metadata path, which is
    taken to be readable when it exists.  [json_load] is [json.load] as a
    function of the text of the file. *)
Definition load_metadata (json_load : string -> result pyval) (st : state)
  : result pyval :=
  match metadata_file st with
  | Some content => json_load content
  | None => Ok default_metadata
  end.

(** A loaded value as the record the methods work on, when it is a dict
    of the two entries in the order [save_metadata] writes them; the keys
    of a decoded dict are strings. *)
Definition as_run_metadata (v : pyval) : option run_metadata :=
  match v with
  | PDict [(a, lr); (b, PDict pf)] =>
      if String.eqb a "last_run" && String.eqb b "processed_files"
      then Some {| last_run := lr;
                   processed_files :=
                     List.map (fun kv => (KStr (fst kv), snd kv)) pf |}
      else None
  | _ => None
  end.

Definition is_str_key (k : pykey) : bool :=
  match k with KStr _ => true | _ => false end.

(** What [get_hospital_datasets] hands to the run for the answer the
    catalog request gets at time [t]. *)
Definition listed (base_url : string) (w : world) (t : nat) : list pyval :=
  match listing base_url w t with
  | Ok hospital => hospital
  | Raise _ => [PDict []]
  end.

(** Lines 124-136 of [process_async_requests]: the loop over the futures,
    then [last_run] and the flush. *)
Definition finish_run (futures : list future) : prog (list dataframe) :=
  (processed_dfs <- collect futures [] ;;
   t <- call Now ;;
   call (SetLastRun (PStr t)) ;;
   save_metadata ;;
   Ret processed_dfs)%prog.

(** The tables of the futures that returned one, in order. *)
Definition tables (futures : list future) : list dataframe :=
  List.flat_map
    (fun f => match snd f with
              | Ok (Some df) => [df]
              | _ => []
              end) futures.

(** A future is as its dataset commands: returned when the dataset has an
    identifier, raised on [dataset_id] when it has none. *)
Definition future_ok (f : future) : Prop :=
  if has_identifier (fst f) then is_ok (snd f) = true
  else snd f = Raise (UnboundLocalError "dataset_id").

(** In this environment no append to a log file fails. *)
Definition logs_reliably (env : environment) : Prop :=
  forall t f, log_fault (the_faults env) t f = None.

(** In this environment no write of the metadata file fails once the
    file is open. *)
Definition dumps_reliably (env : environment) : Prop :=
  forall t, dump_fault (the_faults env) t = None.

(** A table was written to the output directory. *)
Definition is_written (e : event) : bool :=
  match e with EvToCsv _ _ Written => true | _ => false end.

(** An operation that only appends to a log file. *)
Definition log_op (X : Type) (o : op X) : Prop :=
  match o with AppendLog _ _ => True | _ => False end.

(** The call has changed nothing but the log files. *)
Definition only_logged (st st' : state) : Prop :=
  previous_runs st' = previous_runs st
  /\ output_dir st' = output_dir st
  /\ metadata_file st' = metadata_file st
  /\ requests (trace st') = requests (trace st)
  /\ log_lines "success.log" (trace st') = log_lines "success.log" (trace st).

(** What a call on a dataset of identifier [dataset_id] and timestamp
    [last_modified] can have made of [st], whatever failed: it has added
    events and left the metadata file alone, and either it wrote no table
    and the metadata in memory is what it was, or it wrote the table and
    then set the checkpoint of the identifier, after which it returned the
    table unless the success line could not be appended. *)
Definition call_outcome (fs : faults) (st : state)
  (dataset_id last_modified : pyval)
  (r : result (option dataframe)) (st' : state) : Prop :=
  exists new,
    trace st' = (trace st ++ new)%list
    /\ metadata_file st' = metadata_file st
    /\ ((previous_runs st' = previous_runs st
         /\ List.existsb is_written new = false
         /\ forall df, r <> Ok (Some df))
        \/ exists k df,
             Py.hash_key dataset_id = Ok k
             /\ previous_runs st'
                = {| last_run := last_run (previous_runs st);
                     processed_files :=
                       Checkpoints.set (processed_files (previous_runs st))
                         k last_modified |}
             /\ List.In (EvToCsv (Py.str_key k ++ ".csv") df Written) new
             /\ (r = Ok (Some df)
                 \/ ((forall df', r <> Ok (Some df'))
                     /\ exists e t,
                          log_fault fs t "success.log" = Some e
                          /\ List.In (EvLogFailed "success.log"
                                        (SuccessfullyReadCsv dataset_id) e)
                               new))).

(** A future of a dataset without identifier has raised on
    [dataset_id]. *)
Definition future_raised (f : future) : Prop :=
  has_identifier (fst f) = false
  -> snd f = Raise (UnboundLocalError "dataset_id").

(** A call in progress on [d] that keeps to the operations [Q]; [safe]
    says that the log files can be relied on. *)
Definition task_ok (safe : Prop) (Q : forall X, op X -> Prop) (d : pyval)
  (p : prog (option dataframe)) : Prop :=
  all_ops Q p
  /\ (safe -> has_identifier d = true -> never_throws p)
  /\ (has_identifier d = false -> p = Throw (UnboundLocalError "dataset_id")).

(** An operation of a call on one of the listed datasets. *)
Definition listed_op (datasets : list pyval) (X : Type) (o : op X) : Prop :=
  exists d, List.In d datasets /\ worker_op d X o.

(** The state [st] is what calls on the listed datasets can make of
    [st1]: the metadata file and [last_run] are the same, the new events
    are events of those calls, a checkpoint is an old one or the
    [modified] timestamp of a listed dataset with that key, the
    checkpoints of other keys are the same, and a file of the output
    directory is an old one or is named after a listed identifier. *)
Definition within_listing (datasets : list pyval) (st1 st : state) : Prop :=
  metadata_file st = metadata_file st1
  /\ last_run (previous_runs st) = last_run (previous_runs st1)
  /\ (exists new,
        trace st = (trace st1 ++ new)%list
        /\ List.Forall
             (fun e => exists d, List.In d datasets /\ worker_event d e) new)
  /\ (forall k v,
        Checkpoints.lookup (processed_files (previous_runs st)) k = Some v ->
        Checkpoints.lookup (processed_files (previous_runs st1)) k = Some v
        \/ exists d k0,
             List.In d datasets /\ key_of d k0 /\ Py.key_eqb k0 k = true
             /\ Py.getitem d "modified" = Ok v)
  /\ (forall k,
        (forall d k0, List.In d datasets -> key_of d k0 ->
                      Py.key_eqb k0 k = false) ->
        Checkpoints.lookup (processed_files (previous_runs st)) k
        = Checkpoints.lookup (processed_files (previous_runs st1)) k)
  /\ (forall name f,
        Py.dict_get (output_dir st) name = Some f ->
        Py.dict_get (output_dir st1) name = Some f
        \/ exists d k,
             List.In d datasets /\ key_of d k /\ name = Py.str_key k ++ ".csv").

Definition is_dict (v : pyval) : bool :=
  match v with PDict _ => true | _ => false end.

(** A line "Error processing ..." of the loop over the futures. *)
Definition is_error_processing (e : event) : bool :=
  match e with
  | EvLog _ _ (ErrorProcessing _ _) => true
  | _ => false
  end.

(** ** Further scenarios *)

Module Cases.

(** The catalog lists [A] and a descriptor whose theme is [null]. *)
Definition null_theme_catalog : world :=
  {| requests_get := fun _ _ =>
       Ok {| status_ok := true; text := "[...]";
             json := Ok (PList [Scenario.A;
                                PDict [("identifier", PStr "Z");
                                       ("theme", PNone)]]) |};
     read_csv := fun _ => Raise ParserError;
     to_csv := fun _ _ _ => Written;
     open_metadata := fun _ => true;
     now := fun _ => "2024-01-03T06:00:00" |}.

(** Every request is answered with an HTTP error whose body parses as a
    table of the given headers. *)
Definition error_page (headers : list string) : world :=
  {| requests_get := fun _ _ =>
       Ok {| status_ok := false; text := "Error 503";
             json := Raise JSONDecodeError |};
     read_csv := fun _ => Ok {| columns := headers; rows := [] |};
     to_csv := fun _ _ _ => Written;
     open_metadata := fun _ => true;
     now := fun _ => "2024-01-03T06:00:00" |}.

(** A descriptor with an empty distribution list. *)
Definition no_distribution : pyval :=
  PDict [("identifier", PStr "E");
         ("theme", PList [PStr "Hospitals"]);
         ("modified", PStr "2024-01-02");
         ("distribution", PList [])].

(** [A] with its timestamp as an epoch number. *)
Definition epoch_A : pyval :=
  PDict [("identifier", PStr "A");
         ("theme", PList [PStr "Hospitals"]);
         ("modified", PInt 1704153600);
         ("distribution",
          PList [PDict [("downloadURL", PStr "https://data.cms.gov/A.csv")]])].

(** [A], modified after it was synchronised. *)
Definition newer_A : pyval :=
  Scenario.descriptor "A" "2024-02-01" (Some "https://data.cms.gov/A.csv").

(** An earlier run has synchronised a dataset [Q] that the catalog no
    longer lists. *)
Definition synchronized_Q : state :=
  {| previous_runs :=
       {| last_run := PStr "2024-01-02T06:00:00";
          processed_files := [(KStr "Q", PStr "2023-12-31")] |};
     output_dir := [];
     metadata_file := None;
     trace := [] |}.

(** A decoder that knows one text: the serialisation of [v]. *)
Definition reads_back (v : pyval) (content : string) : result pyval :=
  if String.eqb content (Json.dumps v) then Ok v else Raise JSONDecodeError.

(** A checkpoint was recorded for the identifier [5], a number. *)
Definition numbered : state :=
  {| previous_runs :=
       {| last_run := PStr "2024-01-02T06:00:00";
          processed_files := [(KInt 5, PStr "2024-01-02")] |};
     output_dir := [];
     metadata_file := None;
     trace := [] |}.

(** No log file can be written. *)
Definition unwritable_logs : faults :=
  {| log_fault := fun _ _ => Some OSError; dump_fault := fun _ => None |}.


(** The write of the metadata fails when ten characters are written. *)
Definition full_disk : faults :=
  {| log_fault := fun _ _ => None; dump_fault := fun _ => Some (OSError, 10) |}.


End Cases.
(** * Properties *)


(** ** The header normaliser *)

Module Characters.

Ltac by_cases c :=
  destruct c as [[|] [|] [|] [|] [|] [|] [|] [|]]; vm_compute; reflexivity.

Lemma kept_translated c :
  implb (PyStr.kept c) (PyStr.kept (underscore_or_lower c)) = true.
Proof. by_cases c. Qed.

Lemma space_translated c :
  implb (PyStr.isspace (underscore_or_lower c)) (PyStr.isspace c) = true.
Proof. by_cases c. Qed.

Lemma translated_twice c :
  underscore_or_lower (underscore_or_lower c) = underscore_or_lower c.
Proof. by_cases c. Qed.

Lemma replace_lower c :
  (if Ascii.eqb (PyStr.lower_char c) " " then "_"%char else PyStr.lower_char c)
  = underscore_or_lower c.
Proof. by_cases c. Qed.

End Characters.

Module Strings.

Lemma map_map f g s : PyStr.map g (PyStr.map f s) = PyStr.map (fun c => g (f c)) s.
Proof. induction s as [|c s IH]; simpl; [reflexivity | now rewrite IH]. Qed.

Lemma map_length f s : String.length (PyStr.map f s) = String.length s.
Proof. induction s as [|c s IH]; simpl; [reflexivity | now rewrite IH]. Qed.

Lemma map_ext f g s : (forall c, f c = g c) -> PyStr.map f s = PyStr.map g s.
Proof. intros E; induction s as [|c s IH]; simpl; [reflexivity | now rewrite E, IH]. Qed.

Lemma filter_all p s : PyStr.forallb p s = true -> PyStr.filter p s = s.
Proof.
  induction s as [|c s IH]; simpl; [reflexivity|].
  intros H; apply andb_true_iff in H as [Hc Hs]. now rewrite Hc, IH.
Qed.

Lemma forallb_filter p s : PyStr.forallb p (PyStr.filter p s) = true.
Proof.
  induction s as [|c s IH]; simpl; [reflexivity|].
  destruct (p c) eqn:E; simpl; [now rewrite E|assumption].
Qed.

Lemma forallb_lstrip p s :
  PyStr.forallb p s = true -> PyStr.forallb p (PyStr.lstrip s) = true.
Proof.
  induction s as [|c s IH]; simpl; [reflexivity|].
  intros H. destruct (PyStr.isspace c); [|exact H].
  apply andb_true_iff in H as [_ Hs]. now apply IH.
Qed.

Lemma forallb_rstrip p s :
  PyStr.forallb p s = true -> PyStr.forallb p (PyStr.rstrip s) = true.
Proof.
  induction s as [|c s IH]; simpl; [reflexivity|].
  intros H. apply andb_true_iff in H as [Hc Hs]. specialize (IH Hs).
  destruct (PyStr.rstrip s) as [|a r].
  - destruct (PyStr.isspace c); simpl; [reflexivity | now rewrite Hc].
  - change (PyStr.forallb p (String c (String a r)) = true).
    simpl in *. now rewrite Hc.
Qed.

Lemma forallb_map (p : ascii -> bool) f s :
  (forall c, p c = true -> p (f c) = true) ->
  PyStr.forallb p s = true -> PyStr.forallb p (PyStr.map f s) = true.
Proof.
  intros Hf; induction s as [|c s IH]; simpl; [reflexivity|].
  intros H; apply andb_true_iff in H as [Hc Hs]. now rewrite (Hf _ Hc), IH.
Qed.

Lemma lstrip_length s : (String.length (PyStr.lstrip s) <= String.length s)%nat.
Proof.
  induction s as [|c s IH]; simpl; [lia|].
  destruct (PyStr.isspace c); simpl; lia.
Qed.

Lemma lstrip_fixed c s :
  PyStr.lstrip (String c s) = String c s -> PyStr.isspace c = false.
Proof.
  simpl. destruct (PyStr.isspace c); [|reflexivity].
  intros E. pose proof (lstrip_length s) as L. rewrite E in L. simpl in L. lia.
Qed.

Lemma lstrip_lstrip s : PyStr.lstrip (PyStr.lstrip s) = PyStr.lstrip s.
Proof.
  induction s as [|c s IH]; simpl; [reflexivity|].
  destruct (PyStr.isspace c) eqn:E; [exact IH | simpl; now rewrite E].
Qed.

Lemma rstrip_rstrip s : PyStr.rstrip (PyStr.rstrip s) = PyStr.rstrip s.
Proof.
  induction s as [|c s IH]; simpl; [reflexivity|].
  destruct (PyStr.rstrip s) as [|a r] eqn:E.
  - destruct (PyStr.isspace c) eqn:Ec; simpl; [reflexivity | now rewrite Ec].
  - change (PyStr.rstrip (String c (String a r)) = String c (String a r)).
    change (PyStr.rstrip (String c (String a r)))
      with (match PyStr.rstrip (String a r) with
            | EmptyString =>
                if PyStr.isspace c then EmptyString else String c EmptyString
            | String x y => String c (String x y)
            end).
    now rewrite IH.
Qed.

Lemma lstrip_rstrip s :
  PyStr.lstrip s = s -> PyStr.lstrip (PyStr.rstrip s) = PyStr.rstrip s.
Proof.
  destruct s as [|c s]; [reflexivity|].
  intros H. apply lstrip_fixed in H.
  simpl. destruct (PyStr.rstrip s).
  - rewrite H. simpl. now rewrite H.
  - simpl. now rewrite H.
Qed.

Lemma strip_trimmed s : trimmed (PyStr.strip s).
Proof.
  split; unfold PyStr.strip.
  - apply lstrip_rstrip, lstrip_lstrip.
  - apply rstrip_rstrip.
Qed.

Lemma rstrip_map f s :
  (forall c, PyStr.isspace c = false -> PyStr.isspace (f c) = false) ->
  PyStr.rstrip s = s -> PyStr.rstrip (PyStr.map f s) = PyStr.map f s.
Proof.
  intros Hf; induction s as [|c s IH]; [reflexivity|].
  simpl. destruct (PyStr.rstrip s) as [|a r] eqn:E.
  - destruct (PyStr.isspace c) eqn:Ec; [discriminate|].
    intros H; injection H as <-. simpl. now rewrite (Hf _ Ec).
  - intros H; injection H as H. subst s. specialize (IH eq_refl).
    change (PyStr.map f (String c (String a r)))
      with (String (f c) (PyStr.map f (String a r))).
    change (PyStr.rstrip (String (f c) (PyStr.map f (String a r))))
      with (match PyStr.rstrip (PyStr.map f (String a r)) with
            | EmptyString =>
                if PyStr.isspace (f c) then EmptyString
                else String (f c) EmptyString
            | String x y => String (f c) (String x y)
            end).
    rewrite IH. reflexivity.
Qed.

Lemma lstrip_map f s :
  (forall c, PyStr.isspace c = false -> PyStr.isspace (f c) = false) ->
  PyStr.lstrip s = s -> PyStr.lstrip (PyStr.map f s) = PyStr.map f s.
Proof.
  intros Hf. destruct s as [|c s]; [reflexivity|].
  intros H. apply lstrip_fixed in H. simpl. now rewrite (Hf _ H).
Qed.

Lemma trimmed_map f s :
  (forall c, PyStr.isspace c = false -> PyStr.isspace (f c) = false) ->
  trimmed s -> PyStr.strip (PyStr.map f s) = PyStr.map f s.
Proof.
  intros Hf [Hl Hr]. unfold PyStr.strip.
  rewrite (lstrip_map f s Hf Hl). now apply rstrip_map.
Qed.

End Strings.

Lemma not_space_translated c :
  PyStr.isspace c = false -> PyStr.isspace (underscore_or_lower c) = false.
Proof.
  intros H. pose proof (Characters.space_translated c) as I.
  destruct (PyStr.isspace (underscore_or_lower c)); [|reflexivity].
  rewrite H in I. discriminate.
Qed.

Lemma snake_case_map c :
  snake_case c
  = PyStr.map underscore_or_lower (PyStr.strip (PyStr.re_sub_special c)).
Proof.
  unfold snake_case, PyStr.replace_space, PyStr.lower.
  rewrite Strings.map_map. apply Strings.map_ext, Characters.replace_lower.
Qed.

Lemma snake_case_kept c : PyStr.forallb PyStr.kept (snake_case c) = true.
Proof.
  rewrite snake_case_map. apply Strings.forallb_map.
  - intros a H. pose proof (Characters.kept_translated a) as I.
    rewrite H in I. exact I.
  - apply Strings.forallb_rstrip, Strings.forallb_lstrip, Strings.forallb_filter.
Qed.

Lemma snake_case_trimmed c : PyStr.strip (snake_case c) = snake_case c.
Proof.
  rewrite snake_case_map.
  apply Strings.trimmed_map; [exact not_space_translated | apply Strings.strip_trimmed].
Qed.

(** On the 8-bit model, normalising a normalised header gives it back. *)
Lemma latin1_idempotent (cols : list string) :
  convert_columns_to_snake_case (convert_columns_to_snake_case cols)
  = convert_columns_to_snake_case cols.
Proof.
  unfold convert_columns_to_snake_case. rewrite List.map_map.
  apply List.map_ext. intros c.
  rewrite (snake_case_map (snake_case c)).
  unfold PyStr.re_sub_special.
  rewrite (Strings.filter_all _ _ (snake_case_kept c)).
  rewrite snake_case_trimmed.
  rewrite snake_case_map, Strings.map_map.
  apply Strings.map_ext, Characters.translated_twice.
Qed.


(** ** Running programs *)

Lemma exec_bind {A B} w (p : prog A) (f : A -> prog B) st :
  exec w (bind p f) st
  = match exec w p st with
    | (Ok a, st') => exec w (f a) st'
    | (Raise e, st') => (Raise e, st')
    end.
Proof.
  revert st; induction p as [a|e|X o k IH]; intros st; simpl; try reflexivity.
  destruct (perform w o st) as [x st']. apply IH.
Qed.

Lemma exec_catch {A} w (p : prog A) h st :
  exec w (catch p h) st
  = match exec w p st with
    | (Ok a, st') => (Ok a, st')
    | (Raise e, st') => exec w (h e) st'
    end.
Proof.
  revert st; induction p as [a|e|X o k IH]; intros st; simpl; try reflexivity.
  destruct (perform w o st) as [x st']. apply IH.
Qed.

Lemma ge_tie_str s : Py.ge (PStr s) (PStr s) = Ok true.
Proof.
  simpl. unfold String.leb.
  pose proof (String.compare_antisym s s) as H.
  destruct (String.compare s s); try reflexivity; discriminate.
Qed.

Lemma requests_app t e :
  requests (t ++ [e]) = (requests t ++ if is_request e then [e] else [])%list.
Proof.
  unfold requests. rewrite List.filter_app. simpl. now destruct (is_request e).
Qed.

Lemma key_eqb_refl k : Py.key_eqb k k = true.
Proof.
  destruct k as [|b|z|s]; unfold Py.key_eqb; simpl.
  - reflexivity.
  - now destruct b.
  - apply Z.eqb_refl.
  - apply String.eqb_refl.
Qed.

Lemma lookup_set d k v : Checkpoints.lookup (Checkpoints.set d k v) k = Some v.
Proof.
  induction d as [|[k' v'] d IH]; simpl.
  - now rewrite key_eqb_refl.
  - destruct (Py.key_eqb k' k) eqn:E; simpl; now rewrite E.
Qed.

Lemma unchanged_trace st e : unchanged st (with_trace st e).
Proof. now split. Qed.

Ltac failed H :=
  injection H as <- <-; left; split;
  [ split; reflexivity | intros ? ?; discriminate ].

Lemma fetch_and_save_outcome (w : world) st dataset dataset_id last_modified rb stb :
  exec w (fetch_and_save dataset dataset_id last_modified) st = (rb, stb) ->
  (unchanged st stb /\ forall df, rb <> Ok (Some df))
  \/ (exists df, rb = Ok (Some df) /\ updated w st dataset_id last_modified df stb).
Proof.
  unfold fetch_and_save. intros H.
  destruct (download_url_of dataset) as [download_url|] eqn:Hurl;
    cbn -[Py.hash_key Py.truthy] in H; [|failed H].
  destruct (Py.truthy download_url) eqn:Htruthy;
    cbn -[Py.hash_key] in H; [|failed H].
  destruct (requests_get w _ download_url) as [resp|e] eqn:Hget;
    cbn -[Py.hash_key] in H; [|failed H].
  destruct (status_ok resp) eqn:Hstatus; cbn -[Py.hash_key] in H.
  all: destruct (read_csv w (text resp)) as [df|] eqn:Hcsv;
    cbn -[Py.hash_key] in H; [|failed H].
  all: destruct (Py.hash_key dataset_id) as [k|] eqn:Hkey; cbn in H; [|failed H].
  all: match type of H with
       | context [to_csv ?w0 ?t ?n ?d] => destruct (to_csv w0 t n d) eqn:Hwrite
       end; cbn in H; [|failed H|failed H].
  all: injection H as <- <-; right; eexists; split; [reflexivity|].
  all: [> exists k, [EvRequest download_url]
         | exists k, [EvRequest download_url;
                      EvLog "errors.log" (now w (List.length (trace st) + 1))
                        (FailedToConnect download_url HTTPError)] ].
  all: cbn; repeat split; try assumption.
  all: rewrite !List.length_app; cbn.
  all: rewrite <- !List.app_assoc, <- !Nat.add_assoc; reflexivity.
Qed.

Lemma up_to_date_outcome w st dataset_id last_modified r st' :
  exec w (up_to_date dataset_id last_modified) st = (r, st') -> st' = st.
Proof.
  unfold up_to_date. cbn -[Py.hash_key Checkpoints.mem Checkpoints.getitem Py.ge].
  destruct (Py.hash_key dataset_id) as [k|];
    cbn -[Checkpoints.mem Checkpoints.getitem Py.ge]; [|congruence].
  destruct (Checkpoints.mem _ k); cbn -[Checkpoints.getitem Py.ge]; [|congruence].
  destruct (Checkpoints.getitem _ k) as [recorded|]; cbn -[Py.ge]; [|congruence].
  destruct (Py.ge recorded last_modified); cbn; congruence.
Qed.

Lemma process_body_outcome (w : world) st dataset dataset_id rb stb :
  exec w (process_body dataset dataset_id) st = (rb, stb) ->
  (unchanged st stb /\ forall df, rb <> Ok (Some df))
  \/ (exists last_modified df,
        Py.getitem dataset "modified" = Ok last_modified
        /\ rb = Ok (Some df) /\ updated w st dataset_id last_modified df stb).
Proof.
  unfold process_body. intros H.
  destruct (Py.getitem dataset "modified") as [last_modified|] eqn:Hmod;
    [|cbn in H; failed H].
  change (lift (Ok last_modified)) with (@Ret pyval last_modified) in H.
  cbn [bind] in H. rewrite exec_bind in H.
  destruct (exec w (up_to_date dataset_id last_modified) st) as [[skip|e] st1] eqn:Hgate.
  all: apply up_to_date_outcome in Hgate; subst st1.
  2: failed H.
  destruct skip.
  - cbn in H. failed H.
  - apply fetch_and_save_outcome in H as [H|(df & -> & H)]; [now left|].
    right. now exists last_modified, df.
Qed.

Lemma process_hospital_data_outcome (w : world) st dataset r st' :
  exec w (process_hospital_data dataset) st = (r, st') ->
  (unchanged st st' /\ forall df, r <> Ok (Some df))
  \/ (exists dataset_id last_modified df,
        Py.getitem dataset "identifier" = Ok dataset_id
        /\ Py.getitem dataset "modified" = Ok last_modified
        /\ r = Ok (Some df) /\ updated w st dataset_id last_modified df st').
Proof.
  unfold process_hospital_data. intros H.
  destruct (Py.getitem dataset "identifier") as [dataset_id|] eqn:Hid;
    [|cbn in H; failed H].
  rewrite exec_catch in H.
  destruct (exec w (process_body dataset dataset_id) st) as [[a|e] st1] eqn:Hbody.
  all: apply process_body_outcome in Hbody
         as [[[Hm Hf] Hr]|(last_modified & df & Hmod & Hr & Hupd)].
  - injection H as <- <-. left. now repeat split.
  - injection H as <- <-. right. now exists dataset_id, last_modified, df.
  - cbn in H. injection H as <- <-. left. repeat split; try assumption.
    intros ? ?; discriminate.
  - discriminate.
Qed.

Lemma dict_get_write_file {V} (fs : list (string * V)) name v :
  Py.dict_get (write_file fs name v) name = Some v.
Proof.
  induction fs as [|[n v'] fs IH]; simpl.
  - now rewrite String.eqb_refl.
  - destruct (String.eqb n name) eqn:E; simpl; now rewrite E.
Qed.

Lemma existsb_checkpoint_app t u :
  List.existsb is_checkpoint (t ++ u)
  = List.existsb is_checkpoint t || List.existsb is_checkpoint u.
Proof. apply List.existsb_app. Qed.

(** ** The change-detection gate *)

(** C1: a descriptor whose identifier has a recorded timestamp that is
    greater than or equal to its [modified] timestamp is skipped:
    [process_hospital_data] returns [None], its only effect is the line
    "up to date, skipping" in success.log, so no request is made and
    neither the metadata nor the output directory changes.  Equal
    timestamps are covered: a timestamp string is [>=] itself. *)
Theorem up_to_date_is_skipped (w : world) (st : state)
  (dataset dataset_id last_modified recorded : pyval) (k : pykey)
  (Hid : Py.getitem dataset "identifier" = Ok dataset_id)
  (Hmod : Py.getitem dataset "modified" = Ok last_modified)
  (Hkey : Py.hash_key dataset_id = Ok k)
  (Hrec : Checkpoints.lookup (processed_files (previous_runs st)) k = Some recorded)
  (Hge : Py.ge recorded last_modified = Ok true) :
  exec w (process_hospital_data dataset) st
  = (Ok None,
     with_trace st
       (EvLog "success.log" (now w (List.length (trace st))) (UpToDate dataset_id)))
  /\ requests (trace (snd (exec w (process_hospital_data dataset) st)))
     = requests (trace st)
  /\ previous_runs (snd (exec w (process_hospital_data dataset) st))
     = previous_runs st
  /\ output_dir (snd (exec w (process_hospital_data dataset) st))
     = output_dir st
  /\ forall s, Py.ge (PStr s) (PStr s) = Ok true.
Proof.
  assert (E : exec w (process_hospital_data dataset) st
              = (Ok None,
                 with_trace st
                   (EvLog "success.log" (now w (List.length (trace st)))
                      (UpToDate dataset_id)))).
  { unfold process_hospital_data, process_body, up_to_date. rewrite Hid, Hmod.
    cbn -[Py.hash_key]. rewrite Hkey.
    cbn -[Checkpoints.lookup Py.ge]. unfold Checkpoints.mem, Checkpoints.getitem.
    rewrite Hrec. cbn -[Checkpoints.lookup Py.ge]. rewrite Hrec.
    cbn -[Py.ge]. rewrite Hge. reflexivity. }
  rewrite E. repeat split.
  - cbn -[requests]. rewrite requests_app. cbn. apply List.app_nil_r.
  - apply ge_tie_str.
Qed.

Lemma up_to_date_is_skipped_witness :
  exec (Scenario.serving ["Facility Name #1"])
       (process_hospital_data Scenario.A) Scenario.synchronized
  = (Ok None,
     with_trace Scenario.synchronized
       (EvLog "success.log" "2024-01-03T06:00:00" (UpToDate (PStr "A")))).
Proof.
  apply (up_to_date_is_skipped (Scenario.serving ["Facility Name #1"])
           Scenario.synchronized Scenario.A (PStr "A") (PStr "2024-01-02")
           (PStr "2024-01-02") (KStr "A")); reflexivity.
Defined.

(** ** Updates and failures *)

Lemma checkpoint_updated (w : world) (st st' : state)
  (dataset : pyval) (df : dataframe) :
  exec w (process_hospital_data dataset) st = (Ok (Some df), st') ->
  exists dataset_id last_modified k,
    Py.getitem dataset "identifier" = Ok dataset_id
    /\ Py.getitem dataset "modified" = Ok last_modified
    /\ Py.hash_key dataset_id = Ok k
    /\ Checkpoints.lookup (processed_files (previous_runs st')) k
       = Some last_modified
    /\ Py.dict_get (output_dir st') (Py.str_key k ++ ".csv") = Some (Table df).
Proof.
  intros H. apply process_hospital_data_outcome in H
    as [[_ Hno]|(dataset_id & last_modified & df' & Hid & Hmod & Hdf & Hupd)].
  - now destruct (Hno df).
  - injection Hdf as <-.
    destruct Hupd as (k & before & Hkey & Hruns & Hout & _).
    exists dataset_id, last_modified, k. repeat split; try assumption.
    + rewrite Hruns. apply lookup_set.
    + rewrite Hout. apply dict_get_write_file.
Qed.

(** C2: when [process_hospital_data] returns a table (the outcome is
    Updated), the checkpoint of the dataset's identifier is the
    descriptor's [modified] timestamp afterwards, the output file of that
    identifier holds the table, and among the events of the call the
    write of the table comes immediately before the one change of a
    checkpoint: the metadata is touched only after the write is
    complete. *)
Theorem checkpoint_follows_sink_write (w : world) (st st' : state)
  (dataset : pyval) (df : dataframe)
  (H : exec w (process_hospital_data dataset) st = (Ok (Some df), st')) :
  exists dataset_id last_modified k before after,
    Py.getitem dataset "identifier" = Ok dataset_id
    /\ Py.getitem dataset "modified" = Ok last_modified
    /\ Py.hash_key dataset_id = Ok k
    /\ Checkpoints.lookup (processed_files (previous_runs st')) k
       = Some last_modified
    /\ Py.dict_get (output_dir st') (Py.str_key k ++ ".csv") = Some (Table df)
    /\ trace st'
       = (trace st ++ before
          ++ EvToCsv (Py.str_key k ++ ".csv") df Written
          :: EvSetCheckpoint k last_modified :: after)%list
    /\ List.existsb is_checkpoint before = false
    /\ List.existsb is_checkpoint after = false.
Proof.
  apply process_hospital_data_outcome in H
    as [[_ Hno]|(dataset_id & last_modified & df' & Hid & Hmod & Hdf & Hupd)].
  - now destruct (Hno df).
  - injection Hdf as <-.
    destruct Hupd as (k & before & Hkey & Hruns & Hout & _ & Hbefore & Htrace).
    exists dataset_id, last_modified, k, before.
    eexists. repeat split; try eassumption.
    + rewrite Hruns. apply lookup_set.
    + rewrite Hout. apply dict_get_write_file.
    + reflexivity.
Qed.

Lemma checkpoint_follows_sink_write_witness :
  exists dataset_id last_modified k before after,
    Py.getitem Scenario.A "identifier" = Ok dataset_id
    /\ Py.getitem Scenario.A "modified" = Ok last_modified
    /\ Py.hash_key dataset_id = Ok k
    /\ Checkpoints.lookup
         (processed_files
            (previous_runs
               (snd (exec (Scenario.serving ["Facility Name #1"])
                       (process_hospital_data Scenario.A) Scenario.never_run))))
         k
       = Some last_modified
    /\ Py.dict_get
         (output_dir
            (snd (exec (Scenario.serving ["Facility Name #1"])
                    (process_hospital_data Scenario.A) Scenario.never_run)))
         (Py.str_key k ++ ".csv")
       = Some (Table {| columns := ["facility_name_1"]; rows := [] |})
    /\ trace
         (snd (exec (Scenario.serving ["Facility Name #1"])
                 (process_hospital_data Scenario.A) Scenario.never_run))
       = (trace Scenario.never_run ++ before
          ++ EvToCsv (Py.str_key k ++ ".csv")
               {| columns := ["facility_name_1"]; rows := [] |} Written
          :: EvSetCheckpoint k last_modified :: after)%list
    /\ List.existsb is_checkpoint before = false
    /\ List.existsb is_checkpoint after = false.
Proof.
  apply (checkpoint_follows_sink_write (Scenario.serving ["Facility Name #1"])
           Scenario.never_run _ Scenario.A
           {| columns := ["facility_name_1"]; rows := [] |}).
  reflexivity.
Defined.

(** C8: a descriptor that gets past the gate with no checkpoint and whose
    first distribution entry gives no download URL ends as a failure for
    want of a locator: the call returns [None], it logs "Failed to get
    download url" (and then "Failed to read csv") to errors.log and does
    nothing else, so no request is made and the identifier still has no
    checkpoint. *)
Theorem missing_locator_fails (w : world) (st : state)
  (dataset dataset_id last_modified download_url : pyval) (k : pykey)
  (Hid : Py.getitem dataset "identifier" = Ok dataset_id)
  (Hmod : Py.getitem dataset "modified" = Ok last_modified)
  (Hkey : Py.hash_key dataset_id = Ok k)
  (Habsent : Checkpoints.lookup (processed_files (previous_runs st)) k = None)
  (Hurl : download_url_of dataset = Ok download_url)
  (Hfalsy : Py.truthy download_url = false) :
  exec w (process_hospital_data dataset) st
  = (Ok None,
     with_trace
       (with_trace st
          (EvLog "errors.log" (now w (List.length (trace st)))
             (FailedToGetDownloadUrl dataset_id)))
       (EvLog "errors.log" (now w (List.length (trace st) + 1))
          (FailedToReadCsv dataset_id)))
  /\ requests (trace (snd (exec w (process_hospital_data dataset) st)))
     = requests (trace st)
  /\ Checkpoints.lookup
       (processed_files
          (previous_runs (snd (exec w (process_hospital_data dataset) st)))) k
     = None.
Proof.
  assert (E : exec w (process_hospital_data dataset) st
              = (Ok None,
                 with_trace
                   (with_trace st
                      (EvLog "errors.log" (now w (List.length (trace st)))
                         (FailedToGetDownloadUrl dataset_id)))
                   (EvLog "errors.log" (now w (List.length (trace st) + 1))
                      (FailedToReadCsv dataset_id)))).
  { unfold process_hospital_data, process_body, up_to_date, fetch_and_save.
    rewrite Hid, Hmod. cbn -[Py.hash_key download_url_of]. rewrite Hkey.
    cbn -[Checkpoints.lookup download_url_of Py.hash_key].
    unfold Checkpoints.mem. rewrite Habsent.
    cbn -[download_url_of Py.truthy Py.hash_key]. rewrite Hurl.
    cbn -[Py.truthy Py.hash_key]. rewrite Hfalsy. cbn.
    rewrite List.length_app. reflexivity. }
  rewrite E. repeat split.
  - cbn -[requests]. rewrite !requests_app. cbn. now rewrite !List.app_nil_r.
  - exact Habsent.
Qed.

Lemma missing_locator_fails_witness :
  exec Scenario.offline (process_hospital_data Scenario.C) Scenario.never_run
  = (Ok None,
     with_trace
       (with_trace Scenario.never_run
          (EvLog "errors.log" "2024-01-03T06:00:00"
             (FailedToGetDownloadUrl (PStr "C"))))
       (EvLog "errors.log" "2024-01-03T06:00:00" (FailedToReadCsv (PStr "C")))).
Proof.
  apply (missing_locator_fails Scenario.offline Scenario.never_run Scenario.C
           (PStr "C") (PStr "2024-01-02") PNone (KStr "C")); reflexivity.
Defined.

(** C10: on a dict without the key 'identifier' (such as the [{}] that
    [get_hospital_datasets] hands over after a failed listing)
    [process_hospital_data] does not return [None]: the lookup raises
    before [dataset_id] is bound, the [except] branch formats
    [dataset_id], and the call raises [UnboundLocalError] without any
    effect. *)
Theorem missing_identifier_raises (w : world) (st : state)
  (d : list (string * pyval))
  (H : Py.dict_get d "identifier" = None) :
  exec w (process_hospital_data (PDict d)) st
  = (Raise (UnboundLocalError "dataset_id"), st).
Proof. unfold process_hospital_data. cbn -[Py.dict_get]. now rewrite H. Qed.

Lemma missing_identifier_raises_witness :
  exec Scenario.offline (process_hospital_data (PDict [])) Scenario.never_run
  = (Raise (UnboundLocalError "dataset_id"), Scenario.never_run).
Proof.
  apply (missing_identifier_raises Scenario.offline Scenario.never_run []).
  reflexivity.
Defined.

(** ** Header collisions *)





(** ** The catalog listing *)

Lemma get_hospital_datasets_returns (base_url : string) (w : world) (st : state) :
  exists st',
    exec w (get_hospital_datasets base_url) st
    = (Ok match listing base_url w (List.length (trace st)) with
          | Ok hospital => hospital
          | Raise _ => [PDict []]
          end, st')
    /\ unchanged st st'
    /\ output_dir st' = output_dir st
    /\ (is_ok (listing base_url w (List.length (trace st))) = false ->
        exists before t e,
          trace st'
          = (trace st ++ before
             ++ [EvLog "errors.log" t (FailedToIdentifyTheme e)])%list).
Proof.
  unfold get_hospital_datasets, connect, listing.
  cbn -[Py.iter hospital_datasets].
  destruct (requests_get w _ (PStr base_url)) as [resp|e];
    cbn -[Py.iter hospital_datasets].
  2:{ eexists. split; [reflexivity|]. repeat split.
      intros _. exists [EvRequest (PStr base_url);
                        EvLog "errors.log" (now w (List.length (trace st) + 1))
                          (FailedToConnect (PStr base_url) e)].
      do 2 eexists. cbn. rewrite !List.length_app, <- !List.app_assoc. cbn.
      reflexivity. }
  destruct (status_ok resp); cbn -[Py.iter hospital_datasets].
  all: destruct (json resp) as [datasets|e]; cbn -[Py.iter hospital_datasets].
  all: try destruct (Py.iter datasets) as [items|e]; cbn -[hospital_datasets].
  all: try destruct (hospital_datasets items) as [hospital|e]; cbn.
  all: eexists; (split; [reflexivity|]); repeat split; try discriminate.
  all: intros _; cbn [trace with_trace]; rewrite <- ?List.app_assoc.
  all: first [ eexists (cons _ nil); do 2 eexists; reflexivity
             | eexists (cons _ (cons _ nil)); do 2 eexists; reflexivity ].
Qed.

(** C5, as the code has it: when the catalog listing fails -- the request
    raises, or its body cannot be decoded, iterated or filtered --
    [get_hospital_datasets] does not raise.  It logs the failure to
    errors.log and returns the one-element list [{}] in place of the
    listing, leaving the metadata and the output directory alone; the run
    goes on with that list. *)
Theorem failed_listing_is_replaced (base_url : string) (w : world) (st : state)
  (e : exn)
  (H : listing base_url w (List.length (trace st)) = Raise e) :
  exists st' before t e',
    exec w (get_hospital_datasets base_url) st = (Ok [PDict []], st')
    /\ previous_runs st' = previous_runs st
    /\ metadata_file st' = metadata_file st
    /\ output_dir st' = output_dir st
    /\ trace st'
       = (trace st ++ before
          ++ [EvLog "errors.log" t (FailedToIdentifyTheme e')])%list.
Proof.
  destruct (get_hospital_datasets_returns base_url w st)
    as (st' & Hexec & [Hruns Hfile] & Hout & Hlog).
  rewrite H in Hexec, Hlog. destruct (Hlog eq_refl) as (before & t & e' & Htrace).
  exists st', before, t, e'. now repeat split.
Qed.

Lemma failed_listing_is_replaced_witness :
  exists st' before t e',
    exec Scenario.offline (get_hospital_datasets Scenario.catalog_url)
         Scenario.never_run
    = (Ok [PDict []], st')
    /\ previous_runs st' = previous_runs Scenario.never_run
    /\ metadata_file st' = metadata_file Scenario.never_run
    /\ output_dir st' = output_dir Scenario.never_run
    /\ trace st'
       = (trace Scenario.never_run ++ before
          ++ [EvLog "errors.log" t (FailedToIdentifyTheme e')])%list.
Proof.
  apply (failed_listing_is_replaced Scenario.catalog_url Scenario.offline
           Scenario.never_run RequestException).
  reflexivity.
Defined.

(** C5, as the specification states it, fails.  When the catalog answers
    with an HTTP error whose body is an empty JSON list, the run returns
    normally with no table, sets [last_run] and flushes the metadata: the
    caller sees a run with nothing to do.  When no request gets through,
    the listing is the list [{}]. *)
Lemma catalog_failure_is_not_surfaced :
  (exists resp,
      requests_get Scenario.erroring 0 (PStr Scenario.catalog_url) = Ok resp
      /\ status_ok resp = false)
  /\ fst (process_async_requests Scenario.catalog_url Scenario.erroring 4 []
            Scenario.never_run)
     = Ok []
  /\ last_run
       (previous_runs
          (snd (process_async_requests Scenario.catalog_url Scenario.erroring 4 []
                  Scenario.never_run)))
     = PStr "2024-01-03T06:00:00"
  /\ metadata_file
       (snd (process_async_requests Scenario.catalog_url Scenario.erroring 4 []
               Scenario.never_run))
     = Some (Json.dumps
               (metadata_value
                  {| last_run := PStr "2024-01-03T06:00:00";
                     processed_files := [] |}))
  /\ requests_get Scenario.offline 0 (PStr Scenario.catalog_url)
     = Raise RequestException
  /\ fst (exec Scenario.offline (get_hospital_datasets Scenario.catalog_url)
            Scenario.never_run)
     = Ok [PDict []].
Proof.
  split; [eexists; split; reflexivity|]. repeat split.
Qed.

(** ** The metadata flush *)

Lemma str_of_Z_nonempty z : Py.str_of_Z z <> EmptyString.
Proof.
  unfold Py.str_of_Z, NilZero.string_of_int.
  destruct (Z.to_int z) as [d|d].
  - unfold NilZero.string_of_uint. destruct d; discriminate.
  - discriminate.
Qed.

Lemma dumps_nonempty v : Json.dumps v <> EmptyString.
Proof.
  unfold Json.dumps. destruct v as [|[|]|z|s|[|x l]|[|[k x] d]]; try discriminate.
  apply str_of_Z_nonempty.
Qed.

(** C4, as the code has it: [save_metadata] writes in place.  Opening the
    file at the metadata path for writing empties it, and the empty file
    is never the text of a RunMetadata; only when [save_metadata] has
    returned does the file hold the complete new state, the metadata in
    memory being unchanged. *)
Theorem save_metadata_writes_in_place (w : world) (st : state)
  (Hopen : open_metadata w (List.length (trace st)) = true) :
  metadata_file (snd (steps 1 w (save_metadata, st))) = Some EmptyString
  /\ (forall m, Some (Json.dumps (metadata_value m)) <> Some EmptyString)
  /\ exists st',
       exec w save_metadata st = (Ok tt, st')
       /\ metadata_file st'
          = Some (Json.dumps (metadata_value (previous_runs st)))
       /\ previous_runs st' = previous_runs st.
Proof.
  split; [|split].
  - cbn. now rewrite Hopen.
  - intros m E. injection E as E. now apply dumps_nonempty in E.
  - unfold save_metadata. cbn. rewrite Hopen. cbn. eexists.
    split; [reflexivity|]. now split.
Qed.

Lemma save_metadata_writes_in_place_witness :
  metadata_file
    (snd (steps 1 (Scenario.serving []) (save_metadata, Scenario.about_to_flush)))
  = Some EmptyString.
Proof.
  apply (save_metadata_writes_in_place (Scenario.serving [])
           Scenario.about_to_flush).
  reflexivity.
Defined.

(** C4, as the specification states it, fails: after the first operation
    of the flush the file at the metadata path is empty, which is neither
    the complete state of before nor the complete new one. *)
Lemma flush_is_not_atomic :
  ~ atomic_flush (Scenario.serving []) Scenario.about_to_flush.
Proof.
  intros H. destruct (H 1) as [E|E]; discriminate E.
Qed.

(** ** What [snake_case] does to whitespace *)

Lemma spaces_kept n :
  PyStr.re_sub_special (repeat_char " " n ++ "b") = repeat_char " " n ++ "b".
Proof.
  induction n as [|n IH]; [reflexivity|].
  change (repeat_char " " (S n) ++ "b")
    with (String " " (repeat_char " " n ++ "b")).
  change (PyStr.re_sub_special (String " " (repeat_char " " n ++ "b")))
    with (String " " (PyStr.re_sub_special (repeat_char " " n ++ "b"))).
  now rewrite IH.
Qed.

Lemma spaces_not_stripped n :
  PyStr.rstrip (repeat_char " " n ++ "b") = repeat_char " " n ++ "b".
Proof.
  induction n as [|n IH]; [reflexivity|].
  change (repeat_char " " (S n) ++ "b")
    with (String " " (repeat_char " " n ++ "b")).
  cbn [PyStr.rstrip]. rewrite IH. now destruct n.
Qed.

Lemma spaces_translated n :
  PyStr.map underscore_or_lower (repeat_char " " n ++ "b")
  = repeat_char "_" n ++ "b".
Proof.
  induction n as [|n IH]; [reflexivity|].
  change (repeat_char " " (S n) ++ "b")
    with (String " " (repeat_char " " n ++ "b")).
  cbn [PyStr.map]. rewrite IH. reflexivity.
Qed.

(** C6, as the code has it: [snake_case] removes the characters outside
    letters, digits, underscore and whitespace, trims the whitespace at
    both ends, and then translates what is left character by character:
    a SPACE becomes one underscore and any other character its lower
    case.  So a run of [n] spaces becomes [n] underscores, a TAB inside
    the name stays a TAB, and "Facility Name #1" becomes
    "facility_name_1". *)
Theorem snake_case_translates_each_character :
  convert_columns_to_snake_case ["Facility Name #1"] = ["facility_name_1"]
  /\ (forall c,
        snake_case c
        = PyStr.map underscore_or_lower (PyStr.strip (PyStr.re_sub_special c)))
  /\ (forall c,
        PyStr.forallb PyStr.kept (PyStr.strip (PyStr.re_sub_special c)) = true
        /\ trimmed (PyStr.strip (PyStr.re_sub_special c)))
  /\ (forall c,
        String.length (snake_case c)
        = String.length (PyStr.strip (PyStr.re_sub_special c)))
  /\ (forall n,
        snake_case ("a" ++ repeat_char " " n ++ "b")
        = "a" ++ repeat_char "_" n ++ "b")
  /\ snake_case (String "a" (String (ascii_of_nat 9) "b"))
     = String "a" (String (ascii_of_nat 9) "b").
Proof.
  split; [reflexivity|]. split; [exact snake_case_map|].
  split; [|split; [|split; [|reflexivity]]].
  - intros c. split; [|apply Strings.strip_trimmed].
    apply Strings.forallb_rstrip, Strings.forallb_lstrip, Strings.forallb_filter.
  - intros c. rewrite snake_case_map. apply Strings.map_length.
  - intros n. rewrite snake_case_map.
    change ("a" ++ repeat_char " " n ++ "b")
      with (String "a" (repeat_char " " n ++ "b")).
    change (PyStr.re_sub_special (String "a" (repeat_char " " n ++ "b")))
      with (String "a" (PyStr.re_sub_special (repeat_char " " n ++ "b"))).
    rewrite spaces_kept. unfold PyStr.strip.
    change (PyStr.lstrip (String "a" (repeat_char " " n ++ "b")))
      with (String "a" (repeat_char " " n ++ "b")).
    cbn [PyStr.rstrip]. rewrite spaces_not_stripped.
    replace (match repeat_char " " n ++ "b" with
             | EmptyString =>
                 if PyStr.isspace "a" then EmptyString else String "a" EmptyString
             | String a s => String "a" (String a s)
             end)
      with (String "a" (repeat_char " " n ++ "b")) by now destruct n.
    cbn [PyStr.map]. now rewrite spaces_translated.
Qed.

(** C6, as the specification states it, fails: two spaces between two
    letters become two underscores, where collapsing the run would give
    one. *)
Lemma whitespace_runs_are_not_collapsed :
  snake_case "a  b" = "a__b"
  /\ Spec.header_normalizer "a  b" = "a_b"
  /\ snake_case "a  b" <> Spec.header_normalizer "a  b".
Proof. repeat split. intros E. discriminate E. Qed.

(** ** The pool *)

Lemma exec_step {A} (w : world) (p : prog A) (st : state) :
  exec w (fst (step w (p, st))) (snd (step w (p, st))) = exec w p st.
Proof.
  destruct p as [a|e|X o k]; try reflexivity.
  cbn. now destruct (perform w o st).
Qed.

(** With one call in the pool the schedule does not matter. *)
Lemma run_pool_single (w : world) (schedule : list nat) (dataset : pyval)
  (p : prog (option dataframe)) (done : list future) (st : state) :
  run_pool w schedule [(dataset, p)] [] done st
  = ((done ++ [(dataset, fst (exec w p st))])%list, snd (exec w p st)).
Proof.
  revert p done st. induction schedule as [|c schedule IH]; intros p done st.
  - cbn. now destruct (exec w p st).
  - cbn [run_pool List.length]. rewrite Nat.mod_1_r.
    destruct p as [a|e|X o k]; cbn.
    + now destruct schedule.
    + now destruct schedule.
    + destruct (perform w o st) as [x st1]. apply IH.
Qed.

(** After a failed listing the one descriptor of the run is [{}]: its
    call raises, the loop over the futures raises in turn when it formats
    the identifier, and the run ends without setting [last_run] and
    without a flush, whatever the schedule. *)
Lemma run_after_failed_listing (base_url : string) (w : world) (st : state)
  (workers : nat) (schedule : list nat) (e : exn) :
  listing base_url w (List.length (trace st)) = Raise e ->
  process_async_requests base_url w (S workers) schedule st
  = (Raise KeyError, snd (exec w (get_hospital_datasets base_url) st)).
Proof.
  intros H. unfold process_async_requests.
  destruct (get_hospital_datasets_returns base_url w st) as (st1 & E & _).
  rewrite H in E. rewrite E. cbn [snd].
  cbn [List.firstn List.skipn]. rewrite List.firstn_nil, List.skipn_nil.
  cbn [List.map]. unfold submit. rewrite run_pool_single. reflexivity.
Qed.

(** The first scenario of the specification: of the two descriptors of
    the catalog only [A] has the theme, so only [A] is fetched, and the
    run ends with the one checkpoint [A -> "2024-01-02"], flushed. *)
Lemma run_fetches_the_hospital_dataset (workers : nat) (schedule : list nat) :
  process_async_requests Scenario.catalog_url
    (Scenario.online ["Facility Name #1"]) (S workers) schedule
    Scenario.never_run
  = process_async_requests Scenario.catalog_url
      (Scenario.online ["Facility Name #1"]) 1 [] Scenario.never_run
  /\ fst (process_async_requests Scenario.catalog_url
            (Scenario.online ["Facility Name #1"]) 1 [] Scenario.never_run)
     = Ok [{| columns := ["facility_name_1"]; rows := [] |}]
  /\ processed_files
       (previous_runs
          (snd (process_async_requests Scenario.catalog_url
                  (Scenario.online ["Facility Name #1"]) 1 []
                  Scenario.never_run)))
     = [(KStr "A", PStr "2024-01-02")]
  /\ requests
       (trace
          (snd (process_async_requests Scenario.catalog_url
                  (Scenario.online ["Facility Name #1"]) 1 []
                  Scenario.never_run)))
     = [EvRequest (PStr Scenario.catalog_url);
        EvRequest (PStr "https://data.cms.gov/A.csv")].
Proof.
  split; [|repeat split].
  unfold process_async_requests.
  destruct (exec (Scenario.online ["Facility Name #1"])
              (get_hospital_datasets Scenario.catalog_url) Scenario.never_run)
    as [r st1] eqn:E.
  vm_compute in E. injection E as <- <-.
  cbn [List.firstn List.skipn]. rewrite List.firstn_nil, List.skipn_nil.
  cbn [List.map]. unfold submit. now rewrite !run_pool_single.
Qed.

(** ** The normaliser on headers of any characters *)

Module CodePoints.

Import Unicode.
Local Open Scope N_scope.

Lemma in_ranges_In ranges c :
  in_ranges ranges c = true ->
  exists r, List.In r ranges /\ fst r <= c <= snd r.
Proof.
  unfold in_ranges. intros H. apply List.existsb_exists in H as (r & Hin & Hr).
  apply andb_true_iff in Hr as [Hlo Hhi].
  exists r. split; [assumption|]. split; now apply N.leb_le.
Qed.

Lemma entries_ok : List.forallb entry_ok lower_pairs = true.
Proof. vm_compute. reflexivity. Qed.

Lemma lower_simple_entry c :
  lower_simple c = c
  \/ exists p, List.In p lower_pairs /\ fst p = c /\ snd p = lower_simple c.
Proof.
  unfold lower_simple.
  destruct (List.find (fun p => fst p =? c) lower_pairs) as [p|] eqn:E.
  - right. apply List.find_some in E as [Hin Hc]. apply N.eqb_eq in Hc.
    now exists p.
  - now left.
Qed.

Lemma entry_facts p :
  List.In p lower_pairs ->
  isword (snd p) = isword (fst p)
  /\ isspace (fst p) = false /\ isspace (snd p) = false
  /\ lower_simple (snd p) = snd p
  /\ snd p <> capital_i_with_dot /\ snd p <> capital_sigma
  /\ fst p <> capital_i_with_dot /\ fst p <> capital_sigma.
Proof.
  intros Hin. pose proof entries_ok as H.
  rewrite List.forallb_forall in H. specialize (H p Hin). unfold entry_ok in H.
  repeat (apply andb_true_iff in H as [H ?]).
  repeat match goal with
         | E : negb _ = true |- _ => apply negb_true_iff in E
         end.
  repeat split; try assumption;
    try (now apply Bool.eqb_prop); try (now apply N.eqb_eq);
    try (now apply N.eqb_neq).
Qed.

Lemma lower_simple_word c : isword (lower_simple c) = isword c.
Proof.
  destruct (lower_simple_entry c) as [->|(p & Hin & <- & <-)]; [reflexivity|].
  now apply entry_facts.
Qed.

Lemma lower_simple_space c : isspace (lower_simple c) = isspace c.
Proof.
  destruct (lower_simple_entry c) as [->|(p & Hin & <- & <-)]; [reflexivity|].
  destruct (entry_facts p Hin) as (_ & -> & -> & _). reflexivity.
Qed.

Lemma lower_simple_kept c : kept (lower_simple c) = kept c.
Proof. unfold kept. now rewrite lower_simple_word, lower_simple_space. Qed.

Lemma lower_simple_twice c : lower_simple (lower_simple c) = lower_simple c.
Proof.
  destruct (lower_simple_entry c) as [E|(p & Hin & <- & <-)].
  - now rewrite E.
  - now apply entry_facts.
Qed.

Lemma lower_simple_plain c :
  c <> capital_i_with_dot -> c <> capital_sigma ->
  lower_simple c <> capital_i_with_dot /\ lower_simple c <> capital_sigma.
Proof.
  intros H1 H2.
  destruct (lower_simple_entry c) as [->|(p & Hin & <- & <-)]; [now split|].
  destruct (entry_facts p Hin) as (_ & _ & _ & _ & ? & ? & _). now split.
Qed.

End CodePoints.

Module Headers.

Import Unicode.
Local Open Scope N_scope.

Lemma lstrip_incl s : List.incl (lstrip s) s.
Proof.
  induction s as [|c s IH]; simpl; [apply List.incl_refl|].
  destruct (isspace c); [now apply List.incl_tl | apply List.incl_refl].
Qed.

Lemma rstrip_incl s : List.incl (rstrip s) s.
Proof.
  induction s as [|c s IH]; simpl; [apply List.incl_refl|].
  destruct (rstrip s) as [|a r].
  - destruct (isspace c); [apply List.incl_nil_l|].
    intros x [<-|[]]. now left.
  - intros x [<-|Hx]; [now left | right; now apply IH].
Qed.

Lemma strip_incl s : List.incl (strip s) s.
Proof.
  unfold strip. eapply List.incl_tran; [apply rstrip_incl | apply lstrip_incl].
Qed.

Lemma lstrip_shorter s : (List.length (lstrip s) <= List.length s)%nat.
Proof.
  induction s as [|c s IH]; simpl; [lia|].
  destruct (isspace c); simpl; lia.
Qed.

Lemma rstrip_shorter s : (List.length (rstrip s) <= List.length s)%nat.
Proof.
  induction s as [|c s IH]; simpl; [lia|].
  destruct (rstrip s) as [|a r]; [destruct (isspace c)|]; simpl in *; lia.
Qed.

Lemma lstrip_head c s : lstrip (c :: s) = c :: s -> isspace c = false.
Proof.
  simpl. destruct (isspace c); [|reflexivity].
  intros E. pose proof (lstrip_shorter s) as L. rewrite E in L. simpl in L. lia.
Qed.

Lemma lstrip_twice s : lstrip (lstrip s) = lstrip s.
Proof.
  induction s as [|c s IH]; simpl; [reflexivity|].
  destruct (isspace c) eqn:E; [exact IH | simpl; now rewrite E].
Qed.

Lemma rstrip_cons c s :
  rstrip (c :: s)
  = match rstrip s with
    | [] => if isspace c then [] else [c]
    | r => c :: r
    end.
Proof. reflexivity. Qed.

Lemma rstrip_twice s : rstrip (rstrip s) = rstrip s.
Proof.
  induction s as [|c s IH]; [reflexivity|].
  rewrite rstrip_cons. destruct (rstrip s) as [|a r] eqn:E.
  - destruct (isspace c) eqn:Ec; [reflexivity|].
    rewrite rstrip_cons. simpl. now rewrite Ec.
  - rewrite rstrip_cons, IH. reflexivity.
Qed.

Lemma lstrip_after_rstrip s : lstrip s = s -> lstrip (rstrip s) = rstrip s.
Proof.
  destruct s as [|c s]; [reflexivity|].
  intros H. apply lstrip_head in H.
  rewrite rstrip_cons. destruct (rstrip s).
  - rewrite H. simpl. now rewrite H.
  - simpl. now rewrite H.
Qed.

Lemma strip_is_trimmed s : lstrip (strip s) = strip s /\ rstrip (strip s) = strip s.
Proof.
  split; unfold strip.
  - apply lstrip_after_rstrip, lstrip_twice.
  - apply rstrip_twice.
Qed.

Lemma strip_fixed s : lstrip s = s -> rstrip s = s -> strip s = s.
Proof. intros Hl Hr. unfold strip. now rewrite Hl. Qed.

(** Trimmed strings stay trimmed under a translation, character for
    character, that makes no whitespace of what is not. *)
Lemma lstrip_related (R : N -> N -> Prop) s t :
  (forall c o, R c o -> isspace c = false -> isspace o = false) ->
  List.Forall2 R s t -> lstrip s = s -> lstrip t = t.
Proof.
  intros HR H Hs. destruct H as [|c o s t Hco Hst]; [reflexivity|].
  apply lstrip_head in Hs. simpl. now rewrite (HR c o Hco Hs).
Qed.

Lemma rstrip_related (R : N -> N -> Prop) s t :
  (forall c o, R c o -> isspace c = false -> isspace o = false) ->
  List.Forall2 R s t -> rstrip s = s -> rstrip t = t.
Proof.
  intros HR H. induction H as [|c o s t Hco Hst IH]; [reflexivity|].
  rewrite !rstrip_cons. destruct (rstrip s) as [|a r] eqn:E.
  - destruct (isspace c) eqn:Ec; [discriminate|].
    intros Hs. injection Hs as <-. inversion Hst; subst. simpl.
    now rewrite (HR c o Hco Ec).
  - intros Hs. injection Hs as Hs. subst s. rewrite (IH eq_refl).
    inversion Hst; subst. reflexivity.
Qed.

Lemma filter_fixed (p : N -> bool) s :
  List.Forall (fun c => p c = true) s -> List.filter p s = s.
Proof.
  induction 1 as [|c s Hc Hs IH]; simpl; [reflexivity|]. now rewrite Hc, IH.
Qed.

Lemma filter_map_class (p : N -> bool) (f : N -> N) s :
  (forall c, p (f c) = p c) ->
  List.filter p (List.map f s) = List.map f (List.filter p s).
Proof.
  intros Hf. induction s as [|c s IH]; simpl; [reflexivity|].
  rewrite Hf. destruct (p c); simpl; now rewrite IH.
Qed.

Lemma lstrip_map_class (f : N -> N) s :
  (forall c, isspace (f c) = isspace c) ->
  lstrip (List.map f s) = List.map f (lstrip s).
Proof.
  intros Hf. induction s as [|c s IH]; simpl; [reflexivity|].
  rewrite Hf. now destruct (isspace c).
Qed.

Lemma rstrip_map_class (f : N -> N) s :
  (forall c, isspace (f c) = isspace c) ->
  rstrip (List.map f s) = List.map f (rstrip s).
Proof.
  intros Hf. induction s as [|c s IH]; [reflexivity|].
  cbn [List.map]. rewrite !rstrip_cons, IH, Hf.
  destruct (rstrip s); [now destruct (isspace c) | reflexivity].
Qed.

Lemma strip_map_class (f : N -> N) s :
  (forall c, isspace (f c) = isspace c) ->
  strip (List.map f s) = List.map f (strip s).
Proof.
  intros Hf. unfold strip. now rewrite lstrip_map_class, rstrip_map_class.
Qed.

(** *** [str.lower] *)

Lemma lower_from_lowered before s :
  ~ List.In capital_i_with_dot s -> List.Forall2 lowered s (lower_from before s).
Proof.
  revert before. induction s as [|c s IH]; intros before H; simpl; [constructor|].
  assert (Hc : c <> capital_i_with_dot) by (intros ->; apply H; now left).
  assert (Hs : ~ List.In capital_i_with_dot s) by (intros I; apply H; now right).
  destruct (c =? capital_sigma) eqn:E.
  - apply N.eqb_eq in E. cbn [List.app]. constructor; [|now apply IH].
    right. split; [assumption|]. destruct (final_sigma before s); auto.
  - apply N.eqb_neq in E. unfold lower_full.
    apply N.eqb_neq in Hc. rewrite Hc. cbn [List.app].
    constructor; [now left | now apply IH].
Qed.

Lemma lower_from_plain before s :
  ~ List.In capital_i_with_dot s -> ~ List.In capital_sigma s ->
  lower_from before s = List.map lower_simple s.
Proof.
  revert before. induction s as [|c s IH]; intros before H1 H2; simpl;
    [reflexivity|].
  assert (E1 : (c =? capital_i_with_dot) = false)
    by (apply N.eqb_neq; intros ->; apply H1; now left).
  assert (E2 : (c =? capital_sigma) = false)
    by (apply N.eqb_neq; intros ->; apply H2; now left).
  unfold lower_full. rewrite E1, E2. cbn [List.app]. f_equal.
  apply IH; intros I; [apply H1 | apply H2]; now right.
Qed.

Lemma map_fixed (f : N -> N) s :
  List.Forall (fun c => f c = c) s -> List.map f s = s.
Proof. induction 1 as [|c s Hc Hs IH]; simpl; [reflexivity | now rewrite Hc, IH]. Qed.

End Headers.

Module Names.

Import Unicode.
Local Open Scope N_scope.

Lemma lowered_kept c o : lowered c o -> kept o = kept c.
Proof.
  intros [[_ ->]|[-> [->| ->]]]; [apply CodePoints.lower_simple_kept | |];
    vm_compute; reflexivity.
Qed.

Lemma lowered_space c o : lowered c o -> isspace o = isspace c.
Proof.
  intros [[_ ->]|[-> [->| ->]]]; [apply CodePoints.lower_simple_space | |];
    vm_compute; reflexivity.
Qed.

Lemma lowered_stable c o :
  c <> capital_i_with_dot -> lowered c o ->
  lower_simple o = o /\ o <> capital_i_with_dot /\ o <> capital_sigma.
Proof.
  intros Hc [[Hs ->]|[-> [->| ->]]].
  - split; [apply CodePoints.lower_simple_twice|].
    now apply CodePoints.lower_simple_plain.
  - split; [vm_compute; reflexivity | split; intros E; discriminate E].
  - split; [vm_compute; reflexivity | split; intros E; discriminate E].
Qed.

Lemma named_canonical c o :
  kept c = true -> c <> capital_i_with_dot -> named c o -> canonical o.
Proof.
  intros Hk Hc (l & Hl & ->).
  destruct (l =? 32) eqn:E.
  - split; [vm_compute; reflexivity|].
    repeat split; intros E'; discriminate E'.
  - apply N.eqb_neq in E.
    destruct (lowered_stable c l Hc Hl) as (H1 & H2 & H3).
    repeat split; try assumption. now rewrite (lowered_kept c l Hl).
Qed.

Lemma named_space c o : named c o -> isspace c = false -> isspace o = false.
Proof.
  intros (l & Hl & ->) Hc. rewrite <- (lowered_space c l Hl) in Hc.
  destruct (l =? 32) eqn:E; [reflexivity | assumption].
Qed.

Lemma lowered_named s t :
  List.Forall2 lowered s t ->
  List.Forall2 named s (List.map (fun c => if c =? 32 then 95 else c) t).
Proof.
  induction 1 as [|c l s t Hcl Hst IH]; simpl; constructor; auto.
  now exists l.
Qed.

(** Without U+0130 the name is the stripped header, code point for code
    point. *)
Lemma snake_case_named h :
  ~ List.In capital_i_with_dot h ->
  List.Forall2 named (strip (re_sub_special h)) (snake_case h).
Proof.
  intros H. unfold snake_case, lower, replace_space.
  assert (Hx : ~ List.In capital_i_with_dot (strip (re_sub_special h))).
  { intros I. apply Headers.strip_incl in I. unfold re_sub_special in I.
    apply List.filter_In in I as [I _]. now apply H. }
  apply lowered_named. now apply Headers.lower_from_lowered.
Qed.

Lemma stripped_kept h :
  List.Forall (fun c => kept c = true) (strip (re_sub_special h)).
Proof.
  apply List.Forall_forall. intros c I. apply Headers.strip_incl in I.
  unfold re_sub_special in I. now apply List.filter_In in I as [_ I].
Qed.

Lemma snake_case_canonical h :
  ~ List.In capital_i_with_dot h -> List.Forall canonical (snake_case h).
Proof.
  intros H. pose proof (snake_case_named h H) as L.
  pose proof (stripped_kept h) as K.
  assert (Hx : List.Forall (fun c => c <> capital_i_with_dot)
                 (strip (re_sub_special h))).
  { apply List.Forall_forall. intros c I Ec. subst c.
    apply Headers.strip_incl in I. unfold re_sub_special in I.
    apply List.filter_In in I as [I _]. now apply H. }
  revert K Hx. generalize (strip (re_sub_special h)) (snake_case h) L.
  induction 1 as [|c o s t Hco Hst IH]; intros K Hx; constructor.
  - inversion K; subst. inversion Hx; subst. now apply (named_canonical c).
  - inversion K; subst. inversion Hx; subst. now apply IH.
Qed.

Lemma name_trimmed h :
  ~ List.In capital_i_with_dot h -> strip (snake_case h) = snake_case h.
Proof.
  intros H. pose proof (snake_case_named h H) as L.
  destruct (Headers.strip_is_trimmed (re_sub_special h)) as [Hl Hr].
  apply Headers.strip_fixed.
  - exact (Headers.lstrip_related named _ _ named_space L Hl).
  - exact (Headers.rstrip_related named _ _ named_space L Hr).
Qed.

Lemma canonical_fixed y :
  List.Forall canonical y ->
  re_sub_special y = y /\ lower y = y /\ replace_space y = y.
Proof.
  intros H. split; [|split].
  - apply Headers.filter_fixed. revert H. apply List.Forall_impl.
    now intros c (Hk & _).
  - unfold lower. rewrite Headers.lower_from_plain.
    + apply Headers.map_fixed. revert H. apply List.Forall_impl.
      now intros c (_ & _ & Hl & _).
    + intros I. rewrite List.Forall_forall in H.
      now destruct (H _ I) as (_ & _ & _ & Hc & _).
    + intros I. rewrite List.Forall_forall in H.
      now destruct (H _ I) as (_ & _ & _ & _ & Hc).
  - unfold replace_space. apply Headers.map_fixed. revert H.
    apply List.Forall_impl. intros c (_ & Hc & _).
    apply N.eqb_neq in Hc. now rewrite Hc.
Qed.

Lemma snake_case_length h :
  ~ List.In capital_i_with_dot h ->
  (List.length (snake_case h) <= List.length h)%nat.
Proof.
  intros H. rewrite <- (List.Forall2_length (snake_case_named h H)).
  unfold strip, re_sub_special.
  pose proof (Headers.rstrip_shorter (lstrip (List.filter kept h))).
  pose proof (Headers.lstrip_shorter (List.filter kept h)).
  pose proof (List.filter_length_le kept h). lia.
Qed.

Lemma snake_case_twice h :
  ~ List.In capital_i_with_dot h -> snake_case (snake_case h) = snake_case h.
Proof.
  intros H. pose proof (snake_case_canonical h H) as C.
  destruct (canonical_fixed _ C) as (E1 & E2 & E3).
  unfold snake_case at 1. rewrite E1, (name_trimmed h H), E2. exact E3.
Qed.

End Names.

(** *** Letter case and special characters *)

Module MoreNames.

Import Unicode.
Local Open Scope N_scope.

Lemma map_lower_simple_plain s :
  ~ List.In capital_i_with_dot s -> ~ List.In capital_sigma s ->
  ~ List.In capital_i_with_dot (List.map lower_simple s)
  /\ ~ List.In capital_sigma (List.map lower_simple s).
Proof.
  intros H1 H2. split; intros I; apply List.in_map_iff in I as (c & E & I).
  - assert (Hc : c <> capital_i_with_dot) by (intros ->; now apply H1).
    assert (Hs : c <> capital_sigma) by (intros ->; now apply H2).
    now destruct (CodePoints.lower_simple_plain c Hc Hs).
  - assert (Hc : c <> capital_i_with_dot) by (intros ->; now apply H1).
    assert (Hs : c <> capital_sigma) by (intros ->; now apply H2).
    now destruct (CodePoints.lower_simple_plain c Hc Hs).
Qed.

Lemma stripped_plain (x : N) h :
  ~ List.In x h -> ~ List.In x (strip (re_sub_special h)).
Proof.
  intros H I. apply Headers.strip_incl in I. unfold re_sub_special in I.
  apply List.filter_In in I as [I _]. now apply H.
Qed.

Lemma snake_case_lower h :
  ~ List.In capital_i_with_dot h -> ~ List.In capital_sigma h ->
  snake_case (lower h) = snake_case h.
Proof.
  intros H1 H2. unfold snake_case, lower at 2.
  rewrite (Headers.lower_from_plain [] h H1 H2).
  unfold re_sub_special.
  rewrite Headers.filter_map_class by apply CodePoints.lower_simple_kept.
  rewrite Headers.strip_map_class by apply CodePoints.lower_simple_space.
  fold (re_sub_special h).
  pose proof (stripped_plain _ h H1) as P1.
  pose proof (stripped_plain _ h H2) as P2.
  destruct (map_lower_simple_plain _ P1 P2) as [Q1 Q2].
  unfold lower. rewrite (Headers.lower_from_plain [] _ Q1 Q2).
  rewrite (Headers.lower_from_plain [] _ P1 P2).
  rewrite List.map_map. f_equal. apply List.map_ext.
  intros c. apply CodePoints.lower_simple_twice.
Qed.

Lemma filter_none (p : N -> bool) x :
  List.Forall (fun c => p c = false) x -> List.filter p x = [].
Proof. induction 1 as [|c s Hc Hs IH]; simpl; [reflexivity | now rewrite Hc]. Qed.

Lemma snake_case_specials a x b :
  List.Forall (fun c => kept c = false) x ->
  snake_case (a ++ x ++ b) = snake_case (a ++ b).
Proof.
  intros H. unfold snake_case, re_sub_special.
  now rewrite !List.filter_app, (filter_none _ _ H).
Qed.

End MoreNames.

(** *** The 8-bit model is the normaliser on headers of code points
    below 256 *)

Module Latin1.

Local Open Scope N_scope.

Ltac by_cases a :=
  destruct a as [[|] [|] [|] [|] [|] [|] [|] [|]]; vm_compute; reflexivity.

Lemma isword_code a : Unicode.isword (N_of_ascii a) = PyStr.isword a.
Proof. by_cases a. Qed.

Lemma isspace_code a : Unicode.isspace (N_of_ascii a) = PyStr.isspace a.
Proof. by_cases a. Qed.

Lemma lower_code before a rest :
  Unicode.lower_from before (N_of_ascii a :: rest)
  = N_of_ascii (PyStr.lower_char a)
    :: Unicode.lower_from (N_of_ascii a :: before) rest.
Proof.
  cbn [Unicode.lower_from].
  replace (N_of_ascii a =? Unicode.capital_sigma) with false by by_cases a.
  replace (Unicode.lower_full (N_of_ascii a))
    with [N_of_ascii (PyStr.lower_char a)] by by_cases a.
  reflexivity.
Qed.

Lemma replace_code a :
  (if N_of_ascii a =? 32 then 95 else N_of_ascii a)
  = N_of_ascii (if Ascii.eqb a " " then "_"%char else a).
Proof. by_cases a. Qed.

Lemma kept_code a : Unicode.kept (N_of_ascii a) = PyStr.kept a.
Proof.
  unfold Unicode.kept, PyStr.kept. now rewrite isword_code, isspace_code.
Qed.

Lemma codes_filter s :
  Unicode.codes (PyStr.filter PyStr.kept s)
  = List.filter Unicode.kept (Unicode.codes s).
Proof.
  induction s as [|a s IH]; simpl; [reflexivity|].
  rewrite kept_code. destruct (PyStr.kept a); simpl; now rewrite IH.
Qed.

Lemma codes_lstrip s :
  Unicode.codes (PyStr.lstrip s) = Unicode.lstrip (Unicode.codes s).
Proof.
  induction s as [|a s IH]; simpl; [reflexivity|].
  rewrite isspace_code. now destruct (PyStr.isspace a).
Qed.

Lemma codes_rstrip s :
  Unicode.codes (PyStr.rstrip s) = Unicode.rstrip (Unicode.codes s).
Proof.
  induction s as [|a s IH]; [reflexivity|].
  cbn [Unicode.codes PyStr.rstrip].
  rewrite Headers.rstrip_cons, <- IH, isspace_code.
  destruct (PyStr.rstrip s); [now destruct (PyStr.isspace a) | reflexivity].
Qed.

Lemma codes_lower before s :
  Unicode.codes (PyStr.lower s) = Unicode.lower_from before (Unicode.codes s).
Proof.
  revert before. induction s as [|a s IH]; intros before; [reflexivity|].
  cbn [Unicode.codes]. rewrite lower_code. cbn. f_equal. apply IH.
Qed.

Lemma codes_replace s :
  Unicode.codes (PyStr.replace_space s)
  = Unicode.replace_space (Unicode.codes s).
Proof.
  induction s as [|a s IH]; simpl; [reflexivity|].
  now rewrite replace_code, <- IH.
Qed.

(** On a header of the 8-bit model the two normalisers agree. *)
Lemma snake_case_codes s :
  Unicode.snake_case (Unicode.codes s) = Unicode.codes (snake_case s).
Proof.
  unfold Unicode.snake_case, snake_case, Unicode.strip, PyStr.strip,
    Unicode.re_sub_special, PyStr.re_sub_special, Unicode.lower.
  now rewrite codes_replace, (codes_lower []), codes_rstrip, codes_lstrip,
    codes_filter.
Qed.

Lemma convert_columns_codes cols :
  Unicode.convert_columns_to_snake_case (List.map Unicode.codes cols)
  = List.map Unicode.codes (convert_columns_to_snake_case cols).
Proof.
  unfold Unicode.convert_columns_to_snake_case, convert_columns_to_snake_case.
  rewrite !List.map_map. apply List.map_ext, snake_case_codes.
Qed.

End Latin1.

(** C7, as the code has it: header normalisation is a function of the
    header alone, and normalising a normalised header gives it back for
    every header that does not contain U+0130 (capital I with a dot
    above): on every list of such headers
    [convert_columns_to_snake_case] applied twice is the same as applied
    once. *)
Theorem snake_case_idempotent (cols : list (list N))
  (H : List.Forall (fun h => ~ List.In Unicode.capital_i_with_dot h) cols) :
  Unicode.convert_columns_to_snake_case
    (Unicode.convert_columns_to_snake_case cols)
  = Unicode.convert_columns_to_snake_case cols.
Proof.
  unfold Unicode.convert_columns_to_snake_case. rewrite List.map_map.
  induction H as [|h cols Hh Hcols IH]; simpl; [reflexivity|].
  now rewrite (Names.snake_case_twice h Hh), IH.
Qed.

Lemma snake_case_idempotent_witness :
  Unicode.convert_columns_to_snake_case
    (Unicode.convert_columns_to_snake_case
       [Unicode.codes "Facility Name #1"; [931; 932; 931; 32; 916]%N])
  = Unicode.convert_columns_to_snake_case
      [Unicode.codes "Facility Name #1"; [931; 932; 931; 32; 916]%N].
Proof.
  apply (snake_case_idempotent
           [Unicode.codes "Facility Name #1"; [931; 932; 931; 32; 916]%N]).
  repeat constructor; vm_compute; intuition discriminate.
Defined.

(** C7, as the specification states it, fails: the header made of the
    one character U+0130 is normalised to [i] followed by U+0307 (the
    combining dot above), which is not a word character; normalising that
    name removes the dot and gives [i]. *)
Lemma capital_i_with_dot_is_not_stable :
  Unicode.snake_case [Unicode.capital_i_with_dot] = [105; 775]%N
  /\ Unicode.snake_case [105; 775]%N = [105]%N
  /\ Unicode.convert_columns_to_snake_case
       (Unicode.convert_columns_to_snake_case [[Unicode.capital_i_with_dot]])
     <> Unicode.convert_columns_to_snake_case [[Unicode.capital_i_with_dot]].
Proof.
  split; [vm_compute; reflexivity|]. split; [vm_compute; reflexivity|].
  vm_compute. intros E. discriminate E.
Qed.

(** * Further properties *)

(** ** More on the header normaliser *)

Module MoreCharacters.

Ltac by_cases c :=
  destruct c as [[|] [|] [|] [|] [|] [|] [|] [|]]; vm_compute; reflexivity.

Lemma word_not_space c : implb (PyStr.isword c) (negb (PyStr.isspace c)) = true.
Proof. by_cases c. Qed.

End MoreCharacters.

Module MoreStrings.

Lemma map_empty f s : PyStr.map f s = EmptyString <-> s = EmptyString.
Proof. destruct s; simpl; split; congruence. Qed.

Lemma rstrip_empty s :
  PyStr.rstrip s = EmptyString <-> PyStr.forallb PyStr.isspace s = true.
Proof.
  induction s as [|c s IH]; simpl; [tauto|].
  destruct (PyStr.rstrip s) as [|a r].
  - destruct (PyStr.isspace c); simpl.
    + split; intros _; [now apply IH | reflexivity].
    + split; discriminate.
  - split; [discriminate|].
    intros H. apply andb_true_iff in H as [_ H]. now apply IH in H.
Qed.

Lemma forallb_space_lstrip s :
  PyStr.forallb PyStr.isspace (PyStr.lstrip s) = PyStr.forallb PyStr.isspace s.
Proof.
  induction s as [|c s IH]; simpl; [reflexivity|].
  destruct (PyStr.isspace c) eqn:E; simpl; [exact IH | now rewrite E].
Qed.

Lemma strip_empty s :
  PyStr.strip s = EmptyString <-> PyStr.forallb PyStr.isspace s = true.
Proof.
  unfold PyStr.strip. rewrite rstrip_empty, forallb_space_lstrip. tauto.
Qed.

Lemma forallb_filter_iff (p q : ascii -> bool) s :
  PyStr.forallb q (PyStr.filter p s)
  = PyStr.forallb (fun c => implb (p c) (q c)) s.
Proof.
  induction s as [|c s IH]; simpl; [reflexivity|].
  destruct (p c); simpl; now rewrite IH.
Qed.

Lemma forallb_ext (p q : ascii -> bool) s :
  (forall c, p c = q c) -> PyStr.forallb p s = PyStr.forallb q s.
Proof.
  intros E; induction s as [|c s IH]; simpl; [reflexivity | now rewrite E, IH].
Qed.

End MoreStrings.

(** X1: for every header that does not contain U+0130 (capital I with
    a dot above), the name [snake_case] gives is made of characters of
    the class [[\w\s]] none of which is the SPACE, it is its own
    [lower()], it neither starts nor ends with whitespace, and it is
    never longer than the header. *)
Theorem snake_case_is_canonical (h : list N)
  (H : ~ List.In Unicode.capital_i_with_dot h) :
  List.Forall (fun c => Unicode.kept c = true /\ c <> 32%N) (Unicode.snake_case h)
  /\ Unicode.lower (Unicode.snake_case h) = Unicode.snake_case h
  /\ Unicode.strip (Unicode.snake_case h) = Unicode.snake_case h
  /\ (List.length (Unicode.snake_case h) <= List.length h)%nat.
Proof.
  pose proof (Names.snake_case_canonical h H) as C.
  split; [|split; [|split]].
  - revert C. apply List.Forall_impl. now intros c (Hk & Hc & _).
  - now apply Names.canonical_fixed.
  - now apply Names.name_trimmed.
  - now apply Names.snake_case_length.
Qed.

Lemma snake_case_is_canonical_witness :
  List.Forall (fun c => Unicode.kept c = true /\ c <> 32%N)
    (Unicode.snake_case (Unicode.codes " Facility Name #1 "))
  /\ Unicode.lower (Unicode.snake_case (Unicode.codes " Facility Name #1 "))
     = Unicode.snake_case (Unicode.codes " Facility Name #1 ")
  /\ Unicode.strip (Unicode.snake_case (Unicode.codes " Facility Name #1 "))
     = Unicode.snake_case (Unicode.codes " Facility Name #1 ")
  /\ (List.length (Unicode.snake_case (Unicode.codes " Facility Name #1 "))
      <= List.length (Unicode.codes " Facility Name #1 "))%nat.
Proof.
  apply (snake_case_is_canonical (Unicode.codes " Facility Name #1 ")).
  vm_compute. intuition discriminate.
Defined.

(** X2: a header gets the empty name exactly when it has no letter, digit
    or underscore at all (it is empty, or made of whitespace and special
    characters only); all such headers collide on the empty name. *)
Theorem snake_case_empty_iff (c : string) :
  snake_case c = EmptyString
  <-> PyStr.forallb (fun a => negb (PyStr.isword a)) c = true.
Proof.
  rewrite snake_case_map, MoreStrings.map_empty, MoreStrings.strip_empty.
  unfold PyStr.re_sub_special. rewrite MoreStrings.forallb_filter_iff.
  erewrite MoreStrings.forallb_ext; [reflexivity|].
  intros a. unfold PyStr.kept.
  pose proof (MoreCharacters.word_not_space a) as I.
  destruct (PyStr.isword a), (PyStr.isspace a); simpl in *; congruence.
Qed.

(** X3: [snake_case] does not see the case of the letters nor the special
    characters.  A header that contains neither U+0130 (capital I with a
    dot above) nor U+03A3 (capital sigma) gets the name of its
    [lower()]; and for every header, characters outside the class
    [[\w\s]] change nothing to the name, wherever they are put. *)
Theorem snake_case_ignores_case_and_specials (h : list N) :
  (~ List.In Unicode.capital_i_with_dot h ->
   ~ List.In Unicode.capital_sigma h ->
   Unicode.snake_case (Unicode.lower h) = Unicode.snake_case h)
  /\ forall x b,
       List.Forall (fun c => Unicode.kept c = false) x ->
       Unicode.snake_case (h ++ x ++ b) = Unicode.snake_case (h ++ b).
Proof.
  split.
  - apply MoreNames.snake_case_lower.
  - intros x b. apply MoreNames.snake_case_specials.
Qed.

Lemma snake_case_ignores_case_and_specials_witness :
  Unicode.snake_case (Unicode.lower (Unicode.codes "Facility Name"))
  = Unicode.snake_case (Unicode.codes "Facility Name").
Proof.
  refine (proj1 (snake_case_ignores_case_and_specials
                   (Unicode.codes "Facility Name")) _ _);
    vm_compute; intuition discriminate.
Defined.

(** ** More on [connect] and the listing *)

Lemma log_lines_app file t e :
  log_lines file (t ++ [e])
  = (log_lines file t
     ++ match e with
        | EvLog f _ m => if String.eqb f file then [m] else []
        | _ => []
        end)%list.
Proof.
  unfold log_lines. rewrite List.flat_map_app. simpl. now rewrite List.app_nil_r.
Qed.

Ltac read_trace :=
  cbn [trace with_trace with_metadata with_output with_metadata_file
       previous_runs output_dir metadata_file];
  rewrite ?requests_app, ?log_lines_app;
  cbn [is_request String.eqb Ascii.eqb Bool.eqb];
  rewrite ?List.app_nil_r.

(** X4: [connect] makes exactly one request, to the URL it is given, and
    touches neither the metadata nor the files.  It returns the response
    whenever [requests.get] returned one, an HTTP error status included
    (that is logged to errors.log, not raised); when [requests.get]
    raised, the error is logged and what the caller sees is the
    [UnboundLocalError] of the [return]. *)
Theorem connect_outcome (w : world) (st : state) (url : pyval) :
  exists st',
    exec w (connect url) st
    = (match requests_get w (List.length (trace st)) url with
       | Ok resp => Ok resp
       | Raise _ => Raise (UnboundLocalError "response")
       end, st')
    /\ previous_runs st' = previous_runs st
    /\ output_dir st' = output_dir st
    /\ metadata_file st' = metadata_file st
    /\ requests (trace st') = (requests (trace st) ++ [EvRequest url])%list
    /\ log_lines "errors.log" (trace st')
       = (log_lines "errors.log" (trace st)
          ++ match requests_get w (List.length (trace st)) url with
             | Ok resp =>
                 if status_ok resp then [] else [FailedToConnect url HTTPError]
             | Raise e => [FailedToConnect url e]
             end)%list
    /\ log_lines "success.log" (trace st') = log_lines "success.log" (trace st).
Proof.
  unfold connect. cbn.
  destruct (requests_get w (List.length (trace st)) url) as [resp|e]; cbn.
  - destruct (status_ok resp); cbn; eexists; (split; [reflexivity|]);
      repeat split; read_trace; reflexivity.
  - eexists; (split; [reflexivity|]); repeat split; read_trace; reflexivity.
Qed.

Lemma hospital_datasets_readable (datasets : list pyval) :
  List.forallb readable datasets = true ->
  hospital_datasets datasets = Ok (List.filter has_theme datasets).
Proof.
  induction datasets as [|d l IH]; [reflexivity|].
  cbn [List.forallb List.filter hospital_datasets]. intros H.
  apply andb_true_iff in H as [Hd Hl]. rewrite (IH Hl).
  unfold readable, has_theme, theme_test in *.
  destruct (Py.get d "theme" (PList [])) as [theme|e]; [|discriminate].
  cbn [rbind] in *. destruct (Py.contains "Hospitals" theme) as [keep|e];
    [|discriminate].
  reflexivity.
Qed.

Lemma hospital_datasets_unreadable (datasets : list pyval) :
  List.forallb readable datasets = false ->
  exists e, hospital_datasets datasets = Raise e.
Proof.
  induction datasets as [|d l IH]; [discriminate|].
  cbn [List.forallb hospital_datasets]. intros H.
  unfold readable, theme_test in H.
  destruct (Py.get d "theme" (PList [])) as [theme|e]; cbn [rbind]; [|eauto].
  cbn [rbind] in H.
  destruct (Py.contains "Hospitals" theme) as [keep|e]; cbn [rbind]; [|eauto].
  cbn in H. destruct (IH H) as [e ->]. cbn. eauto.
Qed.

(** X5: the comprehension of [get_hospital_datasets] is a filter or a
    failure.  When the theme test can be made on every item of the
    catalog, the result is the items on which it holds, in the order of
    the catalog; as soon as one item cannot be tested (it is not a dict,
    or its theme is neither a list, a string nor a dict) the whole
    comprehension raises, whatever the other items are. *)
Theorem hospital_datasets_filters (datasets : list pyval) :
  (List.forallb readable datasets = true ->
   hospital_datasets datasets = Ok (List.filter has_theme datasets))
  /\ (List.forallb readable datasets = false ->
      exists e, hospital_datasets datasets = Raise e).
Proof.
  split; [apply hospital_datasets_readable | apply hospital_datasets_unreadable].
Qed.

Lemma hospital_datasets_filters_witness :
  hospital_datasets [Scenario.B; Scenario.A; Scenario.C]
  = Ok (List.filter has_theme [Scenario.B; Scenario.A; Scenario.C])
  /\ exists e,
       hospital_datasets
         [Scenario.A; PDict [("identifier", PStr "Z"); ("theme", PNone)]]
       = Raise e.
Proof.
  split.
  - apply (hospital_datasets_filters [Scenario.B; Scenario.A; Scenario.C]).
    reflexivity.
  - apply (hospital_datasets_filters
             [Scenario.A; PDict [("identifier", PStr "Z"); ("theme", PNone)]]).
    reflexivity.
Defined.

Lemma forallb_readable_false (items : list pyval) (d : pyval) :
  List.In d items -> readable d = false -> List.forallb readable items = false.
Proof.
  intros Hin Hd. destruct (List.forallb readable items) eqn:E; [|reflexivity].
  rewrite List.forallb_forall in E. rewrite (E d Hin) in Hd. discriminate.
Qed.

(** X6: one item of the catalog on which the theme test cannot be made
    (a descriptor with ["theme": null], an item that is not an object)
    voids the listing: [get_hospital_datasets] returns [{}] although the
    request and the decoding succeeded and other items have the theme. *)
Theorem unreadable_item_voids_listing (base_url : string) (w : world)
  (st : state) (resp : response) (items : list pyval) (d : pyval)
  (Hget : requests_get w (List.length (trace st)) (PStr base_url) = Ok resp)
  (Hjson : json resp = Ok (PList items))
  (Hin : List.In d items)
  (Hd : readable d = false) :
  fst (exec w (get_hospital_datasets base_url) st) = Ok [PDict []].
Proof.
  destruct (get_hospital_datasets_returns base_url w st) as (st' & E & _).
  rewrite E. cbn [fst]. unfold listing. rewrite Hget. cbn [rbind].
  rewrite Hjson. cbn [rbind Py.iter].
  destruct (hospital_datasets_unreadable items
              (forallb_readable_false items d Hin Hd)) as [e ->].
  reflexivity.
Qed.

Lemma unreadable_item_voids_listing_witness :
  fst (exec Cases.null_theme_catalog (get_hospital_datasets Scenario.catalog_url)
         Scenario.never_run)
  = Ok [PDict []].
Proof.
  apply (unreadable_item_voids_listing Scenario.catalog_url Cases.null_theme_catalog
           Scenario.never_run
           {| status_ok := true; text := "[...]";
              json := Ok (PList [Scenario.A;
                                 PDict [("identifier", PStr "Z");
                                        ("theme", PNone)]]) |}
           [Scenario.A; PDict [("identifier", PStr "Z"); ("theme", PNone)]]
           (PDict [("identifier", PStr "Z"); ("theme", PNone)])).
  - reflexivity.
  - reflexivity.
  - right. left. reflexivity.
  - reflexivity.
Defined.

Lemma error_processing_app t e :
  List.existsb is_error_processing (t ++ [e])
  = List.existsb is_error_processing t || is_error_processing e.
Proof. rewrite List.existsb_app. cbn. now rewrite orb_false_r. Qed.

Ltac log_goal :=
  repeat match goal with
         | |- context [log_fault ?f ?t ?n] =>
             destruct (log_fault f t n);
             cbn -[Py.iter hospital_datasets log_lines requests List.existsb]
         end.

(** What the listing does to the state, whatever fails. *)
Lemma listing_effects (base_url : string) (w : environment) (st : state) :
  previous_runs (snd (exec w (get_hospital_datasets base_url) st))
  = previous_runs st
  /\ output_dir (snd (exec w (get_hospital_datasets base_url) st))
     = output_dir st
  /\ metadata_file (snd (exec w (get_hospital_datasets base_url) st))
     = metadata_file st
  /\ requests (trace (snd (exec w (get_hospital_datasets base_url) st)))
     = (requests (trace st) ++ [EvRequest (PStr base_url)])%list
  /\ log_lines "success.log"
       (trace (snd (exec w (get_hospital_datasets base_url) st)))
     = log_lines "success.log" (trace st)
  /\ List.existsb is_error_processing
       (trace (snd (exec w (get_hospital_datasets base_url) st)))
     = List.existsb is_error_processing (trace st).
Proof.
  unfold get_hospital_datasets, connect.
  cbn -[Py.iter hospital_datasets log_lines requests List.existsb].
  destruct (requests_get (the_world w) _ (PStr base_url)) as [resp|e];
    cbn -[Py.iter hospital_datasets log_lines requests List.existsb].
  2:{ log_goal. all: repeat split; read_trace; rewrite ?error_processing_app;
      cbn -[log_lines requests List.existsb];
      rewrite ?orb_false_r, ?List.app_nil_r; auto. }
  destruct (status_ok resp);
    cbn -[Py.iter hospital_datasets log_lines requests List.existsb].
  2: destruct (log_fault (the_faults w) _ _);
       cbn -[Py.iter hospital_datasets log_lines requests List.existsb].
  all: try destruct (json resp) as [datasets|e];
    cbn -[Py.iter hospital_datasets log_lines requests List.existsb].
  all: try destruct (Py.iter datasets) as [items|e];
    cbn -[hospital_datasets log_lines requests List.existsb].
  all: try destruct (hospital_datasets items) as [hospital|e];
    cbn -[log_lines requests List.existsb].
  all: log_goal.
  all: repeat split; read_trace; rewrite ?error_processing_app;
    cbn -[log_lines requests List.existsb];
    rewrite ?orb_false_r, ?List.app_nil_r; auto.
Qed.

Lemma prefix_iff (n h : string) :
  String.prefix n h = true <-> exists post, h = n ++ post.
Proof.
  revert h; induction n as [|a n IH]; intros h.
  - split; [intros _; now exists h | intros _; now destruct h].
  - destruct h as [|b h]; simpl.
    + split; [discriminate | intros [post E]; discriminate].
    + destruct (Ascii.ascii_dec a b) as [->|N].
      * rewrite IH. split; intros [post E]; exists post; congruence.
      * split; [discriminate | intros [post E]; congruence].
Qed.

Lemma contains_iff (n h : string) :
  PyStr.contains n h = true <-> exists pre post, h = pre ++ n ++ post.
Proof.
  induction h as [|b h IH].
  - cbn [PyStr.contains]. rewrite orb_false_r, prefix_iff. split.
    + intros [post E]. now exists EmptyString, post.
    + intros (pre & post & E). destruct pre; [now exists post | discriminate].
  - cbn [PyStr.contains]. rewrite orb_true_iff, prefix_iff, IH. split.
    + intros [[post E]|(pre & post & E)].
      * now exists EmptyString, post.
      * exists (String b pre), post. simpl. now rewrite E.
    + intros (pre & post & E). destruct pre as [|c pre].
      * left. now exists post.
      * right. exists pre, post. simpl in E. congruence.
Qed.

(** X8: a descriptor whose theme is a single string rather than a list is
    tested by substring: it is kept exactly when the text "Hospitals"
    occurs somewhere in the string. *)
Theorem theme_string_is_searched (d : list (string * pyval)) (s : string)
  (H : Py.dict_get d "theme" = Some (PStr s)) :
  hospital_datasets [PDict d] = Ok [PDict d]
  <-> exists pre post, s = pre ++ "Hospitals" ++ post.
Proof.
  rewrite <- contains_iff. cbn -[PyStr.contains Py.dict_get]. rewrite H.
  cbn -[PyStr.contains]. destruct (PyStr.contains "Hospitals" s); split;
    congruence.
Qed.

Lemma theme_string_is_searched_witness :
  hospital_datasets
    [PDict [("identifier", PStr "S"); ("theme", PStr "Non-Hospitals data")]]
  = Ok [PDict [("identifier", PStr "S"); ("theme", PStr "Non-Hospitals data")]].
Proof.
  apply (theme_string_is_searched
           [("identifier", PStr "S"); ("theme", PStr "Non-Hospitals data")]
           "Non-Hospitals data").
  - reflexivity.
  - exists "Non-", " data". reflexivity.
Defined.

(** ** More on [process_hospital_data] *)

Lemma key_eqb_plain a b : Py.key_eqb a b = true <-> plain_key a = plain_key b.
Proof.
  unfold Py.key_eqb.
  destruct a as [|x|x|x], b as [|y|y|y]; cbn; split; intros H;
    try discriminate; try reflexivity.
  all: try (destruct x, y; try discriminate; reflexivity).
  all: try (apply Z.eqb_eq in H; congruence).
  all: try (apply Z.eqb_eq; congruence).
  all: try (apply String.eqb_eq in H; congruence).
  all: try (apply String.eqb_eq; congruence).
Qed.

Lemma key_eqb_other a b c :
  Py.key_eqb a b = true -> Py.key_eqb b c = false -> Py.key_eqb a c = false.
Proof.
  intros Hab Hbc. destruct (Py.key_eqb a c) eqn:Hac; [|reflexivity].
  apply key_eqb_plain in Hab, Hac.
  assert (E : Py.key_eqb b c = true) by (apply key_eqb_plain; congruence).
  congruence.
Qed.

Lemma lookup_set_other d k v k' :
  Py.key_eqb k k' = false ->
  Checkpoints.lookup (Checkpoints.set d k v) k' = Checkpoints.lookup d k'.
Proof.
  intros H. induction d as [|[k0 v0] d IH]; simpl.
  - now rewrite H.
  - destruct (Py.key_eqb k0 k) eqn:E; simpl.
    + now rewrite (key_eqb_other k0 k k' E H).
    + now rewrite IH.
Qed.

Lemma up_to_date_exec (w : environment) (st : state) (dataset_id last_modified : pyval)
  (k : pykey) :
  Py.hash_key dataset_id = Ok k ->
  exec w (up_to_date dataset_id last_modified) st
  = (match Checkpoints.lookup (processed_files (previous_runs st)) k with
     | Some recorded => Py.ge recorded last_modified
     | None => Ok false
     end, st).
Proof.
  intros Hkey. unfold up_to_date. cbn -[Py.hash_key]. rewrite Hkey.
  cbn -[Checkpoints.lookup Py.ge]. unfold Checkpoints.mem, Checkpoints.getitem.
  destruct (Checkpoints.lookup (processed_files (previous_runs st)) k)
    as [recorded|] eqn:E; cbn -[Checkpoints.lookup Py.ge]; [|reflexivity].
  rewrite E. cbn -[Py.ge]. now destruct (Py.ge recorded last_modified).
Qed.

(** What a call does once its first two lookups have succeeded. *)
Lemma process_hospital_data_exec (w : world) (st : state)
  (dataset dataset_id last_modified : pyval) :
  Py.getitem dataset "identifier" = Ok dataset_id ->
  Py.getitem dataset "modified" = Ok last_modified ->
  exec w (process_hospital_data dataset) st
  = match exec w (up_to_date dataset_id last_modified) st with
    | (Ok true, st1) =>
        (Ok None,
         with_trace st1
           (EvLog "success.log" (now w (List.length (trace st1)))
              (UpToDate dataset_id)))
    | (Ok false, st1) =>
        match exec w (fetch_and_save dataset dataset_id last_modified) st1 with
        | (Ok a, st2) => (Ok a, st2)
        | (Raise _, st2) =>
            (Ok None,
             with_trace st2
               (EvLog "errors.log" (now w (List.length (trace st2)))
                  (FailedToReadCsv dataset_id)))
        end
    | (Raise _, st1) =>
        (Ok None,
         with_trace st1
           (EvLog "errors.log" (now w (List.length (trace st1)))
              (FailedToReadCsv dataset_id)))
    end.
Proof.
  intros Hid Hmod. unfold process_hospital_data. rewrite Hid, exec_catch.
  unfold process_body. rewrite Hmod.
  change (lift (Ok last_modified)) with (@Ret pyval last_modified).
  cbn [bind]. rewrite exec_bind.
  destruct (exec w (up_to_date dataset_id last_modified) st) as [[[|]|e] st1];
    reflexivity.
Qed.

Ltac log_cases H :=
  repeat match type of H with
         | context [log_fault ?f ?t ?n] =>
             destruct (log_fault f t n); cbn -[Py.hash_key] in H
         end.

Lemma fetch_and_save_requests (w : environment) (st st' : state)
  (dataset dataset_id last_modified : pyval) (r : result (option dataframe)) :
  exec w (fetch_and_save dataset dataset_id last_modified) st = (r, st') ->
  requests (trace st')
  = (requests (trace st)
     ++ match download_url_of dataset with
        | Ok url => if Py.truthy url then [EvRequest url] else []
        | Raise _ => []
        end)%list.
Proof.
  unfold fetch_and_save. intros H.
  destruct (download_url_of dataset) as [download_url|] eqn:Hurl;
    cbn -[Py.hash_key Py.truthy] in H;
    [|injection H as <- <-; now rewrite List.app_nil_r].
  destruct (Py.truthy download_url) eqn:Htruthy; cbn -[Py.hash_key] in H;
    [|log_cases H; injection H as <- <-; now read_trace].
  destruct (requests_get (the_world w) _ download_url) as [resp|e] eqn:Hget;
    cbn -[Py.hash_key] in H;
    [|log_cases H; injection H as <- <-; now read_trace].
  destruct (status_ok resp) eqn:Hstatus; cbn -[Py.hash_key] in H.
  2: destruct (log_fault (the_faults w) _ _); cbn -[Py.hash_key] in H;
       [injection H as <- <-; now read_trace|].
  all: destruct (read_csv (the_world w) (text resp)) as [df|] eqn:Hcsv;
    cbn -[Py.hash_key] in H; [|injection H as <- <-; now read_trace].
  all: destruct (Py.hash_key dataset_id) as [k|] eqn:Hkey; cbn in H;
    [|injection H as <- <-; now read_trace].
  all: match type of H with
       | context [to_csv ?w0 ?t ?n ?d] => destruct (to_csv w0 t n d) eqn:Hwrite
       end; cbn in H; log_cases H; injection H as <- <-; now read_trace.
Qed.

(** X10: one call touches one checkpoint at most.  Whatever its outcome,
    the checkpoint of every key other than the one of the dataset's own
    identifier is what it was, and so are [last_run] and the file at the
    metadata path. *)
Theorem other_checkpoints_are_kept (w : world) (st st' : state)
  (dataset : pyval) (r : result (option dataframe)) (k' : pykey)
  (H : exec w (process_hospital_data dataset) st = (r, st'))
  (Hother : forall dataset_id k,
      Py.getitem dataset "identifier" = Ok dataset_id ->
      Py.hash_key dataset_id = Ok k -> Py.key_eqb k k' = false) :
  Checkpoints.lookup (processed_files (previous_runs st')) k'
  = Checkpoints.lookup (processed_files (previous_runs st)) k'
  /\ last_run (previous_runs st') = last_run (previous_runs st)
  /\ metadata_file st' = metadata_file st.
Proof.
  apply process_hospital_data_outcome in H
    as [[[Hruns Hfile] _]|(dataset_id & last_modified & df & Hid & _ & _ & Hupd)].
  - rewrite Hruns. now repeat split.
  - destruct Hupd as (k & before & Hkey & Hruns & _ & Hfile & _).
    rewrite Hruns. cbn [processed_files last_run]. repeat split; try assumption.
    apply lookup_set_other. now apply (Hother dataset_id).
Qed.

Lemma other_checkpoints_are_kept_witness :
  Checkpoints.lookup
    (processed_files
       (previous_runs
          (snd (exec (Scenario.serving ["Facility Name #1"])
                  (process_hospital_data Scenario.C) Scenario.synchronized))))
    (KStr "A")
  = Checkpoints.lookup
      (processed_files (previous_runs Scenario.synchronized)) (KStr "A").
Proof.
  apply (other_checkpoints_are_kept (Scenario.serving ["Facility Name #1"])
           Scenario.synchronized _ Scenario.C (Ok None) (KStr "A")).
  - reflexivity.
  - intros dataset_id k Hid Hkey. injection Hid as <-. injection Hkey as <-.
    reflexivity.
Defined.

(** X11: one call makes one request at most, and only to the download
    URL that the descriptor resolves to: after the call the requests made
    are those of before, followed or not by the one to that URL. *)
Theorem at_most_one_download (w : world) (st st' : state) (dataset : pyval)
  (r : result (option dataframe))
  (H : exec w (process_hospital_data dataset) st = (r, st')) :
  requests (trace st') = requests (trace st)
  \/ exists url,
       download_url_of dataset = Ok url
       /\ Py.truthy url = true
       /\ requests (trace st') = (requests (trace st) ++ [EvRequest url])%list.
Proof.
  destruct (Py.getitem dataset "identifier") as [dataset_id|] eqn:Hid.
  2:{ unfold process_hospital_data in H. rewrite Hid in H. cbn in H.
      injection H as <- <-. now left. }
  destruct (Py.getitem dataset "modified") as [last_modified|] eqn:Hmod.
  2:{ unfold process_hospital_data, process_body in H. rewrite Hid, Hmod in H.
      cbn in H. injection H as <- <-. left. now read_trace. }
  rewrite (process_hospital_data_exec w st dataset dataset_id last_modified Hid Hmod)
    in H.
  destruct (exec w (up_to_date dataset_id last_modified) st) as [[[|]|e] st1] eqn:G;
    apply up_to_date_outcome in G; subst st1.
  1,3: injection H as <- <-; left; now read_trace.
  destruct (exec w (fetch_and_save dataset dataset_id last_modified) st)
    as [[a|e] st2] eqn:F; apply fetch_and_save_requests in F;
    injection H as <- <-; read_trace; rewrite F.
  all: destruct (download_url_of dataset) as [url|]; [|left; apply List.app_nil_r].
  all: destruct (Py.truthy url) eqn:T; [right; now exists url | left; apply List.app_nil_r].
Qed.

Lemma at_most_one_download_witness :
  requests
    (trace (snd (exec Scenario.unparsable (process_hospital_data Scenario.A)
                   Scenario.never_run)))
  = requests (trace Scenario.never_run)
  \/ exists url,
       download_url_of Scenario.A = Ok url
       /\ Py.truthy url = true
       /\ requests
            (trace (snd (exec Scenario.unparsable
                           (process_hospital_data Scenario.A) Scenario.never_run)))
          = (requests (trace Scenario.never_run) ++ [EvRequest url])%list.
Proof.
  apply (at_most_one_download Scenario.unparsable Scenario.never_run _
           Scenario.A (Ok None)).
  reflexivity.
Defined.

(** X12: synchronising is idempotent call by call.  Once a call has
    returned a table for a descriptor whose [modified] timestamp is [>=]
    itself (every string and every integer is), a second call on the same
    descriptor is skipped, in any world: it returns [None], makes no
    request and only logs "up to date". *)
Theorem second_call_is_skipped (w1 w2 : world) (st st1 : state)
  (dataset last_modified : pyval) (df : dataframe)
  (H : exec w1 (process_hospital_data dataset) st = (Ok (Some df), st1))
  (Hmod : Py.getitem dataset "modified" = Ok last_modified)
  (Hge : Py.ge last_modified last_modified = Ok true) :
  exists dataset_id,
    Py.getitem dataset "identifier" = Ok dataset_id
    /\ exec w2 (process_hospital_data dataset) st1
       = (Ok None,
          with_trace st1
            (EvLog "success.log" (now w2 (List.length (trace st1)))
               (UpToDate dataset_id)))
    /\ (forall s, Py.ge (PStr s) (PStr s) = Ok true)
    /\ (forall z, Py.ge (PInt z) (PInt z) = Ok true).
Proof.
  destruct (checkpoint_updated w1 st st1 dataset df H)
    as (dataset_id & m & k & Hid & Hmod' & Hkey & Hlookup & _).
  rewrite Hmod in Hmod'. injection Hmod' as <-.
  exists dataset_id. split; [assumption|]. split; [|split].
  - rewrite (process_hospital_data_exec w2 st1 dataset dataset_id last_modified
               Hid Hmod).
    rewrite (up_to_date_exec w2 st1 dataset_id last_modified k Hkey), Hlookup, Hge.
    reflexivity.
  - apply ge_tie_str.
  - intros z. cbn. f_equal. apply Z.geb_le. lia.
Qed.

Lemma second_call_is_skipped_witness :
  exists dataset_id,
    Py.getitem Scenario.A "identifier" = Ok dataset_id
    /\ exec Scenario.offline (process_hospital_data Scenario.A)
         (snd (exec (Scenario.serving ["Facility Name #1"])
                 (process_hospital_data Scenario.A) Scenario.never_run))
       = (Ok None,
          with_trace
            (snd (exec (Scenario.serving ["Facility Name #1"])
                    (process_hospital_data Scenario.A) Scenario.never_run))
            (EvLog "success.log"
               (now Scenario.offline
                  (List.length
                     (trace
                        (snd (exec (Scenario.serving ["Facility Name #1"])
                                (process_hospital_data Scenario.A)
                                Scenario.never_run)))))
               (UpToDate dataset_id)))
    /\ (forall s, Py.ge (PStr s) (PStr s) = Ok true)
    /\ (forall z, Py.ge (PInt z) (PInt z) = Ok true).
Proof.
  apply (second_call_is_skipped (Scenario.serving ["Facility Name #1"])
           Scenario.offline Scenario.never_run _ Scenario.A (PStr "2024-01-02")
           {| columns := ["facility_name_1"]; rows := [] |});
    reflexivity.
Defined.

(** X13: an HTTP error on the download does not fail the dataset.  When
    the request returns a response with an error status, the error is
    logged to errors.log and the body of that response is parsed like a
    download: if it parses and the write succeeds, the call returns the
    table, the table is in the output file and the checkpoint is set to
    the descriptor's [modified] timestamp. *)
Theorem error_response_is_saved (w : world) (st : state)
  (dataset dataset_id last_modified download_url : pyval) (k : pykey)
  (resp : response) (df : dataframe)
  (Hid : Py.getitem dataset "identifier" = Ok dataset_id)
  (Hmod : Py.getitem dataset "modified" = Ok last_modified)
  (Hkey : Py.hash_key dataset_id = Ok k)
  (Habsent : Checkpoints.lookup (processed_files (previous_runs st)) k = None)
  (Hurl : download_url_of dataset = Ok download_url)
  (Htruthy : Py.truthy download_url = true)
  (Hget : requests_get w (List.length (trace st)) download_url = Ok resp)
  (Hstatus : status_ok resp = false)
  (Hcsv : read_csv w (text resp) = Ok df)
  (Hwrite : to_csv w (List.length (trace st) + 2) (Py.str_key k ++ ".csv")
              (set_columns df (convert_columns_to_snake_case (columns df)))
            = Written) :
  exists st',
    exec w (process_hospital_data dataset) st
    = (Ok (Some (set_columns df (convert_columns_to_snake_case (columns df)))),
       st')
    /\ Checkpoints.lookup (processed_files (previous_runs st')) k
       = Some last_modified
    /\ Py.dict_get (output_dir st') (Py.str_key k ++ ".csv")
       = Some (Table (set_columns df
                        (convert_columns_to_snake_case (columns df))))
    /\ log_lines "errors.log" (trace st')
       = (log_lines "errors.log" (trace st)
          ++ [FailedToConnect download_url HTTPError])%list.
Proof.
  eexists. split; [|split; [|split]].
  - rewrite (process_hospital_data_exec w st dataset dataset_id last_modified
               Hid Hmod).
    rewrite (up_to_date_exec w st dataset_id last_modified k Hkey), Habsent.
    unfold fetch_and_save. rewrite Hurl. cbn -[Py.hash_key Py.truthy].
    rewrite Htruthy. cbn -[Py.hash_key]. rewrite Hget. cbn -[Py.hash_key].
    rewrite Hstatus. cbn -[Py.hash_key]. rewrite Hcsv. cbn -[Py.hash_key].
    rewrite Hkey. cbn. rewrite !List.length_app. cbn.
    rewrite <- Nat.add_assoc. cbn. rewrite Hwrite. cbn. reflexivity.
  - cbn. apply lookup_set.
  - cbn. apply dict_get_write_file.
  - read_trace. reflexivity.
Qed.

Lemma error_response_is_saved_witness :
  exists st',
    exec (Cases.error_page ["Error 503"]) (process_hospital_data Scenario.A)
         Scenario.never_run
    = (Ok (Some {| columns := ["error_503"]; rows := [] |}), st')
    /\ Checkpoints.lookup (processed_files (previous_runs st')) (KStr "A")
       = Some (PStr "2024-01-02")
    /\ Py.dict_get (output_dir st') "A.csv"
       = Some (Table {| columns := ["error_503"]; rows := [] |})
    /\ log_lines "errors.log" (trace st')
       = (log_lines "errors.log" (trace Scenario.never_run)
          ++ [FailedToConnect (PStr "https://data.cms.gov/A.csv") HTTPError])%list.
Proof.
  apply (error_response_is_saved (Cases.error_page ["Error 503"])
           Scenario.never_run Scenario.A (PStr "A") (PStr "2024-01-02")
           (PStr "https://data.cms.gov/A.csv") (KStr "A")
           {| status_ok := false; text := "Error 503";
              json := Raise JSONDecodeError |}
           {| columns := ["Error 503"]; rows := [] |});
    reflexivity.
Defined.

(** X14: when the download locator cannot be resolved -- the
    distribution list is empty, is not a list, or its first entry is not
    an object -- the dataset fails without the "Failed to get download
    url" message: the call returns [None], its only effect is the line
    "Failed to read csv" in errors.log, and no request is made. *)
Theorem unresolvable_locator_fails (w : world) (st : state)
  (dataset dataset_id last_modified : pyval) (k : pykey) (e : exn)
  (Hid : Py.getitem dataset "identifier" = Ok dataset_id)
  (Hmod : Py.getitem dataset "modified" = Ok last_modified)
  (Hkey : Py.hash_key dataset_id = Ok k)
  (Habsent : Checkpoints.lookup (processed_files (previous_runs st)) k = None)
  (Hurl : download_url_of dataset = Raise e) :
  exec w (process_hospital_data dataset) st
  = (Ok None,
     with_trace st
       (EvLog "errors.log" (now w (List.length (trace st)))
          (FailedToReadCsv dataset_id)))
  /\ (forall d, Py.dict_get d "distribution" = Some (PList []) ->
                download_url_of (PDict d) = Raise IndexError).
Proof.
  split.
  - rewrite (process_hospital_data_exec w st dataset dataset_id last_modified
               Hid Hmod).
    rewrite (up_to_date_exec w st dataset_id last_modified k Hkey), Habsent.
    unfold fetch_and_save. rewrite Hurl. reflexivity.
  - intros d H. unfold download_url_of. cbn -[Py.dict_get]. now rewrite H.
Qed.

Lemma unresolvable_locator_fails_witness :
  exec Scenario.offline (process_hospital_data Cases.no_distribution)
       Scenario.never_run
  = (Ok None,
     with_trace Scenario.never_run
       (EvLog "errors.log" "2024-01-03T06:00:00" (FailedToReadCsv (PStr "E")))).
Proof.
  apply (unresolvable_locator_fails Scenario.offline Scenario.never_run
           Cases.no_distribution (PStr "E") (PStr "2024-01-02") (KStr "E")
           IndexError); reflexivity.
Defined.

(** X15: when the recorded timestamp and the descriptor's [modified]
    cannot be compared (a string against a number, or [null]), the
    dataset fails at the gate: the call returns [None], logs "Failed to
    read csv" and nothing else, makes no request and leaves the
    checkpoint as it was -- on every run, since the checkpoint never
    changes. *)
Theorem incomparable_timestamps_fail (w : world) (st : state)
  (dataset dataset_id last_modified recorded : pyval) (k : pykey) (e : exn)
  (Hid : Py.getitem dataset "identifier" = Ok dataset_id)
  (Hmod : Py.getitem dataset "modified" = Ok last_modified)
  (Hkey : Py.hash_key dataset_id = Ok k)
  (Hrec : Checkpoints.lookup (processed_files (previous_runs st)) k
          = Some recorded)
  (Hge : Py.ge recorded last_modified = Raise e) :
  exec w (process_hospital_data dataset) st
  = (Ok None,
     with_trace st
       (EvLog "errors.log" (now w (List.length (trace st)))
          (FailedToReadCsv dataset_id)))
  /\ (forall s z, Py.ge (PStr s) (PInt z) = Raise TypeError)
  /\ Py.ge PNone PNone = Raise TypeError.
Proof.
  split; [|split; reflexivity].
  rewrite (process_hospital_data_exec w st dataset dataset_id last_modified
             Hid Hmod).
  now rewrite (up_to_date_exec w st dataset_id last_modified k Hkey), Hrec, Hge.
Qed.

Lemma incomparable_timestamps_fail_witness :
  exec Scenario.offline (process_hospital_data Cases.epoch_A)
       Scenario.synchronized
  = (Ok None,
     with_trace Scenario.synchronized
       (EvLog "errors.log" "2024-01-03T06:00:00" (FailedToReadCsv (PStr "A")))).
Proof.
  apply (incomparable_timestamps_fail Scenario.offline Scenario.synchronized
           Cases.epoch_A (PStr "A") (PInt 1704153600) (PStr "2024-01-02")
           (KStr "A") TypeError); reflexivity.
Defined.


(** ** The pool under every schedule *)

Lemma all_ops_bind {A B} P (p : prog A) (f : A -> prog B) :
  all_ops P p -> (forall a, all_ops P (f a)) -> all_ops P (bind p f).
Proof.
  intros Hp Hf. induction p as [a|e|X o k IH]; cbn in *; auto.
  destruct Hp as [Ho Hk]. split; auto.
Qed.

Lemma all_ops_catch {A} P (p : prog A) h :
  all_ops P p -> (forall e, all_ops P (h e)) -> all_ops P (catch p h).
Proof.
  intros Hp Hh. induction p as [a|e|X o k IH]; cbn in *; auto.
  destruct Hp as [Ho Hk]. split; auto.
Qed.

Lemma all_ops_lift {A} P (r : result A) : all_ops P (lift r).
Proof. now destruct r. Qed.

Lemma all_ops_weaken {A} (P Q : forall X, op X -> Prop) (p : prog A) :
  (forall X o, P X o -> Q X o) -> all_ops P p -> all_ops Q p.
Proof.
  intros HPQ. induction p as [a|e|X o k IH]; cbn; auto.
  intros [Ho Hk]. split; auto.
Qed.

Lemma never_throws_bind {A B} (p : prog A) (f : A -> prog B) :
  never_throws p -> (forall a, never_throws (f a)) -> never_throws (bind p f).
Proof.
  intros Hp Hf. induction p as [a|e|X o k IH]; cbn in *; auto.
Qed.

Lemma never_throws_catch {A} (p : prog A) h :
  (forall e, never_throws (h e)) -> never_throws (catch p h).
Proof. intros Hh. induction p as [a|e|X o k IH]; cbn in *; auto. Qed.

Lemma perform_appended {X} (w : environment) (o : op X) (st : state) :
  logs_reliably w -> appended o (fst (perform w o st)).
Proof.
  intros Hlog. destruct o; try exact I. cbn. now rewrite Hlog.
Qed.

Lemma never_throws_exec {A} (w : environment) (p : prog A) (st : state) :
  logs_reliably w -> never_throws p -> is_ok (fst (exec w p st)) = true.
Proof.
  intros Hlog. revert st. induction p as [a|e|X o k IH]; intros st Hp; cbn in *.
  - reflexivity.
  - contradiction.
  - pose proof (perform_appended w o st Hlog) as Hx.
    destruct (perform w o st) as [x st1]. apply IH, Hp, Hx.
Qed.

Lemma all_ops_call {X} (P : forall X, op X -> Prop) (o : op X) :
  P X o -> all_ops P (call o).
Proof. intros H. split; [exact H | intros x; exact I]. Qed.

Lemma all_ops_logger (P : forall X, op X -> Prop) (m : message) (f : string) :
  P _ (AppendLog f m) -> all_ops P (logger m f).
Proof.
  intros H. unfold logger.
  apply all_ops_bind; [now apply all_ops_call | intros r; apply all_ops_lift].
Qed.

(** The operations of a call are those of a worker on its dataset. *)
Lemma worker_ops (dataset : pyval) :
  all_ops (worker_op dataset) (process_hospital_data dataset).
Proof.
  unfold process_hospital_data.
  destruct (Py.getitem dataset "identifier") as [dataset_id|] eqn:Hid;
    [|exact I].
  apply all_ops_catch.
  2:{ intros e. apply all_ops_bind; [now apply all_ops_logger | intros; exact I]. }
  unfold process_body.
  destruct (Py.getitem dataset "modified") as [last_modified|] eqn:Hmod;
    [|exact I].
  change (lift (Ok last_modified)) with (@Ret pyval last_modified). cbn [bind].
  apply all_ops_bind.
  - unfold up_to_date.
    apply all_ops_bind; [now apply all_ops_call|]. intros m.
    apply all_ops_bind; [apply all_ops_lift|]. intros k.
    destruct (Checkpoints.mem (processed_files m) k); [|exact I].
    apply all_ops_bind; [now apply all_ops_call|]. intros m'.
    apply all_ops_bind; [apply all_ops_lift|]. intros recorded.
    apply all_ops_lift.
  - intros [|].
    { apply all_ops_bind; [now apply all_ops_logger | intros; exact I]. }
    unfold fetch_and_save.
    destruct (download_url_of dataset) as [download_url|] eqn:Hurl; [|exact I].
    change (lift (Ok download_url)) with (@Ret pyval download_url). cbn [bind].
    apply all_ops_bind.
    + destruct (Py.truthy download_url) eqn:Htruthy.
      2:{ apply all_ops_bind; [now apply all_ops_logger | intros; exact I]. }
      apply all_ops_bind; [|intros; exact I]. unfold connect.
      apply all_ops_bind; [apply all_ops_call; now split|].
      intros [resp|e].
      * destruct (status_ok resp); [exact I|].
        apply all_ops_bind; [now apply all_ops_logger | intros; exact I].
      * apply all_ops_bind; [now apply all_ops_logger | intros; exact I].
    + intros [r|]; [|exact I]. cbn [bind].
      apply all_ops_bind; [now apply all_ops_call|]. intros parsed.
      apply all_ops_bind; [apply all_ops_lift|]. intros df.
      destruct (Py.hash_key dataset_id) as [k|] eqn:Hkey; [|exact I].
      change (lift (Ok k)) with (@Ret pykey k). cbn [bind].
      assert (Hk : key_of dataset k) by now exists dataset_id.
      apply all_ops_bind; [apply all_ops_call; now exists k|]. intros written.
      apply all_ops_bind; [apply all_ops_lift|]. intros _.
      apply all_ops_bind; [apply all_ops_call; now split|]. intros _.
      apply all_ops_bind; [now apply all_ops_logger | intros; exact I].
Qed.

(** A call on a dataset that has an identifier cannot raise. *)
Lemma worker_never_throws (dataset : pyval) :
  has_identifier dataset = true -> never_throws (process_hospital_data dataset).
Proof.
  unfold has_identifier, process_hospital_data.
  destruct (Py.getitem dataset "identifier") as [dataset_id|]; [|discriminate].
  intros _. apply never_throws_catch. intros e. cbn. now intros x ->.
Qed.

Lemma all_ops_trivial {A} (p : prog A) : all_ops (fun _ _ => True) p.
Proof. induction p as [a|e|X o k IH]; cbn; auto. Qed.

(** An invariant of the pool: [Inv] on the shared state, kept by every
    operation that satisfies [Q]; [T] on the calls in progress, kept by
    every answer; [F] on the futures, which a finished call establishes.
    It holds at the end of the pool under every schedule. *)
Section PoolInvariant.

Variable w : environment.
Variable Q : forall X, op X -> Prop.
Variable Inv : state -> Prop.
Variable D : pyval -> Prop.
Variable T : pyval -> prog (option dataframe) -> Prop.
Variable F : future -> Prop.

Hypothesis Hstep :
  forall X (o : op X) st, Q X o -> Inv st -> Inv (snd (perform w o st)).
Hypothesis Hops : forall d p, T d p -> all_ops Q p.
Hypothesis Hvis :
  forall d X (o : op X) k st, T d (Vis o k) -> T d (k (fst (perform w o st))).
Hypothesis Hret : forall d a, T d (Ret a) -> F (d, Ok a).
Hypothesis Hthrow : forall d e, T d (Throw e) -> F (d, Raise e).
Hypothesis Hsubmit : forall d, D d -> T d (process_hospital_data d).

Lemma exec_invariant (d : pyval) (p : prog (option dataframe)) (st : state) :
  T d p -> Inv st -> F (d, fst (exec w p st)) /\ Inv (snd (exec w p st)).
Proof.
  revert st. induction p as [a|e|X o k IH]; intros st Hp Hst; cbn.
  - split; [now apply Hret | assumption].
  - split; [now apply Hthrow | assumption].
  - pose proof (Hops _ _ Hp) as [Ho _]. specialize (Hstep X o st Ho Hst).
    pose proof (Hvis d X o k st Hp) as Hk.
    destruct (perform w o st) as [x st1]. now apply IH.
Qed.

Lemma submitted (datasets : list pyval) :
  List.Forall D datasets ->
  List.Forall (fun t => T (fst t) (snd t)) (List.map submit datasets).
Proof.
  intros H. rewrite List.Forall_map. revert H. apply List.Forall_impl.
  intros d Hd. now apply Hsubmit.
Qed.

Lemma drain_invariant (tasks : list task) (done : list future) (st : state) :
  List.Forall (fun t => T (fst t) (snd t)) tasks ->
  List.Forall F done -> Inv st ->
  List.Forall F (fst (drain w tasks done st)) /\ Inv (snd (drain w tasks done st)).
Proof.
  revert done st. induction tasks as [|[d p] tasks IH]; intros done st Ht Hd Hst;
    cbn; [now split|].
  inversion Ht as [|? ? Hp Hrest]; subst. cbn in Hp.
  destruct (exec_invariant d p st Hp Hst) as [Hf H1].
  destruct (exec w p st) as [r st1]. cbn in Hf, H1. apply IH; try assumption.
  apply List.Forall_app; split; [assumption | now constructor].
Qed.

Lemma advance_invariant (i : nat) (running : list task) (waiting : list pyval)
  (done : list future) (st : state) :
  List.Forall (fun t => T (fst t) (snd t)) running ->
  List.Forall D waiting -> List.Forall F done -> Inv st ->
  let '(running', waiting', done', st') := advance w i running waiting done st in
  List.Forall (fun t => T (fst t) (snd t)) running'
  /\ List.Forall D waiting' /\ List.Forall F done' /\ Inv st'.
Proof.
  intros Hr Hw Hd Hst. unfold advance.
  destruct (List.nth_error running i) as [[d p]|] eqn:E; [|now repeat split].
  pose proof E as Hsplit. apply List.firstn_skipn_middle in Hsplit.
  rewrite <- Hsplit in Hr.
  apply List.Forall_app in Hr as [Hb Ha].
  inversion Ha as [|? ? Hp Hafter]; subst. cbn in Hp.
  assert (Hnext : List.Forall (fun t => T (fst t) (snd t))
                    (List.map submit (List.firstn 1 waiting))).
  { apply submitted. destruct waiting as [|d1 ws]; [constructor|].
    inversion Hw; subst. cbn. now repeat constructor. }
  assert (Hrest : List.Forall D (List.skipn 1 waiting)).
  { destruct waiting as [|d1 ws]; [constructor|]. now inversion Hw. }
  destruct p as [a|e|X o k].
  - repeat split; try assumption.
    + apply List.Forall_app; split; [assumption|].
      apply List.Forall_app; split; assumption.
    + apply List.Forall_app; split; [assumption|].
      constructor; [now apply Hret | constructor].
  - repeat split; try assumption.
    + apply List.Forall_app; split; [assumption|].
      apply List.Forall_app; split; assumption.
    + apply List.Forall_app; split; [assumption|].
      constructor; [now apply Hthrow | constructor].
  - pose proof (Hops _ _ Hp) as [Ho _]. specialize (Hstep X o st Ho Hst).
    pose proof (Hvis d X o k st Hp) as Hk.
    destruct (perform w o st) as [x st1]. repeat split; try assumption.
    apply List.Forall_app; split; [assumption|].
    constructor; assumption.
Qed.

Lemma run_pool_invariant (schedule : list nat) (running : list task)
  (waiting : list pyval) (done : list future) (st : state) :
  List.Forall (fun t => T (fst t) (snd t)) running ->
  List.Forall D waiting -> List.Forall F done -> Inv st ->
  List.Forall F (fst (run_pool w schedule running waiting done st))
  /\ Inv (snd (run_pool w schedule running waiting done st)).
Proof.
  revert running waiting done st.
  induction schedule as [|c schedule IH];
    intros running waiting done st Hr Hw Hd Hst.
  - cbn. apply drain_invariant; try assumption.
    apply List.Forall_app; split; [assumption | now apply submitted].
  - cbn [run_pool]. destruct running as [|t running'] eqn:Erun.
    + apply drain_invariant; try assumption. now apply submitted.
    + rewrite <- Erun in *.
      pose proof (advance_invariant (c mod List.length running) running
                    waiting done st Hr Hw Hd Hst) as H.
      destruct (advance w (c mod List.length running) running waiting done st)
        as [[[running1 waiting1] done1] st1].
      destruct H as (Hr1 & Hw1 & Hd1 & Hst1). now apply IH.
Qed.

(** The pool as [process_async_requests] starts it. *)
Lemma pool_invariant (schedule : list nat) (workers : nat)
  (datasets : list pyval) (st : state) :
  List.Forall D datasets -> Inv st ->
  List.Forall F
    (fst (run_pool w schedule (List.map submit (List.firstn workers datasets))
            (List.skipn workers datasets) [] st))
  /\ Inv (snd (run_pool w schedule
                 (List.map submit (List.firstn workers datasets))
                 (List.skipn workers datasets) [] st)).
Proof.
  intros HD Hst. rewrite <- (List.firstn_skipn workers datasets) in HD.
  apply List.Forall_app in HD as [H1 H2].
  apply run_pool_invariant; try assumption; [now apply submitted | constructor].
Qed.

End PoolInvariant.

Lemma key_eqb_sym a b : Py.key_eqb a b = Py.key_eqb b a.
Proof.
  destruct (Py.key_eqb a b) eqn:E, (Py.key_eqb b a) eqn:E'; try reflexivity.
  - apply key_eqb_plain in E. symmetry in E. apply key_eqb_plain in E. congruence.
  - apply key_eqb_plain in E'. symmetry in E'. apply key_eqb_plain in E'. congruence.
Qed.

Lemma lookup_set_same d k0 v k :
  Py.key_eqb k0 k = true ->
  Checkpoints.lookup (Checkpoints.set d k0 v) k = Some v.
Proof.
  intros H. induction d as [|[k1 v1] d IH]; simpl.
  - now rewrite H.
  - destruct (Py.key_eqb k1 k0) eqn:E; simpl.
    + assert (E1 : Py.key_eqb k1 k = true).
      { apply key_eqb_plain in E, H. apply key_eqb_plain. congruence. }
      now rewrite E1.
    + assert (E1 : Py.key_eqb k1 k = false).
      { rewrite key_eqb_sym. apply (key_eqb_other k k0 k1).
        - now rewrite key_eqb_sym.
        - now rewrite key_eqb_sym. }
      now rewrite E1.
Qed.

Lemma dict_get_write_file_other {V} (fs : list (string * V)) name v name' :
  String.eqb name name' = false ->
  Py.dict_get (write_file fs name v) name' = Py.dict_get fs name'.
Proof.
  intros H. induction fs as [|[n v'] fs IH]; simpl.
  - now rewrite H.
  - destruct (String.eqb n name) eqn:E; simpl.
    + apply String.eqb_eq in E. subst n. now rewrite H.
    + now rewrite IH.
Qed.

Lemma within_listing_refl datasets st : within_listing datasets st st.
Proof.
  repeat split; auto. exists []. split; [now rewrite List.app_nil_r | constructor].
Qed.

Lemma within_listing_event datasets st1 st e :
  within_listing datasets st1 st ->
  (exists d, List.In d datasets /\ worker_event d e) ->
  within_listing datasets st1 (with_trace st e).
Proof.
  intros (Hf & Hl & (new & Ht & Hn) & Hc & Ho & Hd) He.
  repeat split; auto. exists (new ++ [e])%list. split.
  - cbn. now rewrite Ht, List.app_assoc.
  - apply List.Forall_app. split; [assumption | now constructor].
Qed.

(** Every operation of a call on a listed dataset keeps the state within
    the listing, whether it succeeds or not. *)
Lemma perform_within_listing (w : environment) (datasets : list pyval)
  (st1 : state) X (o : op X) (st : state) :
  listed_op datasets X o -> within_listing datasets st1 st ->
  within_listing datasets st1 (snd (perform w o st)).
Proof.
  intros (d & Hin & Hop) Hst.
  destruct o as [|k v|v|f m|url|content|name df| | |content]; cbn in Hop;
    try contradiction; cbn [perform snd]; try assumption.
  - (* SetCheckpoint *)
    destruct Hop as [Hk Hm].
    apply within_listing_event; [|exists d; split; [assumption | now split]].
    destruct Hst as (Hf & Hl & Ht & Hc & Ho & Hd).
    repeat split; auto; cbn [previous_runs processed_files with_metadata].
    + intros k' v' Hlook.
      destruct (Py.key_eqb k k') eqn:E.
      * rewrite (lookup_set_same _ k v k' E) in Hlook. injection Hlook as <-.
        right. now exists d, k.
      * rewrite (lookup_set_other _ k v k' E) in Hlook. now apply Hc.
    + intros k' Hother. rewrite lookup_set_other; [now apply Ho|].
      now apply (Hother d).
  - (* AppendLog *)
    destruct (log_fault (the_faults w) (List.length (trace st)) f); cbn [snd];
      (apply within_listing_event; [assumption | exists d; now split]).
  - (* RequestsGet *)
    apply within_listing_event; [assumption | exists d; now split].
  - (* ToCsv *)
    destruct Hop as (k & Hk & ->).
    assert (Hfile : forall f,
               within_listing datasets st1
                 (with_output st (Py.str_key k ++ ".csv") f)).
    { intros f. destruct Hst as (Hf & Hl & Ht & Hc & Ho & Hd).
      repeat split; auto. cbn [output_dir with_output]. intros name f' Hget.
      destruct (String.eqb (Py.str_key k ++ ".csv") name) eqn:E.
      - apply String.eqb_eq in E. subst name. right. now exists d, k.
      - rewrite dict_get_write_file_other in Hget by assumption. now apply Hd. }
    destruct (to_csv (the_world w) (List.length (trace st))
                (Py.str_key k ++ ".csv") df);
      cbn [snd]; apply within_listing_event; auto;
      exists d; (split; [assumption | now exists k]).
Qed.

Lemma task_ok_submit (safe : Prop) (datasets : list pyval) (d : pyval) :
  List.In d datasets ->
  task_ok safe (listed_op datasets) d (process_hospital_data d).
Proof.
  intros Hin. split; [|split].
  - apply all_ops_weaken with (P := worker_op d); [|apply worker_ops].
    intros X o Ho. now exists d.
  - intros _. apply worker_never_throws.
  - unfold has_identifier, process_hospital_data.
    now destruct (Py.getitem d "identifier").
Qed.

(** The pool of a run, under every schedule and whatever fails: the
    state stays within the listing and a dataset without identifier has
    raised on [dataset_id]; when the log files can be relied on, every
    other dataset has returned. *)
Lemma pool_within_listing (w : environment) (schedule : list nat)
  (workers : nat) (datasets : list pyval) (st : state) :
  List.Forall
    (fun f => future_raised f /\ (logs_reliably w -> future_ok f))
    (fst (run_pool w schedule (List.map submit (List.firstn workers datasets))
            (List.skipn workers datasets) [] st))
  /\ within_listing datasets st
       (snd (run_pool w schedule
               (List.map submit (List.firstn workers datasets))
               (List.skipn workers datasets) [] st)).
Proof.
  apply pool_invariant
    with (Q := listed_op datasets) (D := fun d => List.In d datasets)
         (T := task_ok (logs_reliably w) (listed_op datasets)).
  - intros X o st0. apply perform_within_listing.
  - intros d p H. apply H.
  - intros d X o k st0 (Ha & Hn & Ht). split; [|split].
    + apply Ha.
    + intros Hlog Hid. apply (Hn Hlog Hid). now apply perform_appended.
    + intros Hid. discriminate (Ht Hid).
  - intros d a (_ & _ & Ht). unfold future_ok, future_raised. cbn.
    destruct (has_identifier d); [now split | discriminate (Ht eq_refl)].
  - intros d e (_ & Hn & Ht). unfold future_ok, future_raised. cbn.
    destruct (has_identifier d).
    + split; [discriminate|]. intros Hlog. destruct (Hn Hlog eq_refl).
    + specialize (Ht eq_refl). injection Ht as ->. now split.
  - apply task_ok_submit.
  - apply List.Forall_forall. auto.
  - apply within_listing_refl.
Qed.

From Stdlib Require Import Permutation.

Lemma map_fst_submit (datasets : list pyval) :
  List.map fst (List.map submit datasets) = datasets.
Proof.
  rewrite List.map_map. cbn. apply List.map_id.
Qed.

Lemma drain_datasets (w : environment) (tasks : list task) (done : list future)
  (st : state) :
  List.map fst (fst (drain w tasks done st))
  = (List.map fst done ++ List.map fst tasks)%list.
Proof.
  revert done st. induction tasks as [|[d p] tasks IH]; intros done st; cbn.
  - now rewrite List.app_nil_r.
  - destruct (exec w p st) as [r st1]. rewrite IH, List.map_app. cbn.
    now rewrite <- List.app_assoc.
Qed.

Lemma advance_datasets (w : environment) (i : nat) (running : list task)
  (waiting : list pyval) (done : list future) (st : state) :
  let '(running', waiting', done', _) := advance w i running waiting done st in
  Permutation (List.map fst done' ++ List.map fst running' ++ waiting')
              (List.map fst done ++ List.map fst running ++ waiting).
Proof.
  unfold advance.
  destruct (List.nth_error running i) as [[d p]|] eqn:E; [|reflexivity].
  pose proof E as Hsplit. apply List.firstn_skipn_middle in Hsplit.
  set (before := List.firstn i running) in *.
  set (after := List.skipn (S i) running) in *.
  rewrite <- Hsplit.
  assert (Hdone : forall r,
    Permutation
      (List.map fst (done ++ [(d, r)])
       ++ List.map fst (before ++ after ++ List.map submit (List.firstn 1 waiting))
       ++ List.skipn 1 waiting)
      (List.map fst done ++ List.map fst (before ++ (d, p) :: after) ++ waiting)).
  { intros r. rewrite !List.map_app, map_fst_submit. cbn [List.map fst].
    rewrite <- !List.app_assoc. apply Permutation_app_head. cbn [List.app].
    rewrite (List.firstn_skipn 1 waiting).
    apply (Permutation_middle (List.map fst before)). }
  destruct p as [a|e|X o k].
  - apply Hdone.
  - apply Hdone.
  - destruct (perform w o st) as [x st1]. rewrite !List.map_app. reflexivity.
Qed.

(** Whatever the schedule, the pool ends with one future for each dataset
    it was given. *)
Lemma run_pool_datasets (w : environment) (schedule : list nat) (running : list task)
  (waiting : list pyval) (done : list future) (st : state) :
  Permutation
    (List.map fst (fst (run_pool w schedule running waiting done st)))
    (List.map fst done ++ List.map fst running ++ waiting).
Proof.
  revert running waiting done st.
  induction schedule as [|c schedule IH]; intros running waiting done st.
  - cbn. now rewrite drain_datasets, List.map_app, map_fst_submit.
  - cbn [run_pool]. destruct running as [|t running'] eqn:Erun.
    + now rewrite drain_datasets, map_fst_submit.
    + rewrite <- Erun.
      pose proof (advance_datasets w (c mod List.length running) running
                    waiting done st) as H.
      destruct (advance w (c mod List.length running) running waiting done st)
        as [[[running1 waiting1] done1] st1].
      now rewrite IH.
Qed.

Lemma pool_datasets (w : environment) (schedule : list nat) (workers : nat)
  (datasets : list pyval) (st : state) :
  Permutation
    (List.map fst
       (fst (run_pool w schedule
               (List.map submit (List.firstn workers datasets))
               (List.skipn workers datasets) [] st)))
    datasets.
Proof.
  rewrite run_pool_datasets, map_fst_submit. cbn.
  now rewrite List.firstn_skipn.
Qed.

(** X17: whatever the schedule and the number of workers, the pool of a
    run ends with exactly one future for each listed dataset: none is
    dropped and none is processed twice. *)
Theorem every_dataset_gets_one_future (w : world) (schedule : list nat)
  (workers : nat) (datasets : list pyval) (st : state) :
  Permutation
    (List.map fst
       (fst (run_pool w schedule
               (List.map submit (List.firstn workers datasets))
               (List.skipn workers datasets) [] st)))
    datasets
  /\ List.length
       (fst (run_pool w schedule
               (List.map submit (List.firstn workers datasets))
               (List.skipn workers datasets) [] st))
     = List.length datasets.
Proof.
  pose proof (pool_datasets w schedule workers datasets st) as H.
  split; [exact H|]. apply Permutation_length in H.
  now rewrite List.length_map in H.
Qed.

Lemma forallb_permutation {A} (f : A -> bool) (l l' : list A) :
  Permutation l l' -> List.forallb f l = List.forallb f l'.
Proof.
  intros H. induction H as [|x l l' H IH|x y l|l l' l'' H1 IH1 H2 IH2]; cbn.
  - reflexivity.
  - now rewrite IH.
  - now rewrite !andb_assoc, (andb_comm (f y)).
  - congruence.
Qed.



(** ** The run under every schedule *)

Lemma reliable_logs (w : world) : logs_reliably w.
Proof. intros t f. reflexivity. Qed.

Lemma has_theme_dict (d : pyval) : has_theme d = true -> is_dict d = true.
Proof.
  unfold has_theme, theme_test. destruct d; cbn; try discriminate. reflexivity.
Qed.

Lemma listed_are_dicts (base_url : string) (w : world) (t : nat) :
  List.forallb is_dict (listed base_url w t) = true.
Proof.
  unfold listed, listing.
  destruct (requests_get w t (PStr base_url)) as [resp|]; [|reflexivity].
  cbn [rbind]. destruct (json resp) as [datasets|]; [|reflexivity].
  cbn [rbind]. destruct (Py.iter datasets) as [items|]; [|reflexivity].
  cbn [rbind]. destruct (List.forallb readable items) eqn:R.
  - rewrite (hospital_datasets_readable items R).
    apply List.forallb_forall. intros d Hd. apply List.filter_In in Hd.
    now apply has_theme_dict.
  - now destruct (hospital_datasets_unreadable items R) as [e ->].
Qed.

Lemma listed_returned (base_url : string) (w : world) (st : state) :
  fst (exec w (get_hospital_datasets base_url) st)
  = Ok (listed base_url w (List.length (trace st))).
Proof.
  destruct (get_hospital_datasets_returns base_url w st) as (st' & E & _).
  now rewrite E.
Qed.

(** The loop over the futures of a pool has no effect: it gathers the
    tables, or raises [KeyError] at the first future that raised, before
    anything is logged. *)
Lemma collect_exec (w : world) (futures : list future) (acc : list dataframe)
  (st : state) :
  List.Forall future_ok futures ->
  List.forallb is_dict (List.map fst futures) = true ->
  exec w (collect futures acc) st
  = (if List.forallb has_identifier (List.map fst futures)
     then Ok (acc ++ tables futures)%list
     else Raise KeyError, st).
Proof.
  revert acc. induction futures as [|[d r] futures IH]; intros acc Hf Hd.
  - cbn. now rewrite List.app_nil_r.
  - inversion Hf as [|? ? Hr Hrest]; subst. cbn in Hd.
    apply andb_true_iff in Hd as [Hdict Hd]. unfold future_ok in Hr. cbn in Hr.
    cbn [List.map fst List.forallb].
    destruct (has_identifier d) eqn:Hid.
    + destruct r as [[df|]|e]; [| |discriminate]; cbn [collect andb].
      * rewrite (IH _ Hrest Hd). unfold tables. cbn.
        now rewrite <- List.app_assoc.
      * rewrite (IH _ Hrest Hd). reflexivity.
    + subst r. cbn [collect andb]. unfold has_identifier in Hid.
      destruct d; try discriminate. cbn in Hid |- *.
      destruct (Py.dict_get d "identifier"); [discriminate | reflexivity].
Qed.

(** The run, once the listing is made: the pool, then the loop, [last_run]
    and the flush. *)
Lemma run_unfold (base_url : string) (w : world) (workers : nat)
  (schedule : list nat) (st : state) :
  process_async_requests base_url w (S workers) schedule st
  = exec w
      (finish_run
         (fst (run_pool w schedule
                 (List.map submit
                    (List.firstn (S workers)
                       (listed base_url w (List.length (trace st)))))
                 (List.skipn (S workers)
                    (listed base_url w (List.length (trace st))))
                 [] (snd (exec w (get_hospital_datasets base_url) st)))))
      (snd (run_pool w schedule
              (List.map submit
                 (List.firstn (S workers)
                    (listed base_url w (List.length (trace st)))))
              (List.skipn (S workers)
                 (listed base_url w (List.length (trace st))))
              [] (snd (exec w (get_hospital_datasets base_url) st)))).
Proof.
  unfold process_async_requests.
  pose proof (listed_returned base_url w st) as E.
  destruct (exec w (get_hospital_datasets base_url) st) as [r st1].
  cbn [fst snd] in *. subst r.
  now destruct (run_pool w schedule _ _ [] st1) as [futures st2].
Qed.

Lemma finish_run_exec (w : world) (futures : list future) (st : state) :
  List.Forall future_ok futures ->
  List.forallb is_dict (List.map fst futures) = true ->
  exec w (finish_run futures) st
  = if List.forallb has_identifier (List.map fst futures)
    then
      let st1 :=
        with_trace
          (with_metadata st
             {| last_run := PStr (now w (List.length (trace st)));
                processed_files := processed_files (previous_runs st) |})
          (EvSetLastRun (PStr (now w (List.length (trace st))))) in
      if open_metadata w (List.length (trace st) + 1)
      then
        (Ok (tables futures),
         with_trace
           (with_metadata_file
              (with_trace (with_metadata_file st1 EmptyString)
                 (EvOpenMetadata true))
              (Json.dumps (metadata_value (previous_runs st1))))
           (EvWriteMetadata (Json.dumps (metadata_value (previous_runs st1)))))
      else (Raise OSError, with_trace st1 (EvOpenMetadata false))
    else (Raise KeyError, st).
Proof.
  intros Hf Hd. unfold finish_run. rewrite exec_bind, (collect_exec w _ _ _ Hf Hd).
  destruct (List.forallb has_identifier (List.map fst futures)); [|reflexivity].
  cbn. rewrite List.length_app. cbn.
  destruct (open_metadata w (List.length (trace st) + 1)); reflexivity.
Qed.

(** What [process_async_requests] comes to, under every schedule. *)
Lemma run_outcome (base_url : string) (w : world) (workers : nat)
  (schedule : list nat) (st : state) :
  let datasets := listed base_url w (List.length (trace st)) in
  let st1 := snd (exec w (get_hospital_datasets base_url) st) in
  exists futures st2,
    List.Forall future_ok futures
    /\ Permutation (List.map fst futures) datasets
    /\ within_listing datasets st1 st2
    /\ process_async_requests base_url w (S workers) schedule st
       = exec w (finish_run futures) st2
    /\ exec w (finish_run futures) st2
       = if List.forallb has_identifier datasets
         then
           let st3 :=
             with_trace
               (with_metadata st2
                  {| last_run := PStr (now w (List.length (trace st2)));
                     processed_files := processed_files (previous_runs st2) |})
               (EvSetLastRun (PStr (now w (List.length (trace st2))))) in
           if open_metadata w (List.length (trace st2) + 1)
           then
             (Ok (tables futures),
              with_trace
                (with_metadata_file
                   (with_trace (with_metadata_file st3 EmptyString)
                      (EvOpenMetadata true))
                   (Json.dumps (metadata_value (previous_runs st3))))
                (EvWriteMetadata
                   (Json.dumps (metadata_value (previous_runs st3)))))
           else (Raise OSError, with_trace st3 (EvOpenMetadata false))
         else (Raise KeyError, st2).
Proof.
  intros datasets st1.
  destruct (pool_within_listing w schedule (S workers) datasets st1)
    as [Hfut0 Hwithin].
  assert (Hfut : List.Forall future_ok
                   (fst (run_pool w schedule
                           (List.map submit (List.firstn (S workers) datasets))
                           (List.skipn (S workers) datasets) [] st1))).
  { revert Hfut0. apply List.Forall_impl. intros f [_ H].
    apply H, reliable_logs. }
  pose proof (pool_datasets w schedule (S workers) datasets st1) as Hperm.
  eexists. eexists. split; [exact Hfut|]. split; [exact Hperm|].
  split; [exact Hwithin|]. split; [apply run_unfold|].
  rewrite finish_run_exec; [|exact Hfut|].
  - now rewrite (forallb_permutation has_identifier _ _ Hperm).
  - rewrite (forallb_permutation is_dict _ _ Hperm). apply listed_are_dicts.
Qed.

Lemma worker_event_requests (datasets : list pyval) (new : list event) :
  List.Forall (fun e => exists d, List.In d datasets /\ worker_event d e) new ->
  List.Forall
    (fun e => exists d url,
         List.In d datasets /\ e = EvRequest url
         /\ download_url_of d = Ok url /\ Py.truthy url = true)
    (requests new)
  /\ List.existsb is_error_processing new = false.
Proof.
  induction 1 as [|e new (d & Hin & He) Hnew [IH1 IH2]]; [now split|].
  split.
  - unfold requests in *. cbn [List.filter].
    destruct e; cbn [is_request]; try assumption.
    constructor; [|assumption]. destruct He as [Hu Ht]. now exists d, url.
  - cbn [List.existsb]. rewrite IH2, orb_false_r.
    destruct e; try reflexivity. now destruct m.
Qed.

Lemma requests_append t u : requests (t ++ u) = (requests t ++ requests u)%list.
Proof. apply List.filter_app. Qed.

(** X21: a run that returns has flushed exactly what it holds: the file
    at the metadata path is the serialisation of the metadata in memory
    at the end of the run, whose [last_run] is a reading of the clock,
    and every listed dataset had an identifier. *)
Theorem run_flushes_what_it_holds (base_url : string) (w : world)
  (workers : nat) (schedule : list nat) (st : state) (dfs : list dataframe)
  (H : fst (process_async_requests base_url w workers schedule st) = Ok dfs) :
  metadata_file (snd (process_async_requests base_url w workers schedule st))
  = Some (Json.dumps
            (metadata_value
               (previous_runs
                  (snd (process_async_requests base_url w workers schedule st)))))
  /\ (exists t,
        last_run
          (previous_runs
             (snd (process_async_requests base_url w workers schedule st)))
        = PStr (now w t))
  /\ List.forallb has_identifier (listed base_url w (List.length (trace st)))
     = true
  /\ (List.length dfs
      <= List.length (listed base_url w (List.length (trace st))))%nat.
Proof.
  destruct workers as [|workers].
  { unfold process_async_requests in H.
    now destruct (exec w (get_hospital_datasets base_url) st)
      as [[datasets|e1] st1]. }
  destruct (run_outcome base_url w workers schedule st)
    as (futures & st2 & _ & Hperm & _ & Hrun & Hfin).
  rewrite Hrun, Hfin in *.
  destruct (List.forallb has_identifier
              (listed base_url w (List.length (trace st)))); [|discriminate H].
  cbn zeta in *.
  destruct (open_metadata w (List.length (trace st2) + 1)); [|discriminate H].
  cbn in H |- *. injection H as <-. repeat split.
  - now eexists.
  - apply Permutation_length in Hperm. rewrite List.length_map in Hperm.
    rewrite <- Hperm. clear. unfold tables.
    induction futures as [|[d [[df|]|e]] futures IH]; cbn; lia.
Qed.

Lemma run_flushes_what_it_holds_witness :
  metadata_file
    (snd (process_async_requests Scenario.catalog_url
            (Scenario.online ["Facility Name #1"]) 2 [1; 1; 0]
            Scenario.never_run))
  = Some (Json.dumps
            (metadata_value
               (previous_runs
                  (snd (process_async_requests Scenario.catalog_url
                          (Scenario.online ["Facility Name #1"]) 2 [1; 1; 0]
                          Scenario.never_run))))).
Proof.
  apply (run_flushes_what_it_holds Scenario.catalog_url
           (Scenario.online ["Facility Name #1"]) 2 [1; 1; 0]
           Scenario.never_run [{| columns := ["facility_name_1"]; rows := [] |}]).
  reflexivity.
Defined.

(** The effects of a run are those of the listing, then of the pool; the
    loop, [last_run] and the flush change neither the checkpoints, nor
    the requests made, nor the output directory. *)
Lemma run_effects (base_url : string) (w : world) (workers : nat)
  (schedule : list nat) (st : state) :
  exists st2,
    within_listing (listed base_url w (List.length (trace st)))
      (snd (exec w (get_hospital_datasets base_url) st)) st2
    /\ processed_files
         (previous_runs
            (snd (process_async_requests base_url w workers schedule st)))
       = processed_files (previous_runs st2)
    /\ output_dir (snd (process_async_requests base_url w workers schedule st))
       = output_dir st2
    /\ requests
         (trace (snd (process_async_requests base_url w workers schedule st)))
       = requests (trace st2)
    /\ List.existsb is_error_processing
         (trace (snd (process_async_requests base_url w workers schedule st)))
       = List.existsb is_error_processing (trace st2).
Proof.
  destruct workers as [|workers].
  - exists (snd (exec w (get_hospital_datasets base_url) st)).
    split; [apply within_listing_refl|].
    unfold process_async_requests.
    now destruct (exec w (get_hospital_datasets base_url) st)
      as [[datasets|e1] st1].
  - destruct (run_outcome base_url w workers schedule st)
      as (futures & st2 & _ & _ & Hwithin & Hrun & Hfin).
    exists st2. split; [exact Hwithin|]. rewrite Hrun, Hfin.
    destruct (List.forallb has_identifier
                (listed base_url w (List.length (trace st)))); [|now repeat split].
    cbn zeta.
    destruct (open_metadata w (List.length (trace st2) + 1)); cbn [snd].
    all: repeat split; read_trace; rewrite ?error_processing_app;
      cbn [is_error_processing]; rewrite ?orb_false_r; reflexivity.
Qed.

(** X22: whatever the schedule and the number of workers, a run requests
    the catalog once, first, and after that only download URLs that
    listed datasets resolve to. *)
Theorem run_requests_only_listed (base_url : string) (w : world)
  (workers : nat) (schedule : list nat) (st : state) :
  exists downloads,
    requests
      (trace (snd (process_async_requests base_url w workers schedule st)))
    = (requests (trace st) ++ EvRequest (PStr base_url) :: downloads)%list
    /\ List.Forall
         (fun e => exists d url,
              List.In d (listed base_url w (List.length (trace st)))
              /\ e = EvRequest url
              /\ download_url_of d = Ok url /\ Py.truthy url = true)
         downloads.
Proof.
  destruct (run_effects base_url w workers schedule st)
    as (st2 & Hwithin & _ & _ & Hreq & _).
  destruct (listing_effects base_url w st) as (_ & _ & _ & Hlist & _).
  destruct Hwithin as (_ & _ & (new & Htrace & Hnew) & _).
  exists (requests new). split.
  - rewrite Hreq, Htrace, requests_append, Hlist, <- List.app_assoc. reflexivity.
  - now apply worker_event_requests.
Qed.

(** X23: whatever the schedule and the outcome of the run, every
    checkpoint in memory at its end is either the one of before the run
    or the [modified] timestamp of a listed dataset with that identifier,
    and the checkpoint of an identifier that no listed dataset has is
    what it was. *)
Theorem run_checkpoints_are_listed (base_url : string) (w : world)
  (workers : nat) (schedule : list nat) (st : state) :
  (forall k v,
      Checkpoints.lookup
        (processed_files
           (previous_runs
              (snd (process_async_requests base_url w workers schedule st)))) k
      = Some v ->
      Checkpoints.lookup (processed_files (previous_runs st)) k = Some v
      \/ exists d k0,
           List.In d (listed base_url w (List.length (trace st)))
           /\ key_of d k0 /\ Py.key_eqb k0 k = true
           /\ Py.getitem d "modified" = Ok v)
  /\ (forall k,
        (forall d k0,
            List.In d (listed base_url w (List.length (trace st))) ->
            key_of d k0 -> Py.key_eqb k0 k = false) ->
        Checkpoints.lookup
          (processed_files
             (previous_runs
                (snd (process_async_requests base_url w workers schedule st)))) k
        = Checkpoints.lookup (processed_files (previous_runs st)) k).
Proof.
  destruct (run_effects base_url w workers schedule st)
    as (st2 & Hwithin & Hpf & _).
  destruct (listing_effects base_url w st) as (Hruns & _).
  destruct Hwithin as (_ & _ & _ & Hc & Ho & _).
  rewrite Hpf. rewrite Hruns in Hc, Ho. split; assumption.
Qed.

Lemma run_checkpoints_are_listed_witness :
  Checkpoints.lookup
    (processed_files
       (previous_runs
          (snd (process_async_requests Scenario.catalog_url
                  (Scenario.online ["Facility Name #1"]) 4 [3; 1; 2]
                  Cases.synchronized_Q)))) (KStr "Q")
  = Checkpoints.lookup (processed_files (previous_runs Cases.synchronized_Q))
      (KStr "Q").
Proof.
  apply (run_checkpoints_are_listed Scenario.catalog_url
           (Scenario.online ["Facility Name #1"]) 4 [3; 1; 2]
           Cases.synchronized_Q).
  intros d k0 [<-|[]] (dataset_id & Hid & Hkey).
  injection Hid as <-. injection Hkey as <-. reflexivity.
Defined.


(** X25: [max_workers=0] is refused only after the catalog has been
    requested: the run raises [ValueError] having made that one request,
    and nothing else has happened -- no dataset is processed, the
    metadata in memory and on disk and the output directory are as they
    were. *)
Theorem zero_workers_is_refused (base_url : string) (w : world)
  (schedule : list nat) (st : state) :
  fst (process_async_requests base_url w 0 schedule st) = Raise ValueError
  /\ requests (trace (snd (process_async_requests base_url w 0 schedule st)))
     = (requests (trace st) ++ [EvRequest (PStr base_url)])%list
  /\ previous_runs (snd (process_async_requests base_url w 0 schedule st))
     = previous_runs st
  /\ metadata_file (snd (process_async_requests base_url w 0 schedule st))
     = metadata_file st
  /\ output_dir (snd (process_async_requests base_url w 0 schedule st))
     = output_dir st.
Proof.
  destruct (listing_effects base_url w st) as (H1 & H2 & H3 & H4 & _).
  pose proof (listed_returned base_url w st) as E.
  unfold process_async_requests.
  destruct (exec w (get_hospital_datasets base_url) st) as [[datasets|e1] st1];
    [|discriminate E].
  now repeat split.
Qed.



(** ** Saving and loading the metadata *)

Lemma str_keys_reloaded (pf : Checkpoints.t) :
  List.forallb is_str_key (List.map fst pf) = true ->
  List.map (fun kv => (KStr (fst kv), snd kv))
    (List.map (fun kv => (Json.key (fst kv), snd kv)) pf)
  = pf.
Proof.
  induction pf as [|[k v] pf IH]; [reflexivity|]. cbn. intros H.
  apply andb_true_iff in H as [Hk Hpf]. rewrite (IH Hpf).
  destruct k; try discriminate. reflexivity.
Qed.

Lemma lookup_str_keys (d : list (string * pyval)) (k : pykey) :
  is_str_key k = false ->
  Checkpoints.lookup (List.map (fun kv => (KStr (fst kv), snd kv)) d) k = None.
Proof.
  intros Hk. induction d as [|[s v] d IH]; [reflexivity|]. cbn.
  destruct k; try discriminate; exact IH.
Qed.

(** X26: what [save_metadata] writes, [load_metadata] reads back, keys
    apart.  When the decoder gives back the value that was serialised,
    loading after a flush yields the metadata that was in memory with
    every checkpoint key turned into a string: metadata whose identifiers
    are all strings comes back unchanged, and a checkpoint recorded under
    an identifier that is not a string is not found under it again. *)
Theorem saved_metadata_is_reloaded (json_load : string -> result pyval)
  (w : world) (st : state)
  (Hopen : open_metadata w (List.length (trace st)) = true)
  (Hload : json_load (Json.dumps (metadata_value (previous_runs st)))
           = Ok (metadata_value (previous_runs st))) :
  exists st' m,
    exec w save_metadata st = (Ok tt, st')
    /\ load_metadata json_load st' = Ok (metadata_value (previous_runs st))
    /\ as_run_metadata (metadata_value (previous_runs st)) = Some m
    /\ last_run m = last_run (previous_runs st)
    /\ List.length (processed_files m)
       = List.length (processed_files (previous_runs st))
    /\ (List.forallb is_str_key
          (List.map fst (processed_files (previous_runs st))) = true ->
        m = previous_runs st)
    /\ (forall k, is_str_key k = false ->
                  Checkpoints.lookup (processed_files m) k = None).
Proof.
  unfold save_metadata. cbn. rewrite Hopen. cbn.
  eexists. eexists. split; [reflexivity|]. split; [exact Hload|].
  split; [reflexivity|]. cbn. repeat split.
  - now rewrite !List.length_map.
  - intros H. rewrite (str_keys_reloaded _ H). now destruct (previous_runs st).
  - intros k Hk. now apply lookup_str_keys.
Qed.

Lemma saved_metadata_is_reloaded_witness :
  exists st' m,
    exec Scenario.offline save_metadata Cases.numbered = (Ok tt, st')
    /\ load_metadata
         (Cases.reads_back (metadata_value (previous_runs Cases.numbered))) st'
       = Ok (metadata_value (previous_runs Cases.numbered))
    /\ as_run_metadata (metadata_value (previous_runs Cases.numbered)) = Some m
    /\ last_run m = last_run (previous_runs Cases.numbered)
    /\ List.length (processed_files m)
       = List.length (processed_files (previous_runs Cases.numbered))
    /\ (List.forallb is_str_key
          (List.map fst (processed_files (previous_runs Cases.numbered))) = true ->
        m = previous_runs Cases.numbered)
    /\ (forall k, is_str_key k = false ->
                  Checkpoints.lookup (processed_files m) k = None).
Proof.
  apply (saved_metadata_is_reloaded
           (Cases.reads_back (metadata_value (previous_runs Cases.numbered)))
           Scenario.offline Cases.numbered); reflexivity.
Defined.

(** X27: a flush interrupted between its two operations breaks the next
    start.  The file it leaves is empty, and when the decoder rejects the
    empty text, [load_metadata] -- and with it the construction of the
    processor -- raises, whatever the file held before the flush. *)
Theorem interrupted_flush_breaks_loading (json_load : string -> result pyval)
  (w : world) (st : state) (e : exn)
  (Hopen : open_metadata w (List.length (trace st)) = true)
  (Hempty : json_load EmptyString = Raise e) :
  load_metadata json_load (snd (steps 1 w (save_metadata, st))) = Raise e.
Proof.
  unfold load_metadata. cbn. rewrite Hopen. cbn. exact Hempty.
Qed.

Lemma interrupted_flush_breaks_loading_witness :
  load_metadata (Cases.reads_back (metadata_value empty_metadata))
    (snd (steps 1 Scenario.offline (save_metadata, Scenario.about_to_flush)))
  = Raise JSONDecodeError.
Proof.
  apply (interrupted_flush_breaks_loading
           (Cases.reads_back (metadata_value empty_metadata))
           Scenario.offline Scenario.about_to_flush JSONDecodeError);
    reflexivity.
Defined.

(** ** When the processor's own files fail *)

(** Where no append to a log and no write of the metadata fails, the
    environment is the world on its own. *)
Lemma perform_reliable {X} (env : environment) (o : op X) (st : state) :
  logs_reliably env -> dumps_reliably env ->
  perform env o st = perform (the_world env) o st.
Proof.
  intros Hlog Hdump. destruct o; try reflexivity; cbn.
  - now rewrite Hlog.
  - now rewrite Hdump.
Qed.

Lemma exec_reliable {A} (env : environment) (p : prog A) (st : state) :
  logs_reliably env -> dumps_reliably env ->
  exec env p st = exec (the_world env) p st.
Proof.
  intros Hlog Hdump. revert st. induction p as [a|e|X o k IH]; intros st;
    try reflexivity.
  cbn [exec]. rewrite (perform_reliable env o st Hlog Hdump).
  destruct (perform (the_world env) o st) as [x st1]. apply IH.
Qed.

Lemma drain_reliable (env : environment) (tasks : list task)
  (done : list future) (st : state) :
  logs_reliably env -> dumps_reliably env ->
  drain env tasks done st = drain (the_world env) tasks done st.
Proof.
  intros Hlog Hdump. revert done st.
  induction tasks as [|[d p] tasks IH]; intros done st; [reflexivity|].
  cbn [drain]. rewrite (exec_reliable env p st Hlog Hdump).
  destruct (exec (the_world env) p st) as [r st1]. apply IH.
Qed.

Lemma advance_reliable (env : environment) (i : nat) (running : list task)
  (waiting : list pyval) (done : list future) (st : state) :
  logs_reliably env -> dumps_reliably env ->
  advance env i running waiting done st
  = advance (the_world env) i running waiting done st.
Proof.
  intros Hlog Hdump. unfold advance.
  destruct (List.nth_error running i) as [[d [a|e|X o k]]|]; try reflexivity.
  now rewrite (perform_reliable env o st Hlog Hdump).
Qed.

Lemma run_pool_reliable (env : environment) (schedule : list nat)
  (running : list task) (waiting : list pyval) (done : list future)
  (st : state) :
  logs_reliably env -> dumps_reliably env ->
  run_pool env schedule running waiting done st
  = run_pool (the_world env) schedule running waiting done st.
Proof.
  intros Hlog Hdump. revert running waiting done st.
  induction schedule as [|c schedule IH]; intros running waiting done st.
  - now apply drain_reliable.
  - cbn [run_pool]. destruct running as [|t running'] eqn:E.
    + now apply drain_reliable.
    + rewrite <- E. rewrite (advance_reliable env _ running waiting done st Hlog Hdump).
      destruct (advance (the_world env) (c mod List.length running) running
                  waiting done st) as [[[running1 waiting1] done1] st1].
      apply IH.
Qed.

Lemma run_reliable (base_url : string) (env : environment) (workers : nat)
  (schedule : list nat) (st : state) :
  logs_reliably env -> dumps_reliably env ->
  process_async_requests base_url env workers schedule st
  = process_async_requests base_url (the_world env) workers schedule st.
Proof.
  intros Hlog Hdump. unfold process_async_requests.
  rewrite (exec_reliable env _ st Hlog Hdump).
  destruct (exec (the_world env) (get_hospital_datasets base_url) st)
    as [[datasets|e] st1]; [|reflexivity].
  destruct workers as [|workers]; [reflexivity|].
  rewrite (run_pool_reliable env schedule _ _ [] st1 Hlog Hdump).
  destruct (run_pool (the_world env) schedule _ _ [] st1) as [futures st2].
  now apply exec_reliable.
Qed.

Ltac new_events :=
  eexists; split;
  [ cbn [trace with_trace with_metadata with_output with_metadata_file];
    rewrite <- ?List.app_assoc;
    first [reflexivity | symmetry; apply List.app_nil_r] |];
  split; [reflexivity|].

Ltac not_written H :=
  injection H as <- <-; new_events; left;
  split; [reflexivity | split; [reflexivity | intros ? ?; discriminate]].

(** What lines 159-178 come to, whatever fails: either no table was
    written and the metadata is what it was, or the table was written and
    then the checkpoint set, after which only the success line can still
    fail. *)
Lemma fetch_and_save_faulty (w : world) (fs : faults) (st : state)
  (dataset dataset_id last_modified : pyval) (rb : result (option dataframe))
  (stb : state) :
  exec (Env w fs) (fetch_and_save dataset dataset_id last_modified) st
  = (rb, stb) ->
  exists new,
    trace stb = (trace st ++ new)%list
    /\ metadata_file stb = metadata_file st
    /\ ((previous_runs stb = previous_runs st
         /\ List.existsb is_written new = false
         /\ forall df, rb <> Ok (Some df))
        \/ exists k df,
             Py.hash_key dataset_id = Ok k
             /\ previous_runs stb
                = {| last_run := last_run (previous_runs st);
                     processed_files :=
                       Checkpoints.set (processed_files (previous_runs st))
                         k last_modified |}
             /\ List.In (EvToCsv (Py.str_key k ++ ".csv") df Written) new
             /\ (rb = Ok (Some df)
                 \/ exists e t,
                      rb = Raise e
                      /\ log_fault fs t "success.log" = Some e
                      /\ List.In (EvLogFailed "success.log"
                                    (SuccessfullyReadCsv dataset_id) e) new)).
Proof.
  unfold fetch_and_save. intros H.
  destruct (download_url_of dataset) as [download_url|] eqn:Hurl;
    cbn -[Py.hash_key Py.truthy] in H; [|not_written H].
  destruct (Py.truthy download_url) eqn:Htruthy; cbn -[Py.hash_key] in H.
  2:{ destruct (log_fault fs _ _); cbn -[Py.hash_key] in H; not_written H. }
  destruct (requests_get w _ download_url) as [resp|e] eqn:Hget;
    cbn -[Py.hash_key] in H.
  2:{ destruct (log_fault fs _ _); cbn -[Py.hash_key] in H; not_written H. }
  assert (Hrest :
    forall st1 : state,
      (exists before, trace st1 = (trace st ++ before)%list
                      /\ List.existsb is_written before = false)
      -> metadata_file st1 = metadata_file st
      -> previous_runs st1 = previous_runs st
      -> exec (Env w fs)
           (parsed <- call (ReadCsv (text resp)) ;;
            df <- lift parsed ;;
            k <- lift (Py.hash_key dataset_id) ;;
            written <- call (ToCsv (Py.str_key k ++ ".csv")
                               (set_columns df
                                  (convert_columns_to_snake_case (columns df)))) ;;
            _ <- lift written ;;
            call (SetCheckpoint k last_modified) ;;
            logger (SuccessfullyReadCsv dataset_id) "success.log" ;;
            Ret (Some (set_columns df
                         (convert_columns_to_snake_case (columns df)))))%prog
           st1
         = (rb, stb)
      -> exists new,
           trace stb = (trace st ++ new)%list
           /\ metadata_file stb = metadata_file st
           /\ ((previous_runs stb = previous_runs st
                /\ List.existsb is_written new = false
                /\ forall df, rb <> Ok (Some df))
               \/ exists k df,
                    Py.hash_key dataset_id = Ok k
                    /\ previous_runs stb
                       = {| last_run := last_run (previous_runs st);
                            processed_files :=
                              Checkpoints.set
                                (processed_files (previous_runs st))
                                k last_modified |}
                    /\ List.In (EvToCsv (Py.str_key k ++ ".csv") df Written) new
                    /\ (rb = Ok (Some df)
                        \/ exists e t,
                             rb = Raise e
                             /\ log_fault fs t "success.log" = Some e
                             /\ List.In (EvLogFailed "success.log"
                                           (SuccessfullyReadCsv dataset_id) e)
                                  new))).
  { intros st1 (before & Ht & Hb) Hf Hm G. cbn -[Py.hash_key] in G.
    destruct (read_csv w (text resp)) as [df|] eqn:Hcsv; cbn -[Py.hash_key] in G.
    2:{ injection G as <- <-. exists before. repeat split; try assumption.
        left. repeat split; try assumption. intros ? ?; discriminate. }
    destruct (Py.hash_key dataset_id) as [k|] eqn:Hkey; cbn in G.
    2:{ injection G as <- <-. exists before. repeat split; try assumption.
        left. repeat split; try assumption. intros ? ?; discriminate. }
    match type of G with
    | context [to_csv ?w0 ?t ?n ?d] => destruct (to_csv w0 t n d) eqn:Hwrite
    end; cbn in G.
    - match type of G with
      | context [log_fault ?f ?t ?n] => destruct (log_fault f t n) as [e|] eqn:Hlog
      end; cbn in G; injection G as <- <-.
      + eexists. cbn [trace with_trace with_metadata with_output].
        rewrite Ht, <- !List.app_assoc. split; [reflexivity|].
        split; [assumption|]. right. do 2 eexists. split; [reflexivity|].
        cbn [previous_runs with_trace with_metadata with_output]. rewrite Hm.
        split; [reflexivity|]. split.
        * apply List.in_or_app. right. now left.
        * right. do 2 eexists. split; [reflexivity|].
          split; [exact Hlog|].
          apply List.in_or_app. right. right. right. now left.
      + eexists. cbn [trace with_trace with_metadata with_output].
        rewrite Ht, <- !List.app_assoc. split; [reflexivity|].
        split; [assumption|]. right. do 2 eexists. split; [reflexivity|].
        cbn [previous_runs with_trace with_metadata with_output]. rewrite Hm.
        split; [reflexivity|]. split.
        * apply List.in_or_app. right. now left.
        * now left.
    - injection G as <- <-. eexists.
      cbn [trace with_trace with_metadata with_output].
      rewrite Ht, <- !List.app_assoc. split; [reflexivity|].
      split; [assumption|]. left. split; [assumption|]. split.
      + rewrite List.existsb_app, Hb. reflexivity.
      + intros ? ?; discriminate.
    - injection G as <- <-. eexists.
      cbn [trace with_trace with_metadata with_output].
      rewrite Ht, <- !List.app_assoc. split; [reflexivity|].
      split; [assumption|]. left. split; [assumption|]. split.
      + rewrite List.existsb_app, Hb. reflexivity.
      + intros ? ?; discriminate. }
  destruct (status_ok resp) eqn:Hstatus.
  - apply (Hrest (with_trace st (EvRequest download_url))
             (ex_intro _ [EvRequest download_url] (conj eq_refl eq_refl))
             eq_refl eq_refl).
    exact H.
  - cbn -[Py.hash_key] in H.
    match type of H with
    | context [log_fault ?f ?t ?n] => destruct (log_fault f t n) as [e|] eqn:Hlog
    end.
    + cbn -[Py.hash_key] in H. not_written H.
    + apply (Hrest
               (with_trace (with_trace st (EvRequest download_url))
                  (EvLog "errors.log"
                     (now w (List.length (trace st ++ [EvRequest download_url])))
                     (FailedToConnect download_url HTTPError)))).
      * eexists [_; _]. split; [cbn; now rewrite <- List.app_assoc|].
        reflexivity.
      * reflexivity.
      * reflexivity.
      * cbn -[Py.hash_key] in H |- *. exact H.
Qed.

Lemma fetch_and_save_call (w : world) (fs : faults) (st : state)
  (dataset dataset_id last_modified : pyval) (rb : result (option dataframe))
  (stb : state) :
  exec (Env w fs) (fetch_and_save dataset dataset_id last_modified) st
  = (rb, stb) ->
  call_outcome fs st dataset_id last_modified rb stb.
Proof.
  intros H. apply fetch_and_save_faulty in H as (new & Ht & Hf & H).
  exists new. split; [assumption|]. split; [assumption|].
  destruct H as [H|(k & df & Hk & Hm & Hw & H)]; [now left|].
  right. exists k, df. repeat split; try assumption.
  destruct H as [->|(e & t & -> & Hl & He)]; [now left|].
  right. split; [intros ? ?; discriminate | now exists e, t].
Qed.

Lemma call_outcome_refl (fs : faults) (st : state) (dataset_id last_modified : pyval)
  (r : result (option dataframe)) :
  (forall df, r <> Ok (Some df)) ->
  call_outcome fs st dataset_id last_modified r st.
Proof.
  intros Hr. exists []. split; [now rewrite List.app_nil_r|].
  split; [reflexivity|]. left. now repeat split.
Qed.

(** An event that writes no table, added to a call that has not returned
    a table. *)
Lemma call_outcome_event (fs : faults) (st st1 : state) (dataset_id last_modified : pyval)
  (r r' : result (option dataframe)) (e : event) :
  call_outcome fs st dataset_id last_modified r st1 ->
  (forall df, r <> Ok (Some df)) -> (forall df, r' <> Ok (Some df)) ->
  is_written e = false ->
  call_outcome fs st dataset_id last_modified r' (with_trace st1 e).
Proof.
  intros (new & Ht & Hf & H) Hr Hr' He. exists (new ++ [e])%list.
  split; [cbn; now rewrite Ht, List.app_assoc|]. split; [assumption|].
  destruct H as [(Hm & Hw & _)|(k & df & Hk & Hm & Hw & H)].
  - left. repeat split; try assumption.
    rewrite List.existsb_app, Hw. cbn. now rewrite He.
  - right. exists k, df. repeat split; try assumption.
    + apply List.in_or_app. now left.
    + destruct H as [->|(_ & e0 & t & Hl & H)]; [now destruct (Hr df)|].
      right. split; [assumption|]. exists e0, t. split; [assumption|].
      apply List.in_or_app. now left.
Qed.

(** The [except] branch after the body has raised. *)
Lemma on_exception_call (w : world) (fs : faults) (st st1 st' : state)
  (dataset_id last_modified : pyval) (e : exn)
  (r : result (option dataframe)) :
  call_outcome fs st dataset_id last_modified (Raise e) st1 ->
  exec (Env w fs) (on_exception (Some dataset_id)) st1 = (r, st') ->
  call_outcome fs st dataset_id last_modified r st'
  /\ (forall df, r <> Ok (Some df))
  /\ forall e', r = Raise e' ->
       log_fault fs (List.length (trace st1)) "errors.log" = Some e'
       /\ st' = with_trace st1
                  (EvLogFailed "errors.log" (FailedToReadCsv dataset_id) e').
Proof.
  intros Hc H. cbn in H.
  destruct (log_fault fs (List.length (trace st1)) "errors.log") as [e1|];
    cbn in H; injection H as <- <-.
  - split; [|split].
    + apply (call_outcome_event fs st st1 _ _ (Raise e)); try assumption;
        try reflexivity; intros ? ?; discriminate.
    + intros ? ?; discriminate.
    + intros e' E. injection E as <-. now split.
  - split; [|split].
    + apply (call_outcome_event fs st st1 _ _ (Raise e)); try assumption;
        try reflexivity; intros ? ?; discriminate.
    + intros ? ?; discriminate.
    + intros e' E. discriminate E.
Qed.

(** What a call comes to, whatever fails. *)
Lemma process_hospital_data_faulty (w : world) (fs : faults) (st st' : state)
  (dataset : pyval) (r : result (option dataframe)) :
  exec (Env w fs) (process_hospital_data dataset) st = (r, st') ->
  match Py.getitem dataset "identifier" with
  | Raise _ => r = Raise (UnboundLocalError "dataset_id") /\ st' = st
  | Ok dataset_id =>
      (forall e, r = Raise e ->
         exists st1,
           log_fault fs (List.length (trace st1)) "errors.log" = Some e
           /\ st' = with_trace st1
                      (EvLogFailed "errors.log" (FailedToReadCsv dataset_id) e))
      /\ match Py.getitem dataset "modified" with
         | Raise _ =>
             previous_runs st' = previous_runs st
             /\ metadata_file st' = metadata_file st
             /\ (forall df, r <> Ok (Some df))
             /\ exists new, trace st' = (trace st ++ new)%list
                            /\ List.existsb is_written new = false
         | Ok last_modified => call_outcome fs st dataset_id last_modified r st'
         end
  end.
Proof.
  unfold process_hospital_data. intros H.
  destruct (Py.getitem dataset "identifier") as [dataset_id|] eqn:Hid.
  2:{ cbn in H. now injection H as <- <-. }
  rewrite exec_catch in H. unfold process_body in H.
  destruct (Py.getitem dataset "modified") as [last_modified|] eqn:Hmod.
  2:{ cbn in H.
      destruct (log_fault fs (List.length (trace st)) "errors.log") as [e1|]
        eqn:Hlog; cbn in H; injection H as <- <-.
      - split; [intros e' E; injection E as <-; now exists st|].
        repeat split; try (intros ? ?; discriminate).
        eexists [_]. split; reflexivity.
      - split; [intros e' E; discriminate E|].
        repeat split; try (intros ? ?; discriminate).
        eexists [_]. split; reflexivity. }
  change (lift (Ok last_modified)) with (@Ret pyval last_modified) in H.
  cbn [bind] in H. rewrite exec_bind in H.
  destruct (exec (Env w fs) (up_to_date dataset_id last_modified) st)
    as [[skip|e] st1] eqn:Hgate.
  all: apply up_to_date_outcome in Hgate; subst st1.
  - destruct skip.
    + cbn in H.
      destruct (log_fault fs (List.length (trace st)) "success.log") as [e1|]
        eqn:Hlog1; cbn in H.
      * destruct (log_fault fs _ "errors.log") as [e2|] eqn:Hlog2; cbn in H;
          injection H as <- <-.
        -- split.
           { intros e' E. injection E as <-.
             exists (with_trace st
                       (EvLogFailed "success.log" (UpToDate dataset_id) e1)).
             split; [exact Hlog2 | reflexivity]. }
           eexists [_; _].
           split; [cbn; now rewrite <- List.app_assoc|].
           split; [reflexivity|]. left.
           repeat split; intros ? ?; discriminate.
        -- split; [intros e' E; discriminate E|].
           eexists [_; _].
           split; [cbn; now rewrite <- List.app_assoc|].
           split; [reflexivity|]. left.
           repeat split; intros ? ?; discriminate.
      * injection H as <- <-. split; [intros e' E; discriminate E|].
        eexists [_]. split; [reflexivity|]. split; [reflexivity|]. left.
        repeat split; intros ? ?; discriminate.
    + destruct (exec (Env w fs)
                  (fetch_and_save dataset dataset_id last_modified) st)
        as [[a|e] st1] eqn:Hsave.
      * injection H as <- <-. split; [intros e' E; discriminate E|].
        now apply (fetch_and_save_call w fs st dataset).
      * apply fetch_and_save_call in Hsave.
        destruct (on_exception_call w fs st st1 st' dataset_id last_modified
                    e r Hsave H) as (Hc & _ & Hr).
        split; [|assumption]. intros e' E. exists st1. now apply Hr.
  - assert (Hc : call_outcome fs st dataset_id last_modified (Raise e) st).
    { apply call_outcome_refl. intros ? ?; discriminate. }
    destruct (on_exception_call w fs st st st' dataset_id last_modified
                e r Hc H) as (Hc' & _ & Hr).
    split; [|assumption]. intros e' E. exists st. now apply Hr.
Qed.

(** ** Failures and the checkpoint *)

Lemma app_inv_new (t new new' : list event) :
  (t ++ new)%list = (t ++ new')%list -> new = new'.
Proof. apply List.app_inv_head. Qed.

(** C3, as the code has it: the checkpoint is set only after the table
    has been written.  Whatever fails -- the world or the processor's own
    log files --, a call of [process_hospital_data] during which no table
    is written to the output directory (the request raised, the locator
    is missing or cannot be resolved, the body does not parse, the write
    itself failed, or anything else raised before the write) returns no
    table and leaves the metadata in memory as it was: no checkpoint is
    advanced and none is created. *)
Theorem failure_keeps_checkpoints (w : world) (fs : faults) (st st' : state)
  (dataset : pyval) (r : result (option dataframe)) (new : list event)
  (H : exec (Env w fs) (process_hospital_data dataset) st = (r, st'))
  (Hnew : trace st' = (trace st ++ new)%list)
  (Hfailed : List.existsb is_written new = false) :
  previous_runs st' = previous_runs st
  /\ (forall k, Checkpoints.lookup (processed_files (previous_runs st')) k
                = Checkpoints.lookup (processed_files (previous_runs st)) k)
  /\ forall df, r <> Ok (Some df).
Proof.
  assert (G : previous_runs st' = previous_runs st
              /\ forall df, r <> Ok (Some df)).
  { apply process_hospital_data_faulty in H.
    destruct (Py.getitem dataset "identifier") as [dataset_id|].
    - destruct H as [_ H].
      destruct (Py.getitem dataset "modified") as [last_modified|].
      + destruct H as (new' & Ht & _ & [(Hm & _ & Hr)|(k & df & _ & _ & Hw & _)]).
        * now split.
        * rewrite Hnew in Ht. apply app_inv_new in Ht. subst new'.
          assert (E : List.existsb is_written new = true).
          { apply List.existsb_exists. eexists. split; [exact Hw | reflexivity]. }
          rewrite E in Hfailed. discriminate.
      + destruct H as (Hm & _ & Hr & _). now split.
    - destruct H as [-> ->]. split; [reflexivity | intros ? ?; discriminate]. }
  destruct G as [Hm Hr]. split; [assumption|]. split; [|assumption].
  intros k. now rewrite Hm.
Qed.

Lemma failure_keeps_checkpoints_witness :
  previous_runs
    (snd (exec (Env Scenario.unparsable Cases.unwritable_logs)
            (process_hospital_data Scenario.A) Scenario.never_run))
  = previous_runs Scenario.never_run
  /\ (forall k,
        Checkpoints.lookup
          (processed_files
             (previous_runs
                (snd (exec (Env Scenario.unparsable Cases.unwritable_logs)
                        (process_hospital_data Scenario.A)
                        Scenario.never_run)))) k
        = Checkpoints.lookup
            (processed_files (previous_runs Scenario.never_run)) k)
  /\ forall df : dataframe, Raise OSError <> Ok (Some df).
Proof.
  apply (failure_keeps_checkpoints Scenario.unparsable Cases.unwritable_logs
           Scenario.never_run _ Scenario.A (Raise OSError)
           [EvRequest (PStr "https://data.cms.gov/A.csv");
            EvLogFailed "errors.log" (FailedToReadCsv (PStr "A")) OSError]);
    reflexivity.
Defined.

(** C3, as the specification states it, fails.  The download of [A] is
    answered with an HTTP error: [raise_for_status] raises inside
    [connect], which logs "Failed to connect" and returns the response
    all the same; its body is parsed and written, and the identifier,
    which had no checkpoint, has one after the call. *)
Lemma failed_fetch_advances_checkpoint :
  (exists resp,
      requests_get (Cases.error_page ["Error 503"]) 0
        (PStr "https://data.cms.gov/A.csv") = Ok resp
      /\ status_ok resp = false)
  /\ log_lines "errors.log"
       (trace (snd (exec (Cases.error_page ["Error 503"])
                      (process_hospital_data Scenario.A) Scenario.never_run)))
     = [FailedToConnect (PStr "https://data.cms.gov/A.csv") HTTPError]
  /\ Checkpoints.lookup (processed_files (previous_runs Scenario.never_run))
       (KStr "A")
     = None
  /\ Checkpoints.lookup
       (processed_files
          (previous_runs
             (snd (exec (Cases.error_page ["Error 503"])
                     (process_hospital_data Scenario.A) Scenario.never_run))))
       (KStr "A")
     = Some (PStr "2024-01-02").
Proof.
  split; [eexists; split; reflexivity|]. repeat split.
Qed.

(** X9: [process_hospital_data] raises on a dict without the key
    'identifier', and on a dict that has the key only when the line
    "Failed to read csv" of its [except] branch cannot be appended to
    errors.log: the exception is then the one of the append.  Where
    errors.log can be written, every call on a dict with an identifier
    returns. *)
Theorem raises_only_without_identifier (w : world) (fs : faults) (st : state)
  (d : list (string * pyval)) :
  (Py.dict_get d "identifier" = None ->
   exec (Env w fs) (process_hospital_data (PDict d)) st
   = (Raise (UnboundLocalError "dataset_id"), st))
  /\ (forall dataset_id e,
        Py.dict_get d "identifier" = Some dataset_id ->
        fst (exec (Env w fs) (process_hospital_data (PDict d)) st) = Raise e ->
        exists st1,
          log_fault fs (List.length (trace st1)) "errors.log" = Some e
          /\ snd (exec (Env w fs) (process_hospital_data (PDict d)) st)
             = with_trace st1
                 (EvLogFailed "errors.log" (FailedToReadCsv dataset_id) e))
  /\ (forall dataset_id,
        Py.dict_get d "identifier" = Some dataset_id ->
        (forall t, log_fault fs t "errors.log" = None) ->
        is_ok (fst (exec (Env w fs) (process_hospital_data (PDict d)) st))
        = true).
Proof.
  destruct (exec (Env w fs) (process_hospital_data (PDict d)) st) as [r st']
    eqn:H.
  pose proof (process_hospital_data_faulty w fs st st' (PDict d) r H) as G.
  cbn -[Py.dict_get] in G. cbn [fst snd].
  split; [|split].
  - intros Hid. rewrite Hid in G. now destruct G as [-> ->].
  - intros dataset_id e Hid Hr. rewrite Hid in G. destruct G as [G _].
    now apply G.
  - intros dataset_id Hid Hlog. rewrite Hid in G. destruct G as [G _].
    destruct r as [a|e]; [reflexivity|].
    destruct (G e eq_refl) as (st1 & Hf & _). now rewrite Hlog in Hf.
Qed.

Lemma raises_only_without_identifier_witness :
  exists st1,
    log_fault Cases.unwritable_logs (List.length (trace st1)) "errors.log"
    = Some OSError
    /\ snd (exec (Env Scenario.unparsable Cases.unwritable_logs)
              (process_hospital_data
                 (PDict [("identifier", PStr "A")])) Scenario.never_run)
       = with_trace st1
           (EvLogFailed "errors.log" (FailedToReadCsv (PStr "A")) OSError).
Proof.
  apply (proj1 (proj2 (raises_only_without_identifier Scenario.unparsable
                         Cases.unwritable_logs Scenario.never_run
                         [("identifier", PStr "A")])));
    reflexivity.
Defined.





(** ** The listing and the run when the processor's own files fail *)

Ltac log_goal_eqn :=
  repeat match goal with
         | |- context [log_fault ?f ?t ?n] =>
             let E := fresh "Hlog" in
             destruct (log_fault f t n) eqn:E;
             cbn -[Py.iter hospital_datasets]
         end.

Ltac listing_leaf :=
  first [ left; reflexivity
        | right; left; reflexivity
        | right; right; do 3 eexists;
          split; [reflexivity | eassumption] ].

(** What [get_hospital_datasets] returns, whatever fails: the filtered
    listing, or [{}] in its place, unless the line of its [except] branch
    cannot be appended to errors.log. *)
Lemma get_hospital_datasets_result (base_url : string) (w : world) (fs : faults)
  (st : state) :
  fst (exec (Env w fs) (get_hospital_datasets base_url) st)
  = Ok (listed base_url w (List.length (trace st)))
  \/ fst (exec (Env w fs) (get_hospital_datasets base_url) st) = Ok [PDict []]
  \/ exists e e0 st1,
       exec (Env w fs) (get_hospital_datasets base_url) st
       = (Raise e,
          with_trace st1
            (EvLogFailed "errors.log" (FailedToIdentifyTheme e0) e))
       /\ log_fault fs (List.length (trace st1)) "errors.log" = Some e.
Proof.
  unfold get_hospital_datasets, connect, listed, listing.
  cbn -[Py.iter hospital_datasets].
  destruct (requests_get w _ (PStr base_url)) as [resp|e];
    cbn -[Py.iter hospital_datasets].
  2:{ log_goal_eqn; listing_leaf. }
  destruct (status_ok resp); cbn -[Py.iter hospital_datasets].
  2: destruct (log_fault fs _ _) eqn:Hconnect; cbn -[Py.iter hospital_datasets].
  all: try destruct (json resp) as [datasets|e]; cbn -[Py.iter hospital_datasets].
  all: try destruct (Py.iter datasets) as [items|e]; cbn -[hospital_datasets].
  all: try destruct (hospital_datasets items) as [hospital|e]; cbn.
  all: log_goal_eqn; listing_leaf.
Qed.

Lemma listed_themed (base_url : string) (w : world) (t : nat) :
  listed base_url w t = [PDict []]
  \/ List.forallb has_theme (listed base_url w t) = true.
Proof.
  unfold listed, listing.
  destruct (requests_get w _ (PStr base_url)) as [resp|]; [|now left].
  cbn [rbind]. destruct (json resp) as [datasets|]; [|now left].
  cbn [rbind]. destruct (Py.iter datasets) as [items|]; [|now left].
  cbn [rbind]. destruct (List.forallb readable items) eqn:R.
  - rewrite (hospital_datasets_readable items R). right.
    rewrite List.forallb_forall. intros d Hd. now apply List.filter_In in Hd.
  - destruct (hospital_datasets_unreadable items R) as [e ->]. now left.
Qed.

(** X7: [get_hospital_datasets] makes exactly one request, to the base
    URL, writes nothing to success.log and touches neither the metadata
    nor the output directory, whatever fails.  What it returns is the
    list [{}] or a list of catalog items that all pass the theme test.
    It raises only when the line "Failed to indentify Hospital theme" of
    its [except] branch cannot be appended to errors.log, and the
    exception is then the one of the append: where errors.log can be
    written, it returns. *)
Theorem get_hospital_datasets_raises_only_unlogged (base_url : string)
  (w : world) (fs : faults) (st : state) :
  exists r st',
    exec (Env w fs) (get_hospital_datasets base_url) st = (r, st')
    /\ previous_runs st' = previous_runs st
    /\ output_dir st' = output_dir st
    /\ metadata_file st' = metadata_file st
    /\ requests (trace st')
       = (requests (trace st) ++ [EvRequest (PStr base_url)])%list
    /\ log_lines "success.log" (trace st') = log_lines "success.log" (trace st)
    /\ (forall datasets, r = Ok datasets ->
          datasets = [PDict []] \/ List.forallb has_theme datasets = true)
    /\ (forall e, r = Raise e ->
          exists e0 st1,
            log_fault fs (List.length (trace st1)) "errors.log" = Some e
            /\ st' = with_trace st1
                       (EvLogFailed "errors.log" (FailedToIdentifyTheme e0) e))
    /\ ((forall t, log_fault fs t "errors.log" = None) -> is_ok r = true).
Proof.
  destruct (listing_effects base_url (Env w fs) st) as (H1 & H2 & H3 & H4 & H5 & _).
  pose proof (get_hospital_datasets_result base_url w fs st) as R.
  destruct (exec (Env w fs) (get_hospital_datasets base_url) st) as [r st'].
  cbn [fst snd] in *. exists r, st'. split; [reflexivity|].
  repeat (split; [assumption|]).
  assert (Hraise : forall e, r = Raise e ->
            exists e0 st1,
              log_fault fs (List.length (trace st1)) "errors.log" = Some e
              /\ st' = with_trace st1
                         (EvLogFailed "errors.log" (FailedToIdentifyTheme e0) e)).
  { intros e ->. destruct R as [R|[R|(e1 & e0 & st1 & R & Hl)]];
      try discriminate R.
    injection R as E1 E2. subst. now exists e0, st1. }
  split; [|split; [exact Hraise|]].
  - intros datasets ->. destruct R as [R|[R|(e1 & e0 & st1 & R & _)]].
    + injection R as ->. apply listed_themed.
    + injection R as ->. now left.
    + discriminate R.
  - intros Hlog. destruct r as [a|e]; [reflexivity|].
    destruct (Hraise e eq_refl) as (e0 & st1 & Hl & _). now rewrite Hlog in Hl.
Qed.

Lemma exec_log_only {A} (env : environment) (p : prog A) (st : state) :
  all_ops log_op p ->
  previous_runs (snd (exec env p st)) = previous_runs st
  /\ metadata_file (snd (exec env p st)) = metadata_file st
  /\ output_dir (snd (exec env p st)) = output_dir st.
Proof.
  revert st. induction p as [a|e|X o k IH]; intros st Hp; try now repeat split.
  destruct Hp as [Ho Hk]. destruct o; try contradiction. cbn.
  destruct (log_fault (the_faults env) (List.length (trace st)) log_file).
  - apply (IH (Raise e) (with_trace st (EvLogFailed log_file m e)) (Hk _)).
  - apply (IH (Ok tt) (with_trace st (EvLog log_file _ m)) (Hk _)).
Qed.

Lemma collect_log_only (futures : list future) (acc : list dataframe) :
  all_ops log_op (collect futures acc).
Proof.
  revert acc. induction futures as [|[d [[df|]|e]] futures IH]; intros acc;
    cbn [collect]; try exact I; try apply IH.
  apply all_ops_bind; [apply all_ops_lift|]. intros dataset_id.
  apply all_ops_bind; [now apply all_ops_logger|]. intros _. apply IH.
Qed.

(** The loop over the futures raises when a dataset has no identifier,
    whatever the log files do. *)
Lemma collect_raises (env : environment) (futures : list future)
  (acc : list dataframe) (st : state) :
  List.Forall future_raised futures ->
  List.forallb is_dict (List.map fst futures) = true ->
  List.forallb has_identifier (List.map fst futures) = false ->
  is_ok (fst (exec env (collect futures acc) st)) = false.
Proof.
  revert acc st. induction futures as [|[d r] futures IH]; intros acc st Hf Hd Hi;
    [discriminate|].
  inversion Hf as [|? ? Hr Hrest]; subst. cbn in Hd, Hi.
  apply andb_true_iff in Hd as [Hdict Hd]. unfold future_raised in Hr. cbn in Hr.
  destruct (has_identifier d) eqn:Hid.
  - cbn [andb] in Hi. destruct r as [[df|]|e]; cbn [collect]; try now apply IH.
    unfold has_identifier in Hid.
    destruct (Py.getitem d "identifier") as [dataset_id|]; [|discriminate].
    cbn. destruct (log_fault (the_faults env) (List.length (trace st)) "errors.log");
      cbn; [reflexivity | now apply IH].
  - rewrite (Hr eq_refl). cbn [collect]. unfold has_identifier in Hid.
    destruct (Py.getitem d "identifier"); [discriminate | reflexivity].
Qed.

(** The run, once the listing is made, whatever fails. *)
Lemma run_faulty (base_url : string) (w : world) (fs : faults) (workers : nat)
  (schedule : list nat) (st : state) :
  (exists e,
      process_async_requests base_url (Env w fs) (S workers) schedule st
      = (Raise e, snd (exec (Env w fs) (get_hospital_datasets base_url) st)))
  \/ exists datasets futures st2,
       (datasets = listed base_url w (List.length (trace st))
        \/ datasets = [PDict []])
       /\ List.Forall future_raised futures
       /\ Permutation (List.map fst futures) datasets
       /\ within_listing datasets
            (snd (exec (Env w fs) (get_hospital_datasets base_url) st)) st2
       /\ process_async_requests base_url (Env w fs) (S workers) schedule st
          = exec (Env w fs) (finish_run futures) st2.
Proof.
  unfold process_async_requests.
  pose proof (get_hospital_datasets_result base_url w fs st) as R.
  destruct (exec (Env w fs) (get_hospital_datasets base_url) st)
    as [[datasets|e] st1]; cbn [fst snd] in *.
  2:{ left. now exists e. }
  right.
  destruct (pool_within_listing (Env w fs) schedule (S workers) datasets st1)
    as [Hfut Hwithin].
  pose proof (pool_datasets (Env w fs) schedule (S workers) datasets st1)
    as Hperm.
  destruct (run_pool (Env w fs) schedule _ _ [] st1) as [futures st2].
  cbn [fst snd] in *. exists datasets, futures, st2.
  split.
  { destruct R as [R|[R|(e & e0 & st0 & R & _)]]; try discriminate R;
      injection R as ->; auto. }
  split; [|split; [exact Hperm | split; [exact Hwithin | reflexivity]]].
  revert Hfut. apply List.Forall_impl. now intros f [H _].
Qed.

Lemma listed_or_empty_dicts (base_url : string) (w : world) (t : nat)
  (datasets : list pyval) :
  datasets = listed base_url w t \/ datasets = [PDict []] ->
  List.forallb is_dict datasets = true
  /\ (List.forallb has_identifier (listed base_url w t) = false ->
      List.forallb has_identifier datasets = false).
Proof.
  intros [->| ->].
  - split; [apply listed_are_dicts | auto].
  - split; reflexivity.
Qed.

(** On a world on its own the run returns exactly when every listed
    dataset has an identifier, the metadata file being writable. *)
Lemma run_returns_reliably (base_url : string) (w : world) (workers : nat)
  (schedule : list nat) (st : state) :
  (forall t, open_metadata w t = true) ->
  is_ok (fst (process_async_requests base_url w (S workers) schedule st))
  = List.forallb has_identifier (listed base_url w (List.length (trace st))).
Proof.
  intros Hopen.
  destruct (run_outcome base_url w workers schedule st)
    as (futures & st2 & _ & _ & _ & Hrun & Hfin).
  rewrite Hrun, Hfin.
  destruct (List.forallb has_identifier
              (listed base_url w (List.length (trace st)))); [|reflexivity].
  cbn zeta. now rewrite Hopen.
Qed.

(** X19: a listed dataset without identifier aborts the run, whatever
    the schedule and whatever else fails: [process_async_requests]
    raises, leaving [last_run] and the file at the metadata path as they
    were.  When every listed dataset has an identifier, the run returns
    provided the processor's own files can be written (the log files are
    appended to, the metadata file is opened and written). *)
Theorem missing_identifier_aborts_run (base_url : string) (w : world)
  (fs : faults) (workers : nat) (schedule : list nat) (st : state) :
  (List.forallb has_identifier (listed base_url w (List.length (trace st)))
   = false ->
   is_ok (fst (process_async_requests base_url (Env w fs) (S workers)
                 schedule st))
   = false
   /\ metadata_file
        (snd (process_async_requests base_url (Env w fs) (S workers)
                schedule st))
      = metadata_file st
   /\ last_run
        (previous_runs
           (snd (process_async_requests base_url (Env w fs) (S workers)
                   schedule st)))
      = last_run (previous_runs st))
  /\ (List.forallb has_identifier (listed base_url w (List.length (trace st)))
      = true ->
      (forall t f, log_fault fs t f = None) ->
      (forall t, dump_fault fs t = None) ->
      (forall t, open_metadata w t = true) ->
      is_ok (fst (process_async_requests base_url (Env w fs) (S workers)
                    schedule st))
      = true).
Proof.
  split.
  - intros Hid.
    destruct (listing_effects base_url (Env w fs) st) as (Hruns & _ & Hfile & _).
    destruct (run_faulty base_url w fs workers schedule st)
      as [[e ->]|(datasets & futures & st2 & Hd & Hfut & Hperm & Hwithin & ->)].
    { cbn [fst snd]. repeat split; [assumption | now rewrite Hruns]. }
    destruct (listed_or_empty_dicts base_url w _ datasets Hd) as [Hdict Hno].
    specialize (Hno Hid).
    rewrite <- (forallb_permutation is_dict _ _ Hperm) in Hdict.
    rewrite <- (forallb_permutation has_identifier _ _ Hperm) in Hno.
    pose proof (collect_raises (Env w fs) futures [] st2 Hfut Hdict Hno) as Hc.
    destruct (exec_log_only (Env w fs) (collect futures []) st2
                (collect_log_only futures [])) as (Hm & Hf & _).
    destruct Hwithin as (Hf2 & Hl2 & _).
    unfold finish_run. rewrite exec_bind.
    destruct (exec (Env w fs) (collect futures []) st2) as [[dfs|e] st3];
      [discriminate Hc|].
    cbn [fst snd] in *. repeat split.
    + congruence.
    + rewrite Hm, Hl2. now rewrite Hruns.
  - intros Hid Hlog Hdump Hopen.
    rewrite (run_reliable base_url (Env w fs) (S workers) schedule st Hlog Hdump).
    cbn [the_world]. now rewrite (run_returns_reliably base_url w workers
                                    schedule st Hopen).
Qed.

Lemma missing_identifier_aborts_run_witness :
  is_ok (fst (process_async_requests Scenario.catalog_url
                (Env Scenario.offline Cases.unwritable_logs) 4 [2; 0; 1]
                Scenario.never_run))
  = false
  /\ metadata_file
       (snd (process_async_requests Scenario.catalog_url
               (Env Scenario.offline Cases.unwritable_logs) 4 [2; 0; 1]
               Scenario.never_run))
     = metadata_file Scenario.never_run
  /\ last_run
       (previous_runs
          (snd (process_async_requests Scenario.catalog_url
                  (Env Scenario.offline Cases.unwritable_logs) 4 [2; 0; 1]
                  Scenario.never_run)))
     = last_run (previous_runs Scenario.never_run).
Proof.
  apply (proj1 (missing_identifier_aborts_run Scenario.catalog_url
                  Scenario.offline Cases.unwritable_logs 3 [2; 0; 1]
                  Scenario.never_run)).
  reflexivity.
Defined.

(** X20: a run that raises has not touched the file at the metadata
    path, whatever the schedule and the number of workers, unless what
    raised is the write of the flush itself ([json.dump] or the close of
    the file, after [open] has emptied it): the file then holds the first
    characters of the text of the metadata in memory, as many as were
    written when the write failed. *)
Theorem failed_run_leaves_file (base_url : string) (w : world) (fs : faults)
  (workers : nat) (schedule : list nat) (st : state) (e : exn)
  (H : fst (process_async_requests base_url (Env w fs) workers schedule st)
       = Raise e) :
  metadata_file
    (snd (process_async_requests base_url (Env w fs) workers schedule st))
  = metadata_file st
  \/ exists t n,
       dump_fault fs t = Some (e, n)
       /\ metadata_file
            (snd (process_async_requests base_url (Env w fs) workers
                    schedule st))
          = Some (String.substring 0 n
                    (Json.dumps
                       (metadata_value
                          (previous_runs
                             (snd (process_async_requests base_url (Env w fs)
                                     workers schedule st)))))).
Proof.
  destruct (listing_effects base_url (Env w fs) st) as (_ & _ & Hfile & _).
  destruct workers as [|workers].
  { left. unfold process_async_requests.
    destruct (exec (Env w fs) (get_hospital_datasets base_url) st)
      as [[datasets|e1] st1]; exact Hfile. }
  destruct (run_faulty base_url w fs workers schedule st)
    as [[e1 E]|(datasets & futures & st2 & _ & _ & _ & Hwithin & E)];
    rewrite E in *; clear E.
  { now left. }
  destruct Hwithin as (Hf2 & _).
  destruct (exec_log_only (Env w fs) (collect futures []) st2
              (collect_log_only futures [])) as (_ & Hf & _).
  unfold finish_run in *. rewrite exec_bind in *.
  destruct (exec (Env w fs) (collect futures []) st2) as [[dfs|e1] st3].
  2:{ left. cbn [fst snd] in *. congruence. }
  cbn [fst snd] in Hf. cbn in H |- *.
  destruct (open_metadata w _); cbn in H |- *.
  2:{ left. congruence. }
  match goal with
  | |- context [dump_fault fs ?t] => destruct (dump_fault fs t) as [[e1 n]|] eqn:D
  end; cbn in H |- *; [|discriminate H].
  injection H as ->. right. eexists. exists n. split; [exact D | reflexivity].
Qed.

Lemma failed_run_leaves_file_witness :
  metadata_file
    (snd (process_async_requests Scenario.catalog_url
            (Env (Scenario.online ["Facility Name #1"]) Cases.full_disk) 4
            [1; 0] Scenario.never_run))
  = metadata_file Scenario.never_run
  \/ exists t n,
       dump_fault Cases.full_disk t = Some (OSError, n)
       /\ metadata_file
            (snd (process_async_requests Scenario.catalog_url
                    (Env (Scenario.online ["Facility Name #1"]) Cases.full_disk)
                    4 [1; 0] Scenario.never_run))
          = Some (String.substring 0 n
                    (Json.dumps
                       (metadata_value
                          (previous_runs
                             (snd (process_async_requests Scenario.catalog_url
                                     (Env (Scenario.online ["Facility Name #1"])
                                        Cases.full_disk)
                                     4 [1; 0] Scenario.never_run)))))).
Proof.
  apply (failed_run_leaves_file Scenario.catalog_url
           (Scenario.online ["Facility Name #1"]) Cases.full_disk 4 [1; 0]
           Scenario.never_run OSError).
  reflexivity.
Defined.
